(** * wPAW bridge backend: a shallow embedding of the ledger store, the
      job queue, the native-coin watcher and the bridge service.

    Source files embedded here:
    - [RedisUsersDepositsStorage]  (storage/RedisUsersDepositsStorage.ts)
    - [UsersDepositsService]       (services/UsersDepositsService.ts)
    - [RedisProcessingQueue]       (services/queuing/RedisProcessingQueue.ts)
    - [KirbyPawWalletsBlacklist]   (services/KirbyPawWalletsBlacklist.ts)
    - [Paw]                        (Paw.ts)
    - [Service]                    (services/Service.ts)

    The code is asynchronous TypeScript.  The embedding is sequential: one
    operation runs to completion on an explicit store.  What the outside
    world answers (the native node, redlock, the blacklist provider, the
    clock) is read from an environment record; what the [ethers] library
    computes (signature recovery, checksum addresses, decimal parsing and
    printing) is an interface the definitions are parametric in. *)

From Stdlib Require Import ZArith String Ascii List Bool Lia.
From Stdlib Require Import Floats.SpecFloat.
From stdpp Require Import gmap strings pretty sorting.

Import ListNotations.
Local Open Scope string_scope.
Local Open Scope Z_scope.

(** ** JavaScript values the code relies on *)

Module JS.

(** [String.prototype.toLowerCase], on the ASCII letters. *)
Definition lower_ascii (c : ascii) : ascii :=
  let n := nat_of_ascii c in
  if (Nat.leb 65 n && Nat.leb n 90)%bool then ascii_of_nat (n + 32) else c.

Fixpoint toLowerCase (s : string) : string :=
  match s with
  | EmptyString => EmptyString
  | String c s' => String (lower_ascii c) (toLowerCase s')
  end.

(** ToBoolean of a string: only the empty string is falsy. *)
Definition truthy_string (s : string) : bool :=
  match s with EmptyString => false | _ => true end.

(** ToBoolean of an optional string ([undefined] is falsy). *)
Definition truthy_opt (o : option string) : bool :=
  match o with Some s => truthy_string s | None => false end.

(** A promise, as returned by every [async] method.  [await] gives the
    value it settles to.  A promise is an object, and ToBoolean of an
    object is [true] whatever it settles to. *)
Record Promise (A : Type) : Type := resolve { await : A }.
Arguments resolve {A} _.
Arguments await {A} _.

Definition truthy_promise {A : Type} (p : Promise A) : bool := true.

(** *** binary64 numbers ([Number]) *)

Definition prec : Z := 53.
Definition emax : Z := 1024.

Definition Number : Type := spec_float.

(** The [Number] nearest to an integer given by its digits. *)
Definition of_Z (n : Z) : spec_float :=
  match n with
  | Z0 => S754_zero false
  | Zpos p => binary_normalize prec emax (Zpos p) 0 false
  | Zneg p => binary_normalize prec emax (Zneg p) 0 false
  end.

(** The nearest [Number] to the exact quotient [p / q] of two integers,
    [q > 0]: what reading the decimal numeral of [p / q] produces when
    [q] is a power of ten. *)
Definition of_ratio (p q : Z) : spec_float :=
  match p, q with
  | Zpos m, Zpos d =>
      SFdiv prec emax (S754_finite false m 0) (S754_finite false d 0)
  | Zneg m, Zpos d =>
      SFdiv prec emax (S754_finite true m 0) (S754_finite false d 0)
  | Z0, Zpos _ => S754_zero false
  | _, _ => S754_nan
  end.

Definition mul (x y : Number) : Number := SFmul prec emax x y.
Definition div (x y : Number) : Number := SFdiv prec emax x y.

(** [Math.round]: the closest integer, ties towards +infinity. *)
Definition Math_round (x : Number) : Number :=
  match x with
  | S754_finite s m e =>
      if 0 <=? e then x
      else
        let v := if s then Zneg m else Zpos m in
        let n := (2 * v + 2 ^ (- e)) / 2 ^ (1 - e) in
        match n with
        | Z0 => S754_zero s
        | _ => binary_normalize prec emax n 0 false
        end
  | _ => x
  end.

(** [x !== y] on numbers. *)
Definition strict_neq (x y : Number) : bool := negb (SFeqb x y).

End JS.

(** ** The [ethers] library, as an interface

    [ethers] is not part of the repository.  Each function answers
    [None] where the library throws: [verifyMessage] on a signature it
    cannot split, [getAddress] on a string that is not an address,
    [parseEther] and [bigNumberFrom] on a string that is not a numeral. *)

Class Ethers : Type := {
  verifyMessage : string -> string -> option string;
    (* ethers.utils.verifyMessage(message, signature): the signer *)
  getAddress : string -> option string;
    (* ethers.utils.getAddress(address): checksum form *)
  parseEther : string -> option Z;
    (* ethers.utils.parseEther(decimal): 18-decimals integer *)
  formatEther : Z -> string;
    (* ethers.utils.formatEther(value): decimal numeral *)
  bigNumberFrom : string -> option Z
    (* BigNumber.from(digits) *)
}.

Definition ether : Z := 10 ^ 18.

(** ** Operations carried by the queue (models/operations) *)

Module PawUserDeposit.
Record t : Type := mk {
  sender : string;
  amount : string;
  timestamp : Z;
  hash : string
}.
End PawUserDeposit.

Module PawUserWithdrawal.
Record t : Type := mk {
  pawWallet : string;
  amount : string;
  blockchainWallet : string;
  signature : string;
  timestamp : Z;
  attempt : Z
}.
End PawUserWithdrawal.

Module SwapWPAWToPaw.
Record t : Type := mk {
  pawWallet : string;
  amount : string;
  blockchainWallet : string;
  timestamp : Z;
  wpawBalance : string;
  hash : string
}.
End SwapWPAWToPaw.

Inductive Operation : Type :=
  | OpDeposit (d : PawUserDeposit.t)
  | OpWithdrawal (w : PawUserWithdrawal.t)
  | OpSwapToPaw (s : SwapWPAWToPaw.t).

Module OperationsNames.
Definition PawDeposit : string := "paw-deposit".
Definition PawWithdrawal : string := "paw-withdrawal".
Definition SwapToWPAW : string := "swap-paw-to-wpaw".
Definition SwapToPAW : string := "swap-wpaw-to-paw".
End OperationsNames.

Inductive ClaimResponse : Type :=
  | Ok | Blacklisted | AlreadyDone | InvalidOwner | InvalidSignature | Error.

(** Exceptions thrown by the code. *)
Inductive Exn : Type :=
  | Err (message : string)
  | InvalidSignatureError
  | InsufficientBalanceError
  | LockError
  | TypeError.

Inductive Outcome (A : Type) : Type :=
  | Return (a : A)
  | Throw (e : Exn).
Arguments Return {A} _.
Arguments Throw {A} _.

(** ** The Redis store

    One field per family of keys of the layout documented at the top of
    RedisUsersDepositsStorage.ts.  A sorted set is a finite map from its
    members to their scores.  A claim key is the pair of addresses it is
    built from (addresses hold no [:] and no glob character, so that a
    [KEYS] pattern selects what its prefix says); the claim keys are kept
    in the order [KEYS] lists them.  A balance is the integer its decimal
    string stands for.  A pending claim is set with [EXPIRE]: its key
    carries the millisecond of the server's clock it expires at, and
    [redis_time] is that clock.  The cursor is the block number
    [Number.parseInt] reads from the stored numeral; [Number.toString]
    writes every digit of an integer below 2^53, which is where block
    numbers live. *)

Inductive AuditValue : Type :=
  | AStr (s : string)
  | ANum (z : Z).

Record Redis : Type := mkRedis {
  paw_balance : gmap string Z;                      (* paw-balance:<paw> *)
  claims_pending : list (string * string * Z);      (* claims:pending:<paw>:<evm> *)
  claims : list (string * string);                  (* claims:<paw>:<evm> *)
  deposits : gmap string (gmap string Z);           (* deposits:<paw> *)
  withdrawals : gmap string (gmap string Z);        (* withdrawals:<paw> *)
  swaps_wpaw_to_paw : gmap string (gmap string Z);  (* swaps:wpaw-to-paw:<evm> *)
  audit : gmap string (gmap string AuditValue);     (* audit:<hash> *)
  blocks_latest : option Z;                         (* blockchain:blocks:latest *)
  redis_time : Z                                    (* TIME, in milliseconds *)
}.

Definition empty_redis : Redis :=
  mkRedis ∅ [] [] ∅ ∅ ∅ ∅ None 0.

Record BlacklistRecord : Type := mkBlacklistRecord {
  address : string;
  alias : string;
  type : string
}.

(** One entry of [accountsPending.blocks[wallet]]. *)
Record PendingTransaction : Type := mkPendingTransaction {
  pending_amount : string;
  pending_source : string
}.

(** What the outside world answers during one operation. *)
Record Env : Type := mkEnv {
  redlock_lock : string -> bool;
    (* does redlock obtain the named resource within its retries? *)
  redis_exec : bool;
    (* does a MULTI ... EXEC batch commit (all of it) or raise (none of it)? *)
  blacklistedWallets : list BlacklistRecord;
    (* what the blacklist provider returns *)
  getAccountBalance : string -> Z;
    (* Paw.getBalance(wallet) *)
  getAccountTotalBalance : string -> Z;
    (* Paw.getTotalBalance(wallet) *)
  sendPawWithdrawalFromSeed : string -> Z -> option string;
    (* the hash of the send block, or None when the node call throws *)
  getAccountsPending : string -> option (list (string * PendingTransaction));
    (* accountsPending.blocks[wallet], its entries in the order of
       Object.keys; None when it is missing or falsy *)
  Date_now : Z
}.

Record Config : Type := mkConfig {
  PawUsersDepositsHotWallet : string;
  PawUsersDepositsColdWallet : string;
  PawUsersDepositsHotWalletMinimum : string;
  PawUsersDepositsHotWalletToColdWalletRatio : Z;
    (* the number parseFloat reads from the setting, when
       100 - parseFloat(...) is an integer BigNumber.from accepts *)
  BlockchainWalletPendingTransactionsStartFromBlock : Z
}.

(** Redis commands on the families of keys. *)
Module Cmd.

Definition key_eqb (k1 k2 : string * string) : bool :=
  (String.eqb (fst k1) (fst k2) && String.eqb (snd k1) (snd k2))%bool.

(** SET on a key of a claim family: a key is listed once. *)
Definition set_key (k : string * string) (ks : list (string * string))
  : list (string * string) :=
  if existsb (key_eqb k) ks then ks else (ks ++ [k])%list.

(** The keys that have not lapsed at [now]: a key that expires at [t]
    is gone once the clock is past [t]. *)
Definition live (now : Z) (ks : list (string * string * Z))
  : list (string * string) :=
  map fst (List.filter (fun entry => now <=? snd entry) ks).

(** SET key 1 and EXPIRE key seconds, in one batch at [now]: the key
    expires [seconds] from now, whether it was there or not. *)
Definition set_expire (k : string * string) (now seconds : Z)
    (ks : list (string * string * Z)) : list (string * string * Z) :=
  let alive := List.filter (fun entry => now <=? snd entry) ks in
  if existsb (fun entry => key_eqb k (fst entry)) alive
  then map (fun entry => if key_eqb k (fst entry)
                         then (fst entry, now + seconds * 1000) else entry) alive
  else (alive ++ [(k, now + seconds * 1000)])%list.

(** KEYS claims:<paw>:*  *)
Definition keys_of (paw : string) (ks : list (string * string))
  : list (string * string) :=
  List.filter (fun k => String.eqb (fst k) paw) ks.

(** KEYS claims:<paw>:<evm>  *)
Definition keys_exact (paw evm : string) (ks : list (string * string))
  : list (string * string) :=
  List.filter (key_eqb (paw, evm)) ks.

(** ZADD key score member *)
Definition zadd (key : string) (score : Z) (member : string)
    (m : gmap string (gmap string Z)) : gmap string (gmap string Z) :=
  <[ key := <[ member := score ]> (default ∅ (m !! key)) ]> m.

(** ZRANK key member, as "is it there" *)
Definition zrank (key member : string) (m : gmap string (gmap string Z))
  : option Z :=
  m !! key ≫= (fun z => z !! member).

(** ZCOUNT key min max *)
Definition zcount (key : string) (lo hi : Z)
    (m : gmap string (gmap string Z)) : Z :=
  Z.of_nat (length (List.filter (fun p => (lo <=? snd p) && (snd p <=? hi))%bool
                      (map_to_list (default ∅ (m !! key))))).

(** HSET key field value ... *)
Definition hset (key : string) (fields : list (string * AuditValue))
    (m : gmap string (gmap string AuditValue))
  : gmap string (gmap string AuditValue) :=
  <[ key := list_to_map fields ∪ default ∅ (m !! key) ]> m.

End Cmd.

(** Field updates of the store. *)
Definition with_paw_balance (f : gmap string Z -> gmap string Z) (r : Redis) : Redis :=
  mkRedis (f (paw_balance r)) (claims_pending r) (claims r) (deposits r)
          (withdrawals r) (swaps_wpaw_to_paw r) (audit r) (blocks_latest r)
          (redis_time r).

Definition with_claims_pending
    (f : list (string * string * Z) -> list (string * string * Z))
    (r : Redis) : Redis :=
  mkRedis (paw_balance r) (f (claims_pending r)) (claims r) (deposits r)
          (withdrawals r) (swaps_wpaw_to_paw r) (audit r) (blocks_latest r)
          (redis_time r).

Definition with_claims (f : list (string * string) -> list (string * string))
    (r : Redis) : Redis :=
  mkRedis (paw_balance r) (claims_pending r) (f (claims r)) (deposits r)
          (withdrawals r) (swaps_wpaw_to_paw r) (audit r) (blocks_latest r)
          (redis_time r).

Definition with_deposits (f : gmap string (gmap string Z) -> gmap string (gmap string Z))
    (r : Redis) : Redis :=
  mkRedis (paw_balance r) (claims_pending r) (claims r) (f (deposits r))
          (withdrawals r) (swaps_wpaw_to_paw r) (audit r) (blocks_latest r)
          (redis_time r).

Definition with_withdrawals (f : gmap string (gmap string Z) -> gmap string (gmap string Z))
    (r : Redis) : Redis :=
  mkRedis (paw_balance r) (claims_pending r) (claims r) (deposits r)
          (f (withdrawals r)) (swaps_wpaw_to_paw r) (audit r) (blocks_latest r)
          (redis_time r).

Definition with_swaps_wpaw_to_paw
    (f : gmap string (gmap string Z) -> gmap string (gmap string Z))
    (r : Redis) : Redis :=
  mkRedis (paw_balance r) (claims_pending r) (claims r) (deposits r)
          (withdrawals r) (f (swaps_wpaw_to_paw r)) (audit r) (blocks_latest r)
          (redis_time r).

Definition with_audit
    (f : gmap string (gmap string AuditValue) -> gmap string (gmap string AuditValue))
    (r : Redis) : Redis :=
  mkRedis (paw_balance r) (claims_pending r) (claims r) (deposits r)
          (withdrawals r) (swaps_wpaw_to_paw r) (f (audit r)) (blocks_latest r)
          (redis_time r).

Definition with_blocks_latest (v : option Z) (r : Redis) : Redis :=
  mkRedis (paw_balance r) (claims_pending r) (claims r) (deposits r)
          (withdrawals r) (swaps_wpaw_to_paw r) (audit r) v (redis_time r).

(** The store [elapsed] milliseconds later: nothing is written, the
    clock moves on. *)
Definition elapse (elapsed : Z) (r : Redis) : Redis :=
  mkRedis (paw_balance r) (claims_pending r) (claims r) (deposits r)
          (withdrawals r) (swaps_wpaw_to_paw r) (audit r) (blocks_latest r)
          (redis_time r + elapsed).

Definition nonempty {A : Type} (l : list A) : bool :=
  match l with [] => false | _ :: _ => true end.

(** ** storage/RedisUsersDepositsStorage.ts *)

Module RedisUsersDepositsStorage.
Section Storage.
Context {E : Ethers}.
Variable cfg : Config.
Variable env : Env.

(** The early [return] of the [null] branch leaves the lock to expire. *)
Definition getUserAvailableBalance (r : Redis) (from : string) : Outcome Z :=
  if redlock_lock env ("locks:paw-balance:" +:+ from) then
    match paw_balance r !! JS.toLowerCase from with
    | None => Return 0
    | Some rawAmount => Return rawAmount
    end
  else Throw LockError.

Definition hasPendingClaim (r : Redis) (pawAddress : string) : bool :=
  nonempty (Cmd.keys_of (JS.toLowerCase pawAddress)
              (Cmd.live (redis_time r) (claims_pending r))).

Definition storePendingClaim (r : Redis) (pawAddress blockchainAddress : string)
  : Redis * bool :=
  let key := (JS.toLowerCase pawAddress, JS.toLowerCase blockchainAddress) in
  if redis_exec env
  then (with_claims_pending (Cmd.set_expire key (redis_time r) (5 * 60)) r, true)
  else (r, false).

Definition isClaimed (r : Redis) (pawAddress : string) : bool :=
  nonempty (Cmd.keys_of (JS.toLowerCase pawAddress) (claims r)).

Definition hasClaim (r : Redis) (pawAddress blockchainAddress : string) : bool :=
  nonempty (Cmd.keys_exact (JS.toLowerCase pawAddress)
              (JS.toLowerCase blockchainAddress) (claims r)).

(** [pendingClaims[0].replace(":pending", "")]: a [TypeError] when no
    pending claim is listed. *)
Definition confirmClaim (r : Redis) (pawAddress : string) : Redis * Outcome bool :=
  match Cmd.keys_of (JS.toLowerCase pawAddress)
          (Cmd.live (redis_time r) (claims_pending r)) with
  | [] => (r, Throw TypeError)
  | key :: _ => (with_claims (Cmd.set_key key) r, Return true)
  end.

Definition stored_balance (r : Redis) (pawAddress : string) : Z :=
  match paw_balance r !! pawAddress with
  | Some rawBalance => rawBalance
  | None => 0
  end.

Definition storeUserDeposit (r : Redis) (_pawAddress : string) (amount : Z)
    (timestamp : Z) (hash : string) : Redis :=
  let pawAddress := JS.toLowerCase _pawAddress in
  if redlock_lock env ("locks:paw-balance:" +:+ pawAddress) then
    let balance := stored_balance r pawAddress + amount in
    if redis_exec env then
      with_audit (Cmd.hset hash
          [("type", AStr "deposit"); ("hash", AStr hash);
           ("amount", ANum amount); ("timestamp", ANum timestamp)])
        (with_deposits (Cmd.zadd pawAddress timestamp hash)
          (with_paw_balance (insert pawAddress balance) r))
    else r
  else r.

Definition containsUserDepositTransaction (r : Redis) (pawAddress hash : string)
  : bool :=
  match Cmd.zrank (JS.toLowerCase pawAddress) hash (deposits r) with
  | Some _ => true
  | None => false
  end.

Definition storeUserWithdrawal (r : Redis) (_pawAddress : string) (amount : Z)
    (timestamp : Z) (hash : string) : Redis :=
  let pawAddress := JS.toLowerCase _pawAddress in
  if redlock_lock env ("locks:paw-balance:" +:+ pawAddress) then
    let balance := stored_balance r pawAddress - amount in
    if redis_exec env then
      with_audit (Cmd.hset hash
          [("type", AStr "withdrawal"); ("hash", AStr hash);
           ("amount", ANum amount); ("timestamp", ANum timestamp)])
        (with_withdrawals (Cmd.zadd pawAddress timestamp hash)
          (with_paw_balance (insert pawAddress balance) r))
    else r
  else r.

Definition containsUserWithdrawalRequest (r : Redis) (pawAddress : string)
    (timestamp : Z) : bool :=
  Cmd.zcount (JS.toLowerCase pawAddress) timestamp timestamp (withdrawals r) =? 1.

Definition swapToPawWasAlreadyDone (r : Redis) (swap : SwapWPAWToPaw.t) : bool :=
  match Cmd.zrank (JS.toLowerCase (SwapWPAWToPaw.blockchainWallet swap))
          (SwapWPAWToPaw.hash swap) (swaps_wpaw_to_paw r) with
  | Some _ => true
  | None => false
  end.

(** Only the missing address is thrown to the caller; what happens once
    the lock is asked for is logged and swallowed. *)
Definition storeUserSwapToPaw (r : Redis) (swap : SwapWPAWToPaw.t)
  : Redis * Outcome unit :=
  let pawWallet := SwapWPAWToPaw.pawWallet swap in
  if negb (JS.truthy_string pawWallet) then (r, Throw (Err "Missing PAW address"))
  else if redlock_lock env ("locks:paw-balance:" +:+ pawWallet) then
    if swapToPawWasAlreadyDone r swap then (r, Return tt)
    else
      match parseEther (SwapWPAWToPaw.amount swap) with
      | None => (r, Return tt)
      | Some amount =>
          let balance := stored_balance r (JS.toLowerCase pawWallet) + amount in
          if redis_exec env then
            (with_audit (Cmd.hset (SwapWPAWToPaw.hash swap)
                [("type", AStr "swap-to-paw");
                 ("hash", AStr (SwapWPAWToPaw.hash swap));
                 ("pawAddress", AStr (JS.toLowerCase pawWallet));
                 ("amount", AStr (pretty amount));
                 ("timestamp", ANum (SwapWPAWToPaw.timestamp swap * 1000))])
              (with_swaps_wpaw_to_paw
                 (Cmd.zadd (JS.toLowerCase (SwapWPAWToPaw.blockchainWallet swap))
                    (SwapWPAWToPaw.timestamp swap * 1000) (SwapWPAWToPaw.hash swap))
                 (with_paw_balance (insert (JS.toLowerCase pawWallet) balance) r)),
             Return tt)
          else (r, Return tt)
      end
  else (r, Return tt).

Definition getLastBlockchainBlockProcessed (r : Redis) : Z :=
  match blocks_latest r with
  | None => BlockchainWalletPendingTransactionsStartFromBlock cfg
  | Some rawBlockValue => rawBlockValue
  end.

(** The [SET] of [setLastBlockchainBlockProcessed], sent once its read
    has answered [lastBlockProcessed].  Nothing locks the key between the
    two, and neither the [SET] nor the call in [processBlocksSlice] is
    awaited. *)
Definition setLastBlockchainBlockProcessed_write (lastBlockProcessed block : Z)
    (r : Redis) : Redis :=
  if block >? lastBlockProcessed then with_blocks_latest (Some block) r else r.

(** A call that no other write comes in between. *)
Definition setLastBlockchainBlockProcessed (r : Redis) (block : Z) : Redis :=
  let lastBlockProcessed := getLastBlockchainBlockProcessed r in
  setLastBlockchainBlockProcessed_write lastBlockProcessed block r.

(** Calls made in a row, none awaited: every [GET] is sent before the
    first [SET], so that every call reads the cursor as it was, and the
    [SET]s arrive in the order of the calls. *)
Definition setLastBlockchainBlockProcessed_unawaited (r : Redis) (blocks : list Z)
  : Redis :=
  let lastBlockProcessed := getLastBlockchainBlockProcessed r in
  fold_left (fun r' block =>
               setLastBlockchainBlockProcessed_write lastBlockProcessed block r')
            blocks r.

End Storage.
End RedisUsersDepositsStorage.

(** ** services/UsersDepositsService.ts

    Every method is [async]: the boolean queries return promises. *)

Module UsersDepositsService.
Section Service.
Context {E : Ethers}.
Variable cfg : Config.
Variable env : Env.

Definition getUserAvailableBalance (r : Redis) (from : string) : Outcome Z :=
  RedisUsersDepositsStorage.getUserAvailableBalance env r from.

Definition hasPendingClaim (r : Redis) (pawAddress : string) : JS.Promise bool :=
  JS.resolve (RedisUsersDepositsStorage.hasPendingClaim r pawAddress).

Definition storePendingClaim (r : Redis) (pawAddress blockchainAddress : string)
  : Redis * bool :=
  if RedisUsersDepositsStorage.hasPendingClaim r pawAddress then (r, false)
  else RedisUsersDepositsStorage.storePendingClaim env r pawAddress blockchainAddress.

Definition isClaimed (r : Redis) (pawAddress : string) : JS.Promise bool :=
  JS.resolve (RedisUsersDepositsStorage.isClaimed r pawAddress).

Definition hasClaim (r : Redis) (pawAddress blockchainAddress : string)
  : JS.Promise bool :=
  JS.resolve (RedisUsersDepositsStorage.hasClaim r pawAddress blockchainAddress).

Definition confirmClaim (r : Redis) (pawAddress : string) : Redis * Outcome bool :=
  RedisUsersDepositsStorage.confirmClaim r pawAddress.

Definition storeUserDeposit (r : Redis) (pawAddress : string) (amount : Z)
    (timestamp : Z) (hash : string) : Redis :=
  if RedisUsersDepositsStorage.containsUserDepositTransaction r pawAddress hash
  then r
  else RedisUsersDepositsStorage.storeUserDeposit env r pawAddress amount timestamp hash.

Definition containsUserWithdrawalRequest (r : Redis) (withdrawal : PawUserWithdrawal.t)
  : JS.Promise bool :=
  JS.resolve (RedisUsersDepositsStorage.containsUserWithdrawalRequest r
    (PawUserWithdrawal.pawWallet withdrawal) (PawUserWithdrawal.timestamp withdrawal)).

Definition storeUserWithdrawal (r : Redis) (pawAddress : string) (amount : Z)
    (timestamp : Z) (hash : string) : Redis :=
  if RedisUsersDepositsStorage.containsUserWithdrawalRequest r pawAddress timestamp
  then r
  else RedisUsersDepositsStorage.storeUserWithdrawal env r pawAddress amount timestamp hash.

Definition getLastBlockchainBlockProcessed (r : Redis) : Z :=
  RedisUsersDepositsStorage.getLastBlockchainBlockProcessed cfg r.

Definition setLastBlockchainBlockProcessed (r : Redis) (block : Z) : Redis :=
  RedisUsersDepositsStorage.setLastBlockchainBlockProcessed cfg r block.

Definition storeUserSwapToPaw (r : Redis) (event : SwapWPAWToPaw.t)
  : Redis * Outcome unit :=
  RedisUsersDepositsStorage.storeUserSwapToPaw env r event.

Definition containsUserSwapToPaw (r : Redis) (event : SwapWPAWToPaw.t)
  : JS.Promise bool :=
  JS.resolve (RedisUsersDepositsStorage.swapToPawWasAlreadyDone r event).

End Service.
End UsersDepositsService.

(** ** The world an operation runs in, and the monad of operations

    [node_calls] lists the calls made to the native node, oldest first.
    An exception leaves the world as it was when it was thrown. *)

Inductive NodeCall : Type :=
  | Receive (hash : string)
  | Send (to : string) (amount : Z).

Record Job : Type := mkJob {
  jobName : string;
  jobData : Operation;
  jobId : string;
  jobDelay : Z;
  jobTimestamp : Z;
  jobRemoveOnFail : bool
}.

Record World : Type := mkWorld {
  redis : Redis;
  queue : list Job;
  node_calls : list NodeCall
}.

Definition M (A : Type) : Type := World -> World * Outcome A.

Definition ret {A : Type} (a : A) : M A := fun w => (w, Return a).

Definition throw {A : Type} (e : Exn) : M A := fun w => (w, Throw e).

(** A synchronous call that returns or throws. *)
Definition lift {A : Type} (o : Outcome A) : M A := fun w => (w, o).

Definition bind {A B : Type} (m : M A) (k : A -> M B) : M B :=
  fun w =>
    match m w with
    | (w', Return a) => k a w'
    | (w', Throw e) => (w', Throw e)
    end.

Definition try_catch {A : Type} (m : M A) (handler : Exn -> M A) : M A :=
  fun w =>
    match m w with
    | (w', Return a) => (w', Return a)
    | (w', Throw e) => handler e w'
    end.

Notation "'let*' x ':=' m 'in' k" := (bind m (fun x => k))
  (at level 10, x pattern, m at level 100, k at level 200).
Notation "m '>>' k" := (bind m (fun _ => k))
  (at level 199, right associativity).

(** Read the store, or run a storage method on it. *)
Definition query {A : Type} (f : Redis -> A) : M A :=
  fun w => (w, Return (f (redis w))).

Definition update (f : Redis -> Redis) : M unit :=
  fun w => (mkWorld (f (redis w)) (queue w) (node_calls w), Return tt).

Definition update_with {A : Type} (f : Redis -> Redis * A) : M A :=
  fun w => let (r', a) := f (redis w) in
           (mkWorld r' (queue w) (node_calls w), Return a).

Definition call_node (c : NodeCall) : M unit :=
  fun w => (mkWorld (redis w) (queue w) (node_calls w ++ [c])%list, Return tt).

Definition dquote : string := String "034"%char EmptyString.

(** ** services/queuing/RedisProcessingQueue.ts *)

Module RedisProcessingQueue.

Definition PENDING_WITHDRAWAL_RETRY_DELAY : Z := 1 * 60 * 1000.

(** [Queue.add] is bullmq's, not the repository's.  What is taken from
    its documentation: a job whose id is that of a job the queue holds
    is not added again.  The queue of the model holds the jobs that were
    added and have not run yet; what bullmq keeps of the jobs that have
    run ([removeOnComplete: 100_000], [removeOnFail]) is not modelled,
    and nothing below rests on it.  Without options a job has no delay
    and stays when it fails ([defaultJobOptions]). *)
Definition add (job : Job) : M unit :=
  fun w =>
    let q := queue w in
    let q' := if existsb (fun j => String.eqb (jobId j) (jobId job)) q
              then q else (q ++ [job])%list in
    (mkWorld (redis w) q' (node_calls w), Return tt).

Definition addPawUserDeposit (deposit : PawUserDeposit.t) : M unit :=
  add (mkJob OperationsNames.PawDeposit (OpDeposit deposit)
         (OperationsNames.PawDeposit +:+ "-" +:+ PawUserDeposit.sender deposit
            +:+ "-" +:+ PawUserDeposit.hash deposit)
         0 (PawUserDeposit.timestamp deposit) false).

Definition addPawUserWithdrawal (withdrawal : PawUserWithdrawal.t) : M unit :=
  add (mkJob OperationsNames.PawWithdrawal (OpWithdrawal withdrawal)
         (OperationsNames.PawWithdrawal +:+ "-"
            +:+ PawUserWithdrawal.pawWallet withdrawal
            +:+ "-" +:+ pretty (PawUserWithdrawal.timestamp withdrawal))
         0 (PawUserWithdrawal.timestamp withdrawal) false).

(** [const withdrawal = _withdrawal] is the caller's object: the
    increment of [attempt] is seen by the caller.  The object as it is
    after the call is returned. *)
Definition addPawUserPendingWithdrawal (_withdrawal : PawUserWithdrawal.t)
  : M PawUserWithdrawal.t :=
  let withdrawal :=
    PawUserWithdrawal.mk
      (PawUserWithdrawal.pawWallet _withdrawal)
      (PawUserWithdrawal.amount _withdrawal)
      (PawUserWithdrawal.blockchainWallet _withdrawal)
      (PawUserWithdrawal.signature _withdrawal)
      (PawUserWithdrawal.timestamp _withdrawal)
      (PawUserWithdrawal.attempt _withdrawal + 1) in
  add (mkJob OperationsNames.PawWithdrawal (OpWithdrawal withdrawal)
         ("pending-" +:+ OperationsNames.PawWithdrawal +:+ "-"
            +:+ PawUserWithdrawal.pawWallet withdrawal
            +:+ "-" +:+ pretty (PawUserWithdrawal.timestamp withdrawal)
            +:+ "-attempt-" +:+ pretty (PawUserWithdrawal.attempt withdrawal))
         (PawUserWithdrawal.attempt withdrawal * PENDING_WITHDRAWAL_RETRY_DELAY)
         (PawUserWithdrawal.timestamp withdrawal) true) >>
  ret withdrawal.

Definition addSwapToPaw (swap : SwapWPAWToPaw.t) : M unit :=
  add (mkJob OperationsNames.SwapToPAW (OpSwapToPaw swap)
         (OperationsNames.SwapToPAW +:+ "-" +:+ SwapWPAWToPaw.blockchainWallet swap
            +:+ "-" +:+ SwapWPAWToPaw.hash swap)
         0 (SwapWPAWToPaw.timestamp swap) false).

End RedisProcessingQueue.

(** ** services/KirbyPawWalletsBlacklist.ts *)

Module KirbyPawWalletsBlacklist.

Definition getBlacklistedWallets (env : Env) : list BlacklistRecord :=
  blacklistedWallets env.

Definition isBlacklisted (env : Env) (pawWallet : string) : option BlacklistRecord :=
  find (fun record => String.eqb (address record) pawWallet)
       (getBlacklistedWallets env).

End KirbyPawWalletsBlacklist.

(** Run a storage method that may throw. *)
Definition attempt {A : Type} (f : Redis -> Outcome A) : M A :=
  fun w => (w, f (redis w)).

Definition attempt_update {A : Type} (f : Redis -> Redis * Outcome A) : M A :=
  fun w => let (r', o) := f (redis w) in
           (mkWorld r' (queue w) (node_calls w), o).

(** ** Paw.ts *)

(** [notification.message] of a websocket confirmation. *)
Record Notification : Type := mkNotification {
  msg_account : string;
  msg_link_as_account : string;
  msg_amount : string;
  msg_hash : string
}.

Module Paw.
Section Paw.
Context {E : Ethers}.
Variable cfg : Config.
Variable env : Env.

Definition usersDepositsHotWallet : string := PawUsersDepositsHotWallet cfg.
Definition usersDepositsColdWallet : string := PawUsersDepositsColdWallet cfg.

Definition sendPaw (pawAddress : string) (amount : Z) : M string :=
  call_node (Send pawAddress amount) >>
  match sendPawWithdrawalFromSeed env pawAddress amount with
  | Some hash => ret hash
  | None => throw (Err "sendPawWithdrawalFromSeed")
  end.

(** The node error, if any, is logged and swallowed. *)
Definition receiveTransaction (hash : string) : M unit :=
  call_node (Receive hash).

Definition getBalance (wallet : string) : Z := getAccountBalance env wallet.

Definition getTotalBalance (wallet : string) : Z := getAccountTotalBalance env wallet.

Definition queueUserDeposit (sender : string) (amount : Z) (timestamp : Z)
    (hash : string) : M unit :=
  RedisProcessingQueue.addPawUserDeposit
    (PawUserDeposit.mk sender (formatEther amount) timestamp hash).

(** [rawAmount.substring(0, rawAmount.length - 9)] *)
Definition strip_raw (rawAmount : string) : string :=
  String.substring 0 (String.length rawAmount - 9) rawAmount.

Definition wsMessageReceived (notification : Notification) : M unit :=
  let sender := msg_account notification in
  let receiver := msg_link_as_account notification in
  let rawAmount := msg_amount notification in
  match bigNumberFrom (strip_raw rawAmount) with
  | None => throw (Err "invalid BigNumber string")
  | Some amount =>
      let timestamp := Date_now env in
      let hash := msg_hash notification in
      if (String.eqb sender usersDepositsHotWallet
          || String.eqb sender usersDepositsColdWallet)%bool
      then receiveTransaction hash
      else if negb (String.eqb usersDepositsHotWallet receiver) then ret tt
      else queueUserDeposit sender amount timestamp hash
  end.

(** The body of [for (const hash of transactionsHashes)].  A [return]
    inside the body leaves the method, so what is left of the list is
    dropped; an exception is caught by the [try] of its own iteration
    and the loop goes on. *)
Fixpoint processPendingTransactions_loop
    (transactions : list (string * PendingTransaction)) : M unit :=
  match transactions with
  | [] => ret tt
  | (hash, transaction) :: rest =>
      let amount := pending_amount transaction in
      let sender := pending_source transaction in
      if (String.length amount <? 9)%nat then
        receiveTransaction hash                               (* return *)
      else
        match bigNumberFrom (strip_raw amount) with
        | None => processPendingTransactions_loop rest         (* catch *)
        | Some pawAmount =>
            let timestamp := Date_now env in
            if (String.eqb sender usersDepositsHotWallet
                || String.eqb sender usersDepositsColdWallet)%bool
            then receiveTransaction hash                       (* return *)
            else
              try_catch (queueUserDeposit sender pawAmount timestamp hash)
                        (fun _ => ret tt) >>
              processPendingTransactions_loop rest
        end
  end.

Definition processPendingTransactions (wallet : string) : M unit :=
  match getAccountsPending env wallet with
  | Some walletPendingTransactions =>
      processPendingTransactions_loop walletPendingTransactions
  | None => ret tt
  end.

(** [Math.round(Number.parseInt(ethers.utils.formatUnits(amount, 18),
    10)).toString()], read back by [parseEther]: the whole units of
    [amount], as long as they are a safe integer (below 2^53).  Beyond,
    the binary64 that [parseInt] returns is not the integer it read, and
    what is stated of this function is stated below that bound. *)
Definition whole_units (amount : Z) : Z := Z.quot amount ether.

Definition eventuallySendToColdWallet (deposit : Z) : M unit :=
  let hotWalletBalance := getTotalBalance usersDepositsHotWallet in
  match parseEther (PawUsersDepositsHotWalletMinimum cfg) with
  | None => throw (Err "invalid decimal value")
  | Some minimumPawInHotWallet =>
      let amountAboveMinimum := hotWalletBalance - minimumPawInHotWallet in
      if amountAboveMinimum <=? 0 then ret tt
      else
        let amount :=
          if amountAboveMinimum >? deposit then deposit else amountAboveMinimum in
        let rounded := whole_units amount in
        let targetRatio := 100 - PawUsersDepositsHotWalletToColdWalletRatio cfg in
        let amount := rounded * ether in
        let amount := Z.quot amount 100 * targetRatio in
        if amount =? 0 then ret tt
        else sendPaw usersDepositsColdWallet amount >> ret tt
  end.

(** [Number.parseFloat(formattedAmount)]: [formatEther] prints
    [amount / 10^18] exactly, [parseFloat] reads the nearest binary64. *)
Definition parseFloat_formatEther (amount : Z) : JS.Number :=
  JS.of_ratio amount ether.

Definition processUserDeposit (sender : string) (amount : Z) (timestamp : Z)
    (hash : string) : M bool :=
  let* pending :=
    query (fun r => JS.await (UsersDepositsService.hasPendingClaim r sender)) in
  (if pending
   then attempt_update (fun r => UsersDepositsService.confirmClaim r sender) >> ret tt
   else ret tt) >>
  receiveTransaction hash >>
  let* claimed :=
    query (fun r => JS.await (UsersDepositsService.isClaimed r sender)) in
  if negb claimed then
    try_catch (sendPaw sender amount >> ret false) (fun err => throw err)
  else
    let number := parseFloat_formatEther amount in
    let rounded :=
      JS.div (JS.Math_round (JS.mul number (JS.of_Z 100))) (JS.of_Z 100) in
    if JS.strict_neq number rounded then
      try_catch (sendPaw sender amount >> ret false) (fun err => throw err)
    else
      update (fun r =>
        UsersDepositsService.storeUserDeposit env r sender amount timestamp hash) >>
      eventuallySendToColdWallet amount >>
      ret true.

End Paw.
End Paw.

(** ** services/Service.ts *)

(** What a withdrawal job returns to the queue. *)
Record WithdrawalResult : Type := mkWithdrawalResult {
  res_pawWallet : string;
  res_withdrawal : string;
  res_balance : string;
  res_transaction : string
}.

Module Service.
Section Service.
Context {E : Ethers}.
Variable cfg : Config.
Variable env : Env.

(** [verifyMessage] is called first, [getAddress] second; what either
    throws is caught neither here nor by the callers. *)
Definition checkSignature (blockchainWallet signature expected : string)
  : Outcome bool :=
  match verifyMessage expected signature with
  | None => Throw (Err "verifyMessage")
  | Some author =>
      match getAddress blockchainWallet with
      | None => Throw (Err "getAddress")
      | Some sanitizedAddress => Return (String.eqb author sanitizedAddress)
      end
  end.

Definition claim_message (pawWallet : string) : string :=
  "I hereby claim that the PAW address " +:+ dquote +:+ pawWallet +:+ dquote
    +:+ " is mine".

Definition claim (pawWallet blockchainWallet signature : string) : M ClaimResponse :=
  let* valid :=
    lift (checkSignature blockchainWallet signature (claim_message pawWallet)) in
  if negb valid
  then ret InvalidSignature
  else
    match KirbyPawWalletsBlacklist.isBlacklisted env pawWallet with
    | Some blacklisted => ret Blacklisted
    | None =>
        let* claimed :=
          query (fun r =>
            JS.await (UsersDepositsService.hasClaim r pawWallet blockchainWallet)) in
        if claimed then ret AlreadyDone
        else
          let* pending :=
            query (fun r =>
              JS.await (UsersDepositsService.hasPendingClaim r pawWallet)) in
          if negb pending then
            let* stored :=
              update_with (fun r =>
                UsersDepositsService.storePendingClaim env r pawWallet
                  blockchainWallet) in
            ret (if stored : bool then Ok else Error)
          else ret InvalidOwner
    end.

Definition withdrawPAW (pawWallet amount blockchainWallet : string) (timestamp : Z)
    (signature : string) : M unit :=
  RedisProcessingQueue.addPawUserWithdrawal
    (PawUserWithdrawal.mk pawWallet amount blockchainWallet signature timestamp 0).

Definition withdraw_message (amount pawWallet : string) : string :=
  "Withdraw " +:+ amount +:+ " PAW to my wallet " +:+ dquote +:+ pawWallet
    +:+ dquote.

(** Returns [{ pending, hash }] together with the withdrawal object as
    the queue left it. *)
Definition eventuallySendPaw (withdrawal : PawUserWithdrawal.t)
  : M (bool * option string * PawUserWithdrawal.t) :=
  let amountStr := PawUserWithdrawal.amount withdrawal in
  match parseEther amountStr with
  | None => throw (Err "invalid decimal value")
  | Some amount =>
      let hotWalletBalance := Paw.getBalance env (PawUsersDepositsHotWallet cfg) in
      if hotWalletBalance <? amount then
        let* withdrawal' :=
          RedisProcessingQueue.addPawUserPendingWithdrawal withdrawal in
        ret (true, None, withdrawal')
      else
        let* hash := Paw.sendPaw env (PawUserWithdrawal.pawWallet withdrawal) amount in
        ret (false, Some hash, withdrawal)
  end.

(** The two claim checks test the promises themselves: neither
    [isClaimed] nor [hasClaim] is awaited here. *)
Definition processWithdrawPAW (withdrawal : PawUserWithdrawal.t)
    (signature : option string) : M (string * PawUserWithdrawal.t) :=
  let pawWallet := PawUserWithdrawal.pawWallet withdrawal in
  let amount := PawUserWithdrawal.amount withdrawal in
  let blockchainWallet := PawUserWithdrawal.blockchainWallet withdrawal in
  let timestamp := PawUserWithdrawal.timestamp withdrawal in
  let* already :=
    query (fun r =>
      JS.await (UsersDepositsService.containsUserWithdrawalRequest r withdrawal)) in
  if already then
    throw (Err "Can't withdraw PAW as the transaction was already processed")
  else
  let* refused :=
    if JS.truthy_opt signature then
      let* valid :=
        lift (checkSignature blockchainWallet (default "" signature)
                (withdraw_message amount pawWallet)) in
      ret (negb valid)
    else ret false in
  if refused
  then throw InvalidSignatureError
  else
    let* isClaimed := query (fun r => UsersDepositsService.isClaimed r pawWallet) in
    if negb (JS.truthy_promise isClaimed) then
      throw (Err ("Can't withdraw from unclaimed wallet " +:+ pawWallet))
    else
      let* hasClaim :=
        query (fun r => UsersDepositsService.hasClaim r pawWallet blockchainWallet) in
      if negb (JS.truthy_promise hasClaim) then
        throw (Err "Can't withdraw from another Blockchain wallet")
      else
        match parseEther amount with
        | None => throw (Err "invalid decimal value")
        | Some withdrawnAmount =>
            if withdrawnAmount <? 0 then
              throw (Err "Can't withdraw negative amounts of PAW")
            else
              let* availableBalance :=
                attempt (fun r =>
                  UsersDepositsService.getUserAvailableBalance env r pawWallet) in
              if negb (availableBalance >=? withdrawnAmount) then
                throw InsufficientBalanceError
              else
                let* (pending, hash, withdrawal') := eventuallySendPaw withdrawal in
                if (pending || negb (JS.truthy_opt hash))%bool then
                  ret ("", withdrawal')
                else
                  update (fun r =>
                    UsersDepositsService.storeUserWithdrawal env r pawWallet
                      withdrawnAmount timestamp (default "" hash)) >>
                  ret (default "" hash, withdrawal')
        end.

(** [withdrawal] is [job.data]: the object [processWithdrawPAW] handed
    to the queue, read again after the call.

    When the withdrawal was paid, the debit is still under way: neither
    [UsersDepositsService.storeUserWithdrawal] nor the storage awaits
    it.  It has asked redlock for [locks:paw-balance:<lower-cased
    address>], and the read of the balance asks next for
    [locks:paw-balance:<address as given>].  For an address in lower
    case the two are one resource: the read waits for the debit and sees
    the store it leaves.  Otherwise both locks are handed over at once:
    the read is answered from the store as it was [before] the debit,
    which is committed afterwards. *)
Definition withdrawalProcessor (signature : option string)
    (job_data : PawUserWithdrawal.t) : M WithdrawalResult :=
  let* before := query (fun r => r) in
  let* (hash, withdrawal) := processWithdrawPAW job_data signature in
  if JS.truthy_string hash then
    let pawWallet := PawUserWithdrawal.pawWallet withdrawal in
    let* balance :=
      attempt (fun r =>
        UsersDepositsService.getUserAvailableBalance env
          (if String.eqb pawWallet (JS.toLowerCase pawWallet) then r else before)
          pawWallet) in
    ret (mkWithdrawalResult (PawUserWithdrawal.pawWallet withdrawal)
           (PawUserWithdrawal.amount withdrawal) (formatEther balance) hash)
  else if PawUserWithdrawal.attempt withdrawal =? 1 then
    let* balance :=
      attempt (fun r =>
        UsersDepositsService.getUserAvailableBalance env r
          (PawUserWithdrawal.pawWallet withdrawal)) in
    ret (mkWithdrawalResult (PawUserWithdrawal.pawWallet withdrawal)
           (PawUserWithdrawal.amount withdrawal) (formatEther balance) "")
  else
    throw (Err "Old pending withdrawal request replaced by a new one").

(** The processor registered for [OperationsNames.PawWithdrawal]. *)
Definition withdrawalJob (job_data : PawUserWithdrawal.t) : M WithdrawalResult :=
  withdrawalProcessor (Some (PawUserWithdrawal.signature job_data)) job_data.

Definition swapToPAW (swap : SwapWPAWToPaw.t) : M unit :=
  RedisProcessingQueue.addSwapToPaw swap.

(** Returns [{ hash, wpawBalance }]. *)
Definition processSwapToPAW (swap : SwapWPAWToPaw.t) : M (string * string) :=
  let* done :=
    query (fun r => JS.await (UsersDepositsService.containsUserSwapToPaw r swap)) in
  if done then
    ret (SwapWPAWToPaw.hash swap, SwapWPAWToPaw.wpawBalance swap)
  else
    attempt_update (fun r => UsersDepositsService.storeUserSwapToPaw env r swap) >>
    ret (SwapWPAWToPaw.hash swap, SwapWPAWToPaw.wpawBalance swap).

End Service.
End Service.

(** ** services/queuing/RedisProcessingQueue.ts: the pending withdrawals

    The queue of the model holds the jobs that wait or are delayed, the
    two states the sum looks at: a job added without delay waits, one
    added with a delay is delayed. *)

Module PendingWithdrawals.
Section PendingWithdrawals.
Context {E : Ethers}.

(** [job.data.amount]: every operation carries one. *)
Definition data_amount (data : Operation) : string :=
  match data with
  | OpDeposit deposit => PawUserDeposit.amount deposit
  | OpWithdrawal withdrawal => PawUserWithdrawal.amount withdrawal
  | OpSwapToPaw swap => SwapWPAWToPaw.amount swap
  end.

Definition getWaiting (w : World) : list Job :=
  List.filter (fun job => jobDelay job <=? 0) (queue w).

Definition getDelayed (w : World) : list Job :=
  List.filter (fun job => negb (jobDelay job <=? 0)) (queue w).

(** [job.id && job.id.startsWith(`pending-${OperationsNames.PawWithdrawal}`)] *)
Definition is_pending_withdrawal (job : Job) : bool :=
  (JS.truthy_string (jobId job)
   && String.prefix ("pending-" +:+ OperationsNames.PawWithdrawal) (jobId job))%bool.

(** [.map(job => parseEther(job.data.amount))]: the first amount that
    does not parse throws. *)
Fixpoint amounts (jobs : list Job) : option (list Z) :=
  match jobs with
  | [] => Some []
  | job :: rest =>
      match parseEther (data_amount (jobData job)) with
      | None => None
      | Some amount => option_map (cons amount) (amounts rest)
      end
  end.

Definition getPendingWithdrawalsAmount : M Z :=
  fun w =>
    let allJobs := (getWaiting w ++ getDelayed w)%list in
    match amounts (List.filter is_pending_withdrawal allJobs) with
    | None => (w, Throw (Err "invalid decimal value"))
    | Some pending => (w, Return (fold_left Z.add pending 0))
    end.

End PendingWithdrawals.
End PendingWithdrawals.

(** ** Blockchain.ts

    The provider and the contract are outside the repository.  A log is
    given with its arguments parsed; the calls answer [None] where they
    throw. *)

Record SwapToPawLog : Type := mkSwapToPawLog {
  log_blockNumber : Z;
  log_transactionHash : string;
  args_from : string;
  args_pawAddress : string;
  args_amount : Z
}.

Record Chain : Type := mkChain {
  queryFilter : Z -> Z -> option (list SwapToPawLog);
    (* wPAW.queryFilter(SwapToPaw, blockFrom, blockTo) *)
  getBlock : Z -> option Z;
    (* provider.getBlock(number).timestamp, in seconds *)
  balanceOf : string -> option Z;
    (* wPAW.balanceOf(address) *)
  signMintReceipt : string -> Z -> Z -> option string
    (* wallet.signMessage of the hash of (address, amount, uuid, chain id) *)
}.

Module Blockchain.
Section Blockchain.
Context {E : Ethers}.
Variable cfg : Config.
Variable env : Env.
Variable chain : Chain.
Variable listeners : list (SwapWPAWToPaw.t -> M unit).

Definition BLOCK_SLICE : Z := 1000.

(** Returns [{ receipt, uuid, wpawBalance }]. *)
Definition createMintReceipt (address : string) (amount : Z)
  : option (string * Z * Z) :=
  let uuid := Date_now env in
  match signMintReceipt chain address amount uuid with
  | None => None
  | Some receipt =>
      match balanceOf chain address with
      | None => None
      | Some wpawBalance => Some (receipt, uuid, wpawBalance)
      end
  end.

(** [this.listeners.forEach((listener) => listener(swap))]: a listener is
    an [async] function, what it throws stays in the promise nobody
    awaits. *)
Fixpoint notify (ls : list (SwapWPAWToPaw.t -> M unit)) (swap : SwapWPAWToPaw.t)
  : M unit :=
  match ls with
  | [] => ret tt
  | listener :: rest =>
      try_catch (listener swap) (fun _ => ret tt) >> notify rest swap
  end.

Definition handleSwapToPawEvents (swap : SwapWPAWToPaw.t) : M unit :=
  if negb (JS.truthy_string (SwapWPAWToPaw.blockchainWallet swap)) then
    throw (Err "Missing Blockchain address in Blockchain event!")
  else if negb (JS.truthy_string (SwapWPAWToPaw.pawWallet swap)) then
    throw (Err "Missing PAW address in Blockchain event!")
  else if negb (JS.truthy_string (SwapWPAWToPaw.amount swap)) then
    throw (Err "Missing amount in Blockchain event!")
  else notify listeners swap.

(** The event built from a log, by the scan and by the subscription
    alike. *)
Definition event_of_log (log : SwapToPawLog) : option SwapWPAWToPaw.t :=
  match getBlock chain (log_blockNumber log) with
  | None => None
  | Some timestamp =>
      match balanceOf chain (args_from log) with
      | None => None
      | Some wpawBalance =>
          Some (SwapWPAWToPaw.mk (args_pawAddress log)
                  (formatEther (args_amount log))
                  (args_from log)
                  (timestamp * 1000)
                  (formatEther wpawBalance)
                  (log_transactionHash log))
      end
  end.

(** [Promise.all(logs.map(async (log) => ...))] *)
Fixpoint events_of_logs (logs : list SwapToPawLog) : option (list SwapWPAWToPaw.t) :=
  match logs with
  | [] => Some []
  | log :: rest =>
      match event_of_log log with
      | None => None
      | Some event => option_map (cons event) (events_of_logs rest)
      end
  end.

(** [Promise.all(events.map((event) => this.handleSwapToPawEvents(event)))]:
    every event is handled; the first rejection, if any, is the one
    [Promise.all] rejects with. *)
Fixpoint handle_all (events : list SwapWPAWToPaw.t) : M (option Exn) :=
  match events with
  | [] => ret None
  | event :: rest =>
      let* rejected :=
        try_catch (handleSwapToPawEvents event >> ret None)
                  (fun err => ret (Some err)) in
      let* others := handle_all rest in
      ret (match rejected with
           | Some err => Some err
           | None => others
           end)
  end.

Definition processBlocksSlice (blockFrom blockTo : Z) : M unit :=
  match queryFilter chain blockFrom blockTo with
  | None => throw (Err "queryFilter")
  | Some logs =>
      match events_of_logs logs with
      | None => throw (Err "provider")
      | Some events =>
          let* rejected := handle_all events in
          match rejected with
          | Some err => throw err
          | None =>
              update (fun r =>
                UsersDepositsService.setLastBlockchainBlockProcessed cfg r blockTo)
          end
      end
  end.

(** The [for] loop, with the slices still to run. *)
Fixpoint processBlocks_loop (slices : nat) (blockSliceFrom blockSliceTo blockTo : Z)
  : M unit :=
  match slices with
  | O => ret tt
  | S slices' =>
      processBlocksSlice blockSliceFrom blockSliceTo >>
      let blockSliceFrom' := blockSliceFrom + (blockSliceTo - blockSliceFrom + 1) in
      let blockSliceTo' :=
        blockSliceTo + Z.min BLOCK_SLICE (blockTo - blockSliceFrom' + 1) in
      processBlocks_loop slices' blockSliceFrom' blockSliceTo' blockTo
  end.

Definition processBlocks (blockFrom blockTo : Z) : M unit :=
  let numberOfSlices := (blockTo - blockFrom) / BLOCK_SLICE + 1 in
  let blockSliceFrom := blockFrom in
  let blockSliceTo := Z.min (blockSliceFrom + BLOCK_SLICE - 1) blockTo in
  processBlocks_loop (Z.to_nat numberOfSlices) blockSliceFrom blockSliceTo blockTo.

(** The subscription of the constructor, on one log. *)
Definition onSwapToPawEvent (log : SwapToPawLog) : M unit :=
  match event_of_log log with
  | None => throw (Err "provider")
  | Some event => handleSwapToPawEvents event
  end.

End Blockchain.
End Blockchain.

(** ** Swaps from PAW to wPAW

    The sorted sets [swaps:paw-to-wpaw:<paw>] and the receipts signed so
    far go along with the store. *)

Module SwapPawToWPAW.
Record t : Type := mk {
  from : string;
  amount : string;      (* the number, as its string *)
  blockchainWallet : string;
  signature : string;
  timestamp : Z
}.
End SwapPawToWPAW.

Record Ledger : Type := mkLedger {
  ledger_redis : Redis;
  swaps_paw_to_wpaw : gmap string (gmap string Z);   (* swaps:paw-to-wpaw:<paw> *)
  mint_receipts : list (string * Z)                  (* createMintReceipt(address, amount) *)
}.

(** What the swap throws: the exceptions of the other operations and
    [InvalidOwner]. *)
Inductive SwapExn : Type :=
  | InvalidOwnerError
  | Other (e : Exn).

Inductive SwapOutcome (A : Type) : Type :=
  | SwapReturn (a : A)
  | SwapThrow (e : SwapExn).
Arguments SwapReturn {A} _.
Arguments SwapThrow {A} _.

Module SwapToWPAW.
Section SwapToWPAW.
Context {E : Ethers}.
Variable cfg : Config.
Variable env : Env.
Variable chain : Chain.

(** RedisUsersDepositsStorage.storeUserSwapToWPaw: the lock is awaited
    and its failure reaches the caller; what fails under the lock is
    logged and swallowed. *)
Definition storeUserSwapToWPaw (l : Ledger) (_pawAddress _blockchainAddress : string)
    (amount : Z) (timestamp : Z) (receipt : string) (uuid : Z)
  : Ledger * Outcome unit :=
  if negb (JS.truthy_string _pawAddress) then (l, Throw (Err "Missing PAW address"))
  else
    let pawAddress := JS.toLowerCase _pawAddress in
    if redlock_lock env ("locks:swaps:paw-to-wpaw:" +:+ pawAddress) then
      match RedisUsersDepositsStorage.getUserAvailableBalance env (ledger_redis l)
              pawAddress with
      | Throw _ => (l, Return tt)
      | Return available =>
          let balance := available - amount in
          if redis_exec env then
            (mkLedger
               (with_audit (Cmd.hset receipt
                   [("type", AStr "swap-to-wpaw");
                    ("blockchainAddress", AStr (JS.toLowerCase _blockchainAddress));
                    ("receipt", AStr receipt);
                    ("uuid", ANum uuid);
                    ("amount", ANum amount);
                    ("timestamp", ANum timestamp)])
                 (with_paw_balance (insert pawAddress balance) (ledger_redis l)))
               (Cmd.zadd pawAddress timestamp receipt (swaps_paw_to_wpaw l))
               (mint_receipts l),
             Return tt)
          else (l, Return tt)
      end
    else (l, Throw LockError).

Definition swap_message (amountStr from : string) : string :=
  "Swap " +:+ amountStr +:+ " PAW for wPAW with PAW I deposited from my wallet "
    +:+ dquote +:+ from +:+ dquote.

(** Service.processSwapToWPAW.  Returns [{ receipt, uuid, wpawBalance }]. *)
Definition processSwapToWPAW (swap : SwapPawToWPAW.t) (l : Ledger)
  : Ledger * SwapOutcome (string * Z * Z) :=
  let from := SwapPawToWPAW.from swap in
  let blockchainWallet := SwapPawToWPAW.blockchainWallet swap in
  let signature := SwapPawToWPAW.signature swap in
  let amountStr := SwapPawToWPAW.amount swap in
  match Service.checkSignature blockchainWallet signature
          (swap_message amountStr from) with
  | Throw e => (l, SwapThrow (Other e))
  | Return valid =>
  if negb valid
  then (l, SwapThrow (Other InvalidSignatureError))
  else if negb (JS.await (UsersDepositsService.hasClaim (ledger_redis l) from
                            blockchainWallet))
  then (l, SwapThrow InvalidOwnerError)
  else
    match parseEther amountStr with
    | None => (l, SwapThrow (Other (Err "invalid decimal value")))
    | Some amount =>
        if amount <? 0 then
          (l, SwapThrow (Other (Err "Can't swap negative amounts of PAW")))
        else
          match UsersDepositsService.getUserAvailableBalance env (ledger_redis l)
                  from with
          | Throw e => (l, SwapThrow (Other e))
          | Return availableBalance =>
              if negb (availableBalance >=? amount) then
                (l, SwapThrow (Other InsufficientBalanceError))
              else
                let minted :=
                  mkLedger (ledger_redis l) (swaps_paw_to_wpaw l)
                    (mint_receipts l ++ [(blockchainWallet, amount)])%list in
                match Blockchain.createMintReceipt env chain blockchainWallet
                        amount with
                | None => (minted, SwapThrow (Other (Err "createMintReceipt")))
                | Some (receipt, uuid, wpawBalance) =>
                    match storeUserSwapToWPaw minted from blockchainWallet amount
                            (SwapPawToWPAW.timestamp swap) receipt uuid with
                    | (l', Throw e) => (l', SwapThrow (Other e))
                    | (l', Return _) => (l', SwapReturn (receipt, uuid, wpawBalance))
                    end
                end
          end
    end
  end.

End SwapToWPAW.
End SwapToWPAW.

(** ** The history queries (RedisUsersDepositsStorage.ts, Service.getHistory)

    ZREVRANGEBYSCORE key +inf -inf LIMIT 0 n lists the members of a
    sorted set from the highest score down, members of equal score from
    the greatest in lexicographical order down, and stops after [n]. *)

Module HistoryQueries.

Definition LIMIT : nat := 1000.

(** [p] is listed before [q], or is [q]. *)
Definition precedes (p q : string * Z) : Prop :=
  ((snd q <? snd p) || ((snd q =? snd p) && String.leb (fst q) (fst p)))%bool = true.

Definition precedes_dec : RelDecision precedes :=
  fun p q => decide (_ = true).

Definition zrevrangebyscore (key : string) (limit : nat)
    (m : gmap string (gmap string Z)) : list (string * Z) :=
  take limit (merge_sort precedes (H := precedes_dec)
                (map_to_list (default ∅ (m !! key)))).

Section Queries.
Variable BlockchainBlockExplorerUrl : string.

Definition hgetall (r : Redis) (hash : string) : gmap string AuditValue :=
  default ∅ (audit r !! hash).

(** [results.link = `https://tracker.paw.digital/block/${hash}`] *)
Definition tracker_entry (r : Redis) (hash : string) : gmap string AuditValue :=
  <[ "link" := AStr ("https://tracker.paw.digital/block/" +:+ hash) ]> (hgetall r hash).

Definition getDeposits (r : Redis) (pawAddress : string)
  : list (gmap string AuditValue) :=
  let hashes := (zrevrangebyscore (JS.toLowerCase pawAddress) LIMIT (deposits r)).*1 in
  map (tracker_entry r) hashes.

Definition getWithdrawals (r : Redis) (pawAddress : string)
  : list (gmap string AuditValue) :=
  let hashes := (zrevrangebyscore (JS.toLowerCase pawAddress) LIMIT (withdrawals r)).*1 in
  map (tracker_entry r) hashes.

Definition swap_entry (r : Redis) (hash : string) : gmap string AuditValue :=
  let results := hgetall r hash in
  match results !! "type" with
  | Some (AStr type) =>
      if String.eqb type "swap-to-paw"
      then <[ "link" := AStr (BlockchainBlockExplorerUrl +:+ "/tx/" +:+ hash) ]> results
      else results
  | _ => results
  end.

Definition getSwaps (l : Ledger) (blockchainAddress pawAddress : string)
  : list (gmap string AuditValue) :=
  let pawToWPAW :=
    (zrevrangebyscore (JS.toLowerCase pawAddress) LIMIT (swaps_paw_to_wpaw l)).*1 in
  let wpawToPAW :=
    (zrevrangebyscore (JS.toLowerCase blockchainAddress) LIMIT
       (swaps_wpaw_to_paw (ledger_redis l))).*1 in
  map (swap_entry (ledger_redis l)) (pawToWPAW ++ wpawToPAW)%list.

Record History : Type := mkHistory {
  history_deposits : list (gmap string AuditValue);
  history_withdrawals : list (gmap string AuditValue);
  history_swaps : list (gmap string AuditValue)
}.

Definition getHistory (l : Ledger) (blockchainWallet pawWallet : string) : History :=
  mkHistory (getDeposits (ledger_redis l) pawWallet)
            (getWithdrawals (ledger_redis l) pawWallet)
            (getSwaps l blockchainWallet pawWallet).

End Queries.
End HistoryQueries.

(** ** A double of the [ethers] interface

    The test-suite stubs its collaborators; this is the stub used below
    to run the code on concrete inputs.  A signature is the signer's
    three-character address followed by the signed message; amounts are
    whole numbers of coin. *)

Module Double.

Definition digit_of (c : ascii) : option Z :=
  let n := nat_of_ascii c in
  if (Nat.leb 48 n && Nat.leb n 57)%bool then Some (Z.of_nat (n - 48)) else None.

Fixpoint digits (acc : Z) (s : string) : option Z :=
  match s with
  | EmptyString => Some acc
  | String c s' =>
      match digit_of c with
      | Some d => digits (10 * acc + d) s'
      | None => None
      end
  end.

Definition decimal (s : string) : option Z :=
  match s with
  | EmptyString => None
  | String "-"%char s' =>
      match s' with
      | EmptyString => None
      | _ => option_map Z.opp (digits 0 s')
      end
  | _ => digits 0 s
  end.

(** A signature is the signer's address, three characters that start
    with [0x], followed by the message; anything else is not a
    signature, and a string that does not start with [0x] is not an
    address. *)
Definition recover (message signature : string) : option string :=
  if negb (String.prefix "0x" signature && (3 <=? String.length signature)%nat)%bool
  then None
  else if String.eqb (String.substring 3 (String.length signature - 3) signature)
            message
  then Some (String.substring 0 3 signature)
  else Some "0x0".

Definition sign (signer message : string) : string := signer +:+ message.

Definition ethers : Ethers := {|
  verifyMessage := recover;
  getAddress := fun a => if String.prefix "0x" a then Some a else None;
  parseEther := fun s => option_map (fun n => n * ether) (decimal s);
  formatEther := fun z => pretty (Z.quot z ether);
  bigNumberFrom := decimal
|}.

Definition config : Config :=
  mkConfig "paw_hot" "paw_cold" "10" 20 0.

(** A node that accepts every send, a hot wallet holding [hot], redlock
    and Redis available, nothing pending, nobody blacklisted. *)
Definition env (hot : Z) : Env :=
  mkEnv (fun _ => true) true []
        (fun _ => hot) (fun _ => hot)
        (fun _ _ => Some "SENDBLOCK") (fun _ => None) 1700000000000.

Definition world (r : Redis) : World := mkWorld r [] [].

End Double.

(** * The vocabulary of the properties *)

(** How many entries of the sorted set [deposits:<paw>] carry [hash]. *)
Definition deposit_records (r : Redis) (pawAddress hash : string) : nat :=
  length (List.filter (fun entry => String.eqb (fst entry) hash)
            (map_to_list (default ∅ (deposits r !! JS.toLowerCase pawAddress)))).

(** The claim operation in the words of the specification: the outcome is
    decided by the signature of the challenge as the specification spells
    it, then the blacklist, then the confirmed claim, then the pending
    claims, then the store. *)
Module Spec.



End Spec.

(** What [eventuallySendToColdWallet] computes before it sends: the part
    above the minimum, capped by the deposit, cut to whole coins, of which
    [100 - ratio] hundredths go to the cold wallet. *)
Definition cold_wallet_share (minimum ratio hotWalletBalance deposit : Z) : Z :=
  let amountAboveMinimum := hotWalletBalance - minimum in
  let amount :=
    if amountAboveMinimum >? deposit then deposit else amountAboveMinimum in
  Z.quot (Paw.whole_units amount * ether) 100 * (100 - ratio).

(** The rows of the table: hot wallet before the deposit, deposit,
    expected transfer to the cold wallet. *)
Definition split_table : list (Z * Z * Z) :=
  [ (10 * ether, 10 * ether, 8 * ether);
    (5 * ether, 12 * ether, 56 * 10 ^ 17);
    (0 * ether, 11 * ether, 8 * 10 ^ 17);
    (20 * ether, 10 * ether, 8 * ether);
    (10 * ether, 412 * 10 ^ 16, 32 * 10 ^ 17) ].

(** The store once the pending claim of [sender], if any, is confirmed. *)
Definition promoted (r : Redis) (sender : string) : Redis :=
  if RedisUsersDepositsStorage.hasPendingClaim r sender
  then fst (RedisUsersDepositsStorage.confirmClaim r sender)
  else r.

(** The world [elapsed] milliseconds later, nothing having run in
    between. *)
Definition later (elapsed : Z) (w : World) : World :=
  mkWorld (elapse elapsed (redis w)) (queue w) (node_calls w).

(** The test [number !== rounded] of [processUserDeposit]. *)
Definition number_differs_from_rounded (amount : Z) : bool :=
  let number := Paw.parseFloat_formatEther amount in
  let rounded :=
    JS.div (JS.Math_round (JS.mul number (JS.of_Z 100))) (JS.of_Z 100) in
  JS.strict_neq number rounded.

(** How the body of the loop treats one receivable. *)
Inductive SweepClass : Type :=
  | ReceiveOnly            (* received, never enqueued *)
  | Skipped                (* the amount did not parse: neither *)
  | Enqueued (pawAmount : Z).

Section SweepVocabulary.
Context {E : Ethers}.
Variable cfg : Config.
Variable env : Env.

Definition classify (transaction : PendingTransaction) : SweepClass :=
  let amount := pending_amount transaction in
  let sender := pending_source transaction in
  if (String.length amount <? 9)%nat then ReceiveOnly
  else
    match bigNumberFrom (Paw.strip_raw amount) with
    | None => Skipped
    | Some pawAmount =>
        if (String.eqb sender (PawUsersDepositsHotWallet cfg)
            || String.eqb sender (PawUsersDepositsColdWallet cfg))%bool
        then ReceiveOnly
        else Enqueued pawAmount
    end.

(** The deposit job of a receivable. *)
Definition deposit_job (hash sender : string) (pawAmount : Z) : Job :=
  mkJob "paw-deposit"
        (OpDeposit (PawUserDeposit.mk sender (formatEther pawAmount) (Date_now env) hash))
        ("paw-deposit-" +:+ sender +:+ "-" +:+ hash)
        0 (Date_now env) false.

Definition deposit_jobs (transactions : list (string * PendingTransaction)) : list Job :=
  flat_map (fun entry =>
              match classify (snd entry) with
              | Enqueued pawAmount =>
                  [deposit_job (fst entry) (pending_source (snd entry)) pawAmount]
              | _ => []
              end) transactions.

Definition enqueue_all (jobs : list Job) (w : World) : World :=
  fold_left (fun w' job => fst (RedisProcessingQueue.add job w')) jobs w.

End SweepVocabulary.

(** The withdrawal as the queue leaves it: one more attempt. *)
Definition next_attempt (withdrawal : PawUserWithdrawal.t) : PawUserWithdrawal.t :=
  PawUserWithdrawal.mk
    (PawUserWithdrawal.pawWallet withdrawal)
    (PawUserWithdrawal.amount withdrawal)
    (PawUserWithdrawal.blockchainWallet withdrawal)
    (PawUserWithdrawal.signature withdrawal)
    (PawUserWithdrawal.timestamp withdrawal)
    (PawUserWithdrawal.attempt withdrawal + 1).

(** The job scheduled for a withdrawal the hot wallet cannot pay yet. *)
Definition pending_withdrawal_job (withdrawal : PawUserWithdrawal.t) : Job :=
  mkJob "paw-withdrawal" (OpWithdrawal (next_attempt withdrawal))
        ("pending-paw-withdrawal-" +:+ PawUserWithdrawal.pawWallet withdrawal
           +:+ "-" +:+ pretty (PawUserWithdrawal.timestamp withdrawal)
           +:+ "-attempt-" +:+ pretty (PawUserWithdrawal.attempt withdrawal + 1))
        ((PawUserWithdrawal.attempt withdrawal + 1) * 60000)
        (PawUserWithdrawal.timestamp withdrawal)
        true.

(** ** Concrete stores, jobs and receivables *)

(** A store holding one deposit of 5 coins by [paw_sender]. *)
Definition one_deposit : Redis :=
  UsersDepositsService.storeUserDeposit (Double.env 0) empty_redis
    "paw_Sender" (5 * ether) 1700000000000 "0xCAFEBABE".

(** A burn of 7 wrapped coins by [0xB0b] towards [paw_Bob], and the world
    after it was processed once. *)
Definition a_swap : SwapWPAWToPaw.t :=
  SwapWPAWToPaw.mk "paw_Bob" "7" "0xB0b" 1700000000 "0" "0xBURN".

Definition swapped_once : World :=
  fst (Service.processSwapToPAW (E := Double.ethers) (Double.env 0) a_swap
         (Double.world empty_redis)).

(** A store in which [paw_Sender] is claimed by [0xa]. *)
Definition claimed_store : Redis :=
  with_claims (fun _ => [("paw_sender", "0xa")]) empty_redis.

(** [0xA] claimed [paw_1alice], a deposit of 5 coins confirmed the claim
    a minute later, and more than five minutes have passed since the
    claim. *)
Definition alice_confirmed : World :=
  later 240001
    (fst (Paw.processUserDeposit (E := Double.ethers) Double.config (Double.env 0)
            "paw_1alice" (5 * ether) 1700000000000 "0xD1"
            (later 60000
               (fst (Service.claim (E := Double.ethers) (Double.env 0)
                       "paw_1alice" "0xA"
                       (Double.sign "0xA" (Service.claim_message "paw_1alice"))
                       (Double.world empty_redis)))))).

(** The node lists the receivables [pending] on the hot wallet. *)
Definition sweep_env (pending : list (string * PendingTransaction)) : Env :=
  mkEnv (fun _ => true) true [] (fun _ => 0) (fun _ => 0)
        (fun _ _ => Some "SENDBLOCK")
        (fun wallet => if String.eqb wallet "paw_hot" then Some pending else None)
        1700000000000.

(** One coin moved back from the cold wallet, two coins sent by a user,
    and a user's transfer of less than a billionth of a coin. *)
Definition from_cold_wallet : string * PendingTransaction :=
  ("HASH1", mkPendingTransaction "1000000000000000000000000000" "paw_cold").

Definition from_user : string * PendingTransaction :=
  ("HASH2", mkPendingTransaction "2000000000000000000000000000" "paw_user").

Definition dust_from_user : string * PendingTransaction :=
  ("HASH3", mkPendingTransaction "12345678" "paw_user").

Definition user_deposit_job : Job :=
  mkJob "paw-deposit"
        (OpDeposit (PawUserDeposit.mk "paw_user" "2" 1700000000000 "HASH2"))
        "paw-deposit-paw_user-HASH2" 0 1700000000000 false.

(** [paw_Victim] is claimed by [0xV] and holds 100 coins. *)
Definition victim_store : Redis :=
  with_claims (fun _ => [("paw_victim", "0xv")])
    (with_paw_balance (insert "paw_victim" (100 * ether)) empty_redis).

(** A withdrawal of [amount] coins to [pawWallet], signed by [evm]. *)
Definition signed_withdrawal (pawWallet amount evm : string) (attempt : Z)
  : PawUserWithdrawal.t :=
  PawUserWithdrawal.mk pawWallet amount evm
    (Double.sign evm (Service.withdraw_message amount pawWallet))
    1700000000000 attempt.

(** The job [addSwapToPaw] builds for a swap. *)
Definition swap_job (swap : SwapWPAWToPaw.t) : Job :=
  mkJob "swap-wpaw-to-paw" (OpSwapToPaw swap)
        ("swap-wpaw-to-paw-" +:+ SwapWPAWToPaw.blockchainWallet swap
           +:+ "-" +:+ SwapWPAWToPaw.hash swap)
        0 (SwapWPAWToPaw.timestamp swap) false.

(** The listeners of the blockchain once the service is constructed. *)
Definition service_listeners : list (SwapWPAWToPaw.t -> M unit) :=
  [Service.swapToPAW].

(** An event that carries the three fields [handleSwapToPawEvents] asks
    for. *)
Definition well_formed (swap : SwapWPAWToPaw.t) : bool :=
  (JS.truthy_string (SwapWPAWToPaw.blockchainWallet swap)
   && JS.truthy_string (SwapWPAWToPaw.pawWallet swap)
   && JS.truthy_string (SwapWPAWToPaw.amount swap))%bool.

(** The logs of the blocks [blockFrom .. blockTo], block after block. *)
Definition logs_between (block_logs : Z -> list SwapToPawLog) (blockFrom blockTo : Z)
  : list SwapToPawLog :=
  flat_map block_logs (seqZ blockFrom (blockTo - blockFrom + 1)).

(** The world after a scan up to [blockTo] that enqueued [jobs]. *)
Definition scanned (cfg : Config) (w : World) (jobs : list Job) (blockTo : Z)
  : World :=
  mkWorld (RedisUsersDepositsStorage.setLastBlockchainBlockProcessed cfg (redis w) blockTo)
          (queue (enqueue_all jobs w)) (node_calls w).

(** [entries] are the [limit] newest members of the sorted set [z], the
    newest first: members with their scores, none twice, scores never
    going up, as many as the limit and the set allow, and nothing left
    out is newer than anything listed. *)
Definition newest_first (z : gmap string Z) (limit : nat)
    (entries : list (string * Z)) : Prop :=
  (forall hash score, In (hash, score) entries -> z !! hash = Some score)
  /\ NoDup (entries.*1)
  /\ Sorted (fun e1 e2 => snd e2 <= snd e1) entries
  /\ length entries = Nat.min limit (length (map_to_list z))
  /\ (forall hash score, z !! hash = Some score -> ~ In (hash, score) entries ->
        forall e, In e entries -> score <= snd e).

(** ** Concrete chains, ledgers and swaps *)

(** A provider that answers each range with the logs of its blocks;
    block [n] is mined at second [1700000000 + n], nobody holds wPAW, and
    every receipt is signed. *)
Definition chain_of (block_logs : Z -> list SwapToPawLog) : Chain :=
  mkChain (fun blockFrom blockTo => Some (logs_between block_logs blockFrom blockTo))
          (fun number => Some (1700000000 + number))
          (fun _ => Some 0)
          (fun _ _ _ => Some "0xRECEIPT").

(** [0xB0b] burns 7 wPAW towards [paw_Bob] in block 1500. *)
Definition burn_log : SwapToPawLog :=
  mkSwapToPawLog 1500 "0xBURN" "0xB0b" "paw_Bob" (7 * ether).

Definition burn_blocks (number : Z) : list SwapToPawLog :=
  if number =? 1500 then [burn_log] else [].

Definition burn_event : SwapWPAWToPaw.t :=
  SwapWPAWToPaw.mk "paw_Bob" "7" "0xB0b" 1700001500000 "0" "0xBURN".

(** Block 7 holds a burn that names no PAW address, and a burn of 2 wPAW
    by [0xB0b]. *)
Definition unaddressed_log : SwapToPawLog :=
  mkSwapToPawLog 7 "0xLOST" "0xEve" "" (3 * ether).

Definition early_log : SwapToPawLog :=
  mkSwapToPawLog 7 "0xEARLY" "0xB0b" "paw_Bob" (2 * ether).

Definition mixed_blocks (number : Z) : list SwapToPawLog :=
  if number =? 7 then [unaddressed_log; early_log] else [].

Definition unaddressed_event : SwapWPAWToPaw.t :=
  SwapWPAWToPaw.mk "" "3" "0xEve" 1700000007000 "0" "0xLOST".

Definition early_event : SwapWPAWToPaw.t :=
  SwapWPAWToPaw.mk "paw_Bob" "2" "0xB0b" 1700000007000 "0" "0xEARLY".

(** [paw_Sender], claimed by [0xA], holds 50 coins; no swap towards wPAW
    was made and no receipt signed. *)
Definition funded_ledger : Ledger :=
  mkLedger (with_paw_balance (insert "paw_sender" (50 * ether)) claimed_store) ∅ [].

(** A swap of [amount] coins of [from] towards wPAW, signed by [evm]. *)
Definition signed_swap (from amount evm : string) : SwapPawToWPAW.t :=
  SwapPawToWPAW.mk from amount evm
    (Double.sign evm (SwapToWPAW.swap_message amount from)) 1700000000000.

(** Redlock obtains no resource within its retries. *)
Definition contended_env : Env :=
  mkEnv (fun _ => false) true [] (fun _ => 0) (fun _ => 0)
        (fun _ _ => Some "SENDBLOCK") (fun _ => None) 1700000000000.

(** Redlock hands over every resource, Redis commits no batch. *)
Definition batch_failing_env : Env :=
  mkEnv (fun _ => true) false [] (fun _ => 0) (fun _ => 0)
        (fun _ _ => Some "SENDBLOCK") (fun _ => None) 1700000000000.

(** A movement on the balance of one PAW address, as the storage commits
    it, and the amount it adds to the balance. *)
Inductive Movement : Type :=
  | Deposited (amount timestamp : Z) (hash : string)
  | Withdrawn (amount timestamp : Z) (hash : string).

Definition signed_amount (movement : Movement) : Z :=
  match movement with
  | Deposited amount _ _ => amount
  | Withdrawn amount _ _ => - amount
  end.

Definition commit (env : Env) (pawAddress : string) (r : Redis) (movement : Movement)
  : Redis :=
  match movement with
  | Deposited amount timestamp hash =>
      RedisUsersDepositsStorage.storeUserDeposit env r pawAddress amount timestamp hash
  | Withdrawn amount timestamp hash =>
      RedisUsersDepositsStorage.storeUserWithdrawal env r pawAddress amount timestamp hash
  end.

(** * Properties *)

(** ** The scan cursor *)

Section Cursor.
Variable cfg : Config.

Local Abbreviation get := (RedisUsersDepositsStorage.getLastBlockchainBlockProcessed cfg).
Local Abbreviation set := (RedisUsersDepositsStorage.setLastBlockchainBlockProcessed cfg).
Local Abbreviation unawaited :=
  (RedisUsersDepositsStorage.setLastBlockchainBlockProcessed_unawaited cfg).

Lemma cursor_after_set (r : Redis) (block : Z) :
  get (set r block) = Z.max (get r) block.
Proof.
  unfold RedisUsersDepositsStorage.setLastBlockchainBlockProcessed,
    RedisUsersDepositsStorage.setLastBlockchainBlockProcessed_write.
  destruct (Z.gtb_spec block (get r)) as [Hgt | Hle].
  - unfold RedisUsersDepositsStorage.getLastBlockchainBlockProcessed at 1.
    simpl. lia.
  - lia.
Qed.

Lemma cursor_after_sets (blocks : list Z) :
  forall r : Redis, get (fold_left set blocks r) = fold_left Z.max blocks (get r).
Proof.
  induction blocks as [| block blocks IH]; intros r; simpl.
  - reflexivity.
  - rewrite IH, cursor_after_set. reflexivity.
Qed.

Lemma fold_left_max_le (blocks : list Z) :
  forall c : Z, c <= fold_left Z.max blocks c.
Proof.
  induction blocks as [| block blocks IH]; intros c; simpl.
  - lia.
  - specialize (IH (Z.max c block)). lia.
Qed.

Lemma unawaited_app (r : Redis) (blocks : list Z) (block : Z) :
  unawaited r (blocks ++ [block])
    = RedisUsersDepositsStorage.setLastBlockchainBlockProcessed_write (get r) block
        (unawaited r blocks).
Proof.
  unfold RedisUsersDepositsStorage.setLastBlockchainBlockProcessed_unawaited.
  rewrite fold_left_app. reflexivity.
Qed.

(** What advances made in a row leave: the cursor they found, or one of
    their blocks. *)
Lemma unawaited_cursor (r : Redis) (blocks : list Z) :
  get (unawaited r blocks) = get r \/ In (get (unawaited r blocks)) blocks.
Proof.
  induction blocks as [| block blocks IH] using rev_ind.
  - left. reflexivity.
  - rewrite unawaited_app.
    unfold RedisUsersDepositsStorage.setLastBlockchainBlockProcessed_write.
    destruct (block >? get r).
    + right. apply in_or_app. right. left. reflexivity.
    + destruct IH as [IH | IH]; [left; exact IH |].
      right. apply in_or_app. left. exact IH.
Qed.

(** C9, amended.  For block numbers that are safe integers: an advance
    that no other write comes in between writes the store only when
    [block] is strictly greater than the cursor it read, and leaves the
    larger of the two; advances that run one after the other leave the
    largest block they were given, or the cursor they started from if
    that is larger, so they never lower the cursor.  Whatever comes in
    between, the [SET] of an advance is sent only when its block is
    strictly greater than the cursor it read; and advances made in a row
    without waiting do not lower the cursor either as long as their
    blocks do not go down, as the slice ends of one scan. *)
Theorem setLastBlockchainBlockProcessed_monotone (r : Redis) (block : Z) :
  Z.abs (get r) < 2 ^ 53 ->
  Z.abs block < 2 ^ 53 ->
  set r block
    = (if block >? get r then with_blocks_latest (Some block) r else r)
  /\ get (set r block) = Z.max (get r) block
  /\ get r <= get (set r block)
  /\ (forall blocks : list Z,
        Forall (fun b => Z.abs b < 2 ^ 53) blocks ->
        get (fold_left set blocks r) = fold_left Z.max blocks (get r)
        /\ get r <= get (fold_left set blocks r))
  /\ (forall (lastBlockProcessed : Z) (r' : Redis),
        RedisUsersDepositsStorage.setLastBlockchainBlockProcessed_write
          lastBlockProcessed block r'
        = (if block >? lastBlockProcessed
           then with_blocks_latest (Some block) r' else r'))
  /\ (forall blocks : list Z,
        Forall (fun b => Z.abs b < 2 ^ 53 /\ b <= block) blocks ->
        get (unawaited r blocks) <= get (unawaited r (blocks ++ [block]))).
Proof.
  intros _ _.
  split; [reflexivity |].
  split; [apply cursor_after_set |].
  split; [rewrite cursor_after_set; lia |].
  split; [| split; [reflexivity |]].
  - intros blocks _. rewrite cursor_after_sets.
    split; [reflexivity | apply fold_left_max_le].
  - intros blocks Hbelow. rewrite unawaited_app.
    unfold RedisUsersDepositsStorage.setLastBlockchainBlockProcessed_write.
    destruct (Z.gtb_spec block (get r)) as [Hgt | Hle]; [| lia].
    unfold RedisUsersDepositsStorage.getLastBlockchainBlockProcessed at 2.
    cbn [blocks_latest with_blocks_latest].
    destruct (unawaited_cursor r blocks) as [Hsame | Hin].
    + rewrite Hsame. lia.
    + rewrite List.Forall_forall in Hbelow. apply (Hbelow _ Hin).
Qed.

End Cursor.

(** Two advances made in a row, to block 2000 and then to block 1000,
    neither awaited: both read the cursor before either writes, both find
    their block greater, and the second write lowers what the first one
    left. *)
Lemma setLastBlockchainBlockProcessed_unawaited_counterexample :
  let get := RedisUsersDepositsStorage.getLastBlockchainBlockProcessed Double.config in
  let unawaited :=
    RedisUsersDepositsStorage.setLastBlockchainBlockProcessed_unawaited Double.config in
  get empty_redis = 0
  /\ get (unawaited empty_redis [2000]) = 2000
  /\ get (unawaited empty_redis [2000; 1000]) = 1000.
Proof. vm_compute. repeat split. Qed.

(** Awaited one after the other, the same two advances leave 2000. *)
Lemma setLastBlockchainBlockProcessed_monotone_witness :
  let get := RedisUsersDepositsStorage.getLastBlockchainBlockProcessed Double.config in
  let set := RedisUsersDepositsStorage.setLastBlockchainBlockProcessed Double.config in
  get (fold_left set [2000; 1000] empty_redis) = fold_left Z.max [2000; 1000] 0
  /\ get empty_redis <= get (fold_left set [2000; 1000] empty_redis).
Proof.
  apply (proj1 (proj2 (proj2 (proj2
           (setLastBlockchainBlockProcessed_monotone Double.config empty_redis 2000
              ltac:(vm_compute; reflexivity) ltac:(vm_compute; reflexivity)))))
         [2000; 1000]).
  repeat constructor.
Defined.

(** ** Balances *)

Section Balance.
Variable env : Env.

(** C10, amended.  Reading the balance of an address the store has no
    balance record for answers 0 when redlock hands over the resource
    [locks:paw-balance:<address>], and throws redlock's error when it
    does not, from the storage and from the service alike; so does the
    read of a recorded address, with its balance in place of 0. *)
Theorem getUserAvailableBalance_unknown_address (r : Redis) (from : string) :
  (paw_balance r !! JS.toLowerCase from = None ->
     RedisUsersDepositsStorage.getUserAvailableBalance env r from
       = (if redlock_lock env ("locks:paw-balance:" +:+ from)
          then Return 0 else Throw LockError)
     /\ UsersDepositsService.getUserAvailableBalance env r from
        = (if redlock_lock env ("locks:paw-balance:" +:+ from)
           then Return 0 else Throw LockError))
  /\ (forall balance : Z,
        paw_balance r !! JS.toLowerCase from = Some balance ->
        RedisUsersDepositsStorage.getUserAvailableBalance env r from
          = (if redlock_lock env ("locks:paw-balance:" +:+ from)
             then Return balance else Throw LockError)
        /\ UsersDepositsService.getUserAvailableBalance env r from
           = (if redlock_lock env ("locks:paw-balance:" +:+ from)
              then Return balance else Throw LockError)).
Proof.
  unfold UsersDepositsService.getUserAvailableBalance,
    RedisUsersDepositsStorage.getUserAvailableBalance.
  split.
  - intros Hnone. rewrite Hnone. split; reflexivity.
  - intros balance Hsome. rewrite Hsome. split; reflexivity.
Qed.

End Balance.

(** The balance of an address nobody has seen, read while redlock cannot
    obtain its resource: an error, not 0. *)
Lemma getUserAvailableBalance_unknown_address_counterexample :
  paw_balance empty_redis !! JS.toLowerCase "paw_NeverSeen" = None
  /\ RedisUsersDepositsStorage.getUserAvailableBalance contended_env empty_redis
       "paw_NeverSeen" = Throw LockError
  /\ UsersDepositsService.getUserAvailableBalance contended_env empty_redis
       "paw_NeverSeen" = Throw LockError.
Proof. vm_compute. repeat split. Qed.

Lemma getUserAvailableBalance_unknown_address_witness :
  RedisUsersDepositsStorage.getUserAvailableBalance (Double.env 0) empty_redis
    "paw_NeverSeen" = Return 0
  /\ UsersDepositsService.getUserAvailableBalance (Double.env 0) empty_redis
       "paw_NeverSeen" = Return 0.
Proof.
  apply (proj1 (getUserAvailableBalance_unknown_address (Double.env 0) empty_redis
                  "paw_NeverSeen")).
  reflexivity.
Defined.

(** ** Deposits are stored once *)

Lemma count_key_NoDup (l : list (string * Z)) (k : string) (v : Z) :
  NoDup (l.*1) -> (k, v) ∈ l ->
  length (List.filter (fun entry => String.eqb (fst entry) k) l) = 1%nat.
Proof.
  induction l as [| [k' v'] l IH]; intros Hnd Hin.
  - inversion Hin.
  - simpl in Hnd. apply NoDup_cons in Hnd as [Hnotin Hnd].
    apply elem_of_cons in Hin as [Heq | Hin]; simpl.
    + inversion Heq; subst k' v'. rewrite String.eqb_refl. simpl. f_equal.
      clear IH Hnd. induction l as [| [k2 v2] l IHl]; [reflexivity |].
      simpl. destruct (String.eqb_spec k2 k) as [-> | Hne].
      * exfalso. apply Hnotin. simpl. left.
      * apply IHl. intros Hin. apply Hnotin. simpl. right. exact Hin.
    + destruct (String.eqb_spec k' k) as [-> | Hne].
      * exfalso. apply Hnotin. apply (list_elem_of_fmap_2 fst) in Hin. exact Hin.
      * apply IH; assumption.
Qed.

Lemma zset_member_once (z : gmap string Z) (member : string) (score : Z) :
  z !! member = Some score ->
  length (List.filter (fun entry => String.eqb (fst entry) member)
            (map_to_list z)) = 1%nat.
Proof.
  intros Hin. apply (count_key_NoDup _ member score).
  - apply NoDup_fst_map_to_list.
  - apply elem_of_map_to_list. exact Hin.
Qed.

Lemma containsUserDepositTransaction_records (r : Redis) (pawAddress hash : string) :
  RedisUsersDepositsStorage.containsUserDepositTransaction r pawAddress hash = true ->
  deposit_records r pawAddress hash = 1%nat.
Proof.
  unfold RedisUsersDepositsStorage.containsUserDepositTransaction, Cmd.zrank,
    deposit_records.
  destruct (deposits r !! JS.toLowerCase pawAddress) as [z |] eqn:Hz; simpl.
  - destruct (z !! hash) as [score |] eqn:Hm; [| discriminate].
    intros _. apply (zset_member_once z hash score Hm).
  - discriminate.
Qed.

Section Deposits.
Variable env : Env.

(** C8.  Storing a deposit whose hash is already in the address's deposit
    set changes nothing: the store is the same, the set still holds the
    hash exactly once, and the balance is what it was. *)
Theorem storeUserDeposit_duplicate_hash
    (r : Redis) (pawAddress : string) (amount timestamp : Z) (hash : string) :
  RedisUsersDepositsStorage.containsUserDepositTransaction r pawAddress hash = true ->
  let r' := UsersDepositsService.storeUserDeposit env r pawAddress amount timestamp hash in
  r' = r
  /\ deposit_records r' pawAddress hash = 1%nat
  /\ paw_balance r' !! JS.toLowerCase pawAddress
       = paw_balance r !! JS.toLowerCase pawAddress.
Proof.
  intros Hdup r'. subst r'. unfold UsersDepositsService.storeUserDeposit.
  rewrite Hdup. split; [reflexivity |]. split; [| reflexivity].
  apply containsUserDepositTransaction_records. exact Hdup.
Qed.

(** Once a deposit went through, the service recognises its hash. *)
Lemma storeUserDeposit_recorded
    (r : Redis) (pawAddress : string) (amount timestamp : Z) (hash : string) :
  redlock_lock env ("locks:paw-balance:" +:+ JS.toLowerCase pawAddress) = true ->
  redis_exec env = true ->
  RedisUsersDepositsStorage.containsUserDepositTransaction
    (UsersDepositsService.storeUserDeposit env r pawAddress amount timestamp hash)
    pawAddress hash = true.
Proof.
  intros Hlock Hexec. unfold UsersDepositsService.storeUserDeposit.
  destruct (RedisUsersDepositsStorage.containsUserDepositTransaction r pawAddress hash)
    eqn:Hdup; [exact Hdup |].
  unfold RedisUsersDepositsStorage.storeUserDeposit. rewrite Hlock, Hexec.
  unfold RedisUsersDepositsStorage.containsUserDepositTransaction, Cmd.zrank, Cmd.zadd.
  simpl. rewrite lookup_insert_eq. simpl. rewrite lookup_insert_eq. reflexivity.
Qed.

(** Submitting the same hash twice is the same as submitting it once,
    whatever the second submission carries. *)
Lemma storeUserDeposit_twice
    (r : Redis) (pawAddress : string) (amount timestamp amount' timestamp' : Z)
    (hash : string) :
  UsersDepositsService.storeUserDeposit env
    (UsersDepositsService.storeUserDeposit env r pawAddress amount timestamp hash)
    pawAddress amount' timestamp' hash
  = UsersDepositsService.storeUserDeposit env r pawAddress amount timestamp hash.
Proof.
  destruct (RedisUsersDepositsStorage.containsUserDepositTransaction r pawAddress hash)
    eqn:Hdup.
  - unfold UsersDepositsService.storeUserDeposit. rewrite Hdup, Hdup. reflexivity.
  - destruct (redlock_lock env ("locks:paw-balance:" +:+ JS.toLowerCase pawAddress))
      eqn:Hlock; [destruct (redis_exec env) eqn:Hexec |].
    + pose proof (storeUserDeposit_recorded r pawAddress amount timestamp hash
                    Hlock Hexec) as Hrec.
      unfold UsersDepositsService.storeUserDeposit at 1. rewrite Hrec. reflexivity.
    + assert (Hnop : forall a t,
                UsersDepositsService.storeUserDeposit env r pawAddress a t hash = r).
      { intros a t. unfold UsersDepositsService.storeUserDeposit,
          RedisUsersDepositsStorage.storeUserDeposit.
        rewrite Hdup, Hlock, Hexec. reflexivity. }
      rewrite (Hnop amount timestamp). apply Hnop.
    + assert (Hnop : forall a t,
                UsersDepositsService.storeUserDeposit env r pawAddress a t hash = r).
      { intros a t. unfold UsersDepositsService.storeUserDeposit,
          RedisUsersDepositsStorage.storeUserDeposit.
        rewrite Hdup, Hlock. reflexivity. }
      rewrite (Hnop amount timestamp). apply Hnop.
Qed.

End Deposits.

Lemma storeUserDeposit_duplicate_hash_witness :
  let r' := UsersDepositsService.storeUserDeposit (Double.env 0) one_deposit
              "paw_Sender" (5 * ether) 1700000000001 "0xCAFEBABE" in
  r' = one_deposit
  /\ deposit_records r' "paw_Sender" "0xCAFEBABE" = 1%nat
  /\ paw_balance r' !! JS.toLowerCase "paw_Sender"
       = paw_balance one_deposit !! JS.toLowerCase "paw_Sender".
Proof.
  apply (storeUserDeposit_duplicate_hash (Double.env 0) one_deposit "paw_Sender"
           (5 * ether) 1700000000001 "0xCAFEBABE").
  vm_compute. reflexivity.
Defined.

(** ** Swaps from the wrapped token are credited once *)

Section SwapToPaw.
Context {E : Ethers}.
Variable env : Env.

(** A swap nobody recorded yet, with the lock and Redis available, is
    credited and recorded under its hash. *)
Lemma processSwapToPAW_fresh (swap : SwapWPAWToPaw.t) (w : World) (amount : Z) :
  RedisUsersDepositsStorage.swapToPawWasAlreadyDone (redis w) swap = false ->
  JS.truthy_string (SwapWPAWToPaw.pawWallet swap) = true ->
  redlock_lock env ("locks:paw-balance:" +:+ SwapWPAWToPaw.pawWallet swap) = true ->
  parseEther (SwapWPAWToPaw.amount swap) = Some amount ->
  redis_exec env = true ->
  let w' := fst (Service.processSwapToPAW env swap w) in
  paw_balance (redis w') !! JS.toLowerCase (SwapWPAWToPaw.pawWallet swap)
    = Some (RedisUsersDepositsStorage.stored_balance (redis w)
              (JS.toLowerCase (SwapWPAWToPaw.pawWallet swap)) + amount)
  /\ RedisUsersDepositsStorage.swapToPawWasAlreadyDone (redis w') swap = true
  /\ snd (Service.processSwapToPAW env swap w)
       = Return (SwapWPAWToPaw.hash swap, SwapWPAWToPaw.wpawBalance swap).
Proof.
  destruct w as [r q calls]. simpl. intros Hfresh Hpaw Hlock Hparse Hexec.
  unfold Service.processSwapToPAW, bind, query, attempt_update, ret,
    UsersDepositsService.containsUserSwapToPaw,
    UsersDepositsService.storeUserSwapToPaw,
    RedisUsersDepositsStorage.storeUserSwapToPaw.
  simpl. rewrite Hfresh, Hpaw. simpl. rewrite Hlock, Hparse, Hexec, Hfresh. simpl.
  split; [apply lookup_insert_eq |]. split; [| reflexivity].
  unfold RedisUsersDepositsStorage.swapToPawWasAlreadyDone, Cmd.zrank, Cmd.zadd.
  simpl. rewrite lookup_insert_eq. simpl. rewrite lookup_insert_eq. reflexivity.
Qed.


End SwapToPaw.



Example swapped_once_balance :
  paw_balance (redis swapped_once) !! "paw_bob" = Some (7 * ether).
Proof. vm_compute. reflexivity. Qed.

(** ** Claims *)

Lemma set_key_In (k : string * string) (ks : list (string * string)) :
  In k (Cmd.set_key k ks).
Proof.
  unfold Cmd.set_key. destruct (existsb (Cmd.key_eqb k) ks) eqn:Hex.
  - apply existsb_exists in Hex as [k' [Hin Heq]].
    unfold Cmd.key_eqb in Heq. apply andb_true_iff in Heq as [H1 H2].
    apply String.eqb_eq in H1, H2. destruct k, k'; simpl in *; subst. exact Hin.
  - apply in_or_app. right. left. reflexivity.
Qed.

Lemma filter_nil_In {A : Type} (f : A -> bool) (l : list A) :
  List.filter f l = [] <-> (forall x, In x l -> f x = false).
Proof.
  split.
  - intros Hnil x Hin. destruct (f x) eqn:Hfx; [| reflexivity].
    assert (Hx : In x (List.filter f l)) by (apply filter_In; split; assumption).
    rewrite Hnil in Hx. destruct Hx.
  - intros Hall. induction l as [| x l IH]; [reflexivity |]. simpl.
    rewrite (Hall x (or_introl eq_refl)). apply IH.
    intros y Hy. apply Hall. right. exact Hy.
Qed.

(** The keys alive later were alive before. *)
Lemma live_later_In (now elapsed : Z) (ks : list (string * string * Z))
    (k : string * string) :
  0 <= elapsed ->
  In k (Cmd.live (now + elapsed) (List.filter (fun entry => now <=? snd entry) ks)) ->
  In k (Cmd.live now ks).
Proof.
  intros Helapsed Hin. unfold Cmd.live in *.
  apply in_map_iff in Hin as [entry [Hk Hin]].
  apply filter_In in Hin as [Hin _].
  apply in_map_iff. exists entry. split; [exact Hk | exact Hin].
Qed.

(** A pending claim stored for an address that had none is the one
    pending claim of the address until it lapses, and then there is
    none. *)
Lemma keys_of_live_set_expire (paw evm : string) (now ttl elapsed : Z)
    (ks : list (string * string * Z)) :
  Cmd.keys_of paw (Cmd.live now ks) = [] ->
  0 <= elapsed ->
  Cmd.set_expire (paw, evm) now ttl ks
    = (List.filter (fun entry => now <=? snd entry) ks ++ [((paw, evm), now + ttl * 1000)])%list
  /\ Cmd.keys_of paw
       (Cmd.live (now + elapsed) (Cmd.set_expire (paw, evm) now ttl ks))
     = if elapsed <=? ttl * 1000 then [(paw, evm)] else [].
Proof.
  intros Hnone Helapsed.
  assert (Hfresh : Cmd.set_expire (paw, evm) now ttl ks
            = (List.filter (fun entry => now <=? snd entry) ks
                 ++ [((paw, evm), now + ttl * 1000)])%list).
  { unfold Cmd.set_expire.
    destruct (existsb _ (List.filter (fun entry => now <=? snd entry) ks)) eqn:Hex;
      [| reflexivity].
    exfalso. apply existsb_exists in Hex as [[[p e] t] [Hin Heq]].
    unfold Cmd.key_eqb in Heq. simpl in Heq.
    apply andb_true_iff in Heq as [Hp _]. apply String.eqb_eq in Hp. subst p.
    unfold Cmd.keys_of in Hnone.
    pose proof (proj1 (filter_nil_In _ _) Hnone (paw, e)) as Hfalse.
    simpl in Hfalse. rewrite String.eqb_refl in Hfalse.
    assert (Hlive : In (paw, e) (Cmd.live now ks)).
    { unfold Cmd.live. apply in_map_iff. exists (paw, e, t). split; [reflexivity |].
      exact Hin. }
    specialize (Hfalse Hlive). discriminate Hfalse. }
  split; [exact Hfresh |]. rewrite Hfresh.
  unfold Cmd.live. rewrite List.filter_app, map_app.
  unfold Cmd.keys_of. rewrite List.filter_app.
  assert (Hold : List.filter (fun k => String.eqb (fst k) paw)
                   (map fst
                      (List.filter (fun entry => now + elapsed <=? snd entry)
                         (List.filter (fun entry => now <=? snd entry) ks))) = []).
  { apply filter_nil_In. intros k Hin.
    apply (proj1 (filter_nil_In _ _) Hnone).
    apply (live_later_In now elapsed ks k Helapsed). exact Hin. }
  rewrite Hold. simpl.
  destruct (Z.leb_spec elapsed (ttl * 1000)) as [Hle | Hgt].
  - assert (Hnow : (now + elapsed <=? now + ttl * 1000) = true)
      by (apply Z.leb_le; lia).
    rewrite Hnow. simpl. rewrite String.eqb_refl. reflexivity.
  - assert (Hnow : (now + elapsed <=? now + ttl * 1000) = false)
      by (apply Z.leb_gt; lia).
    rewrite Hnow. reflexivity.
Qed.

Section Claim.
Context {E : Ethers}.
Variable env : Env.

(** What [claim] does, branch by branch. *)
Lemma claim_unfold (pawWallet blockchainWallet signature : string) (w : World) :
  Service.claim env pawWallet blockchainWallet signature w =
    match Service.checkSignature blockchainWallet signature
            (Service.claim_message pawWallet) with
    | Throw e => (w, Throw e)
    | Return valid =>
        if negb valid
        then (w, Return InvalidSignature)
        else
          match KirbyPawWalletsBlacklist.isBlacklisted env pawWallet with
          | Some _ => (w, Return Blacklisted)
          | None =>
              if RedisUsersDepositsStorage.hasClaim (redis w) pawWallet blockchainWallet
              then (w, Return AlreadyDone)
              else if RedisUsersDepositsStorage.hasPendingClaim (redis w) pawWallet
              then (w, Return InvalidOwner)
              else if redis_exec env
              then (mkWorld
                      (with_claims_pending
                         (Cmd.set_expire (JS.toLowerCase pawWallet,
                                          JS.toLowerCase blockchainWallet)
                            (redis_time (redis w)) (5 * 60)) (redis w))
                      (queue w) (node_calls w), Return Ok)
              else (w, Return Error)
          end
    end.
Proof.
  destruct w as [r q calls].
  unfold Service.claim, bind, lift.
  destruct (Service.checkSignature _ _ _) as [valid | e]; [| reflexivity].
  destruct (negb valid); [reflexivity |].
  destruct (KirbyPawWalletsBlacklist.isBlacklisted env pawWallet); [reflexivity |].
  unfold bind, query, update_with, ret,
    UsersDepositsService.hasClaim, UsersDepositsService.hasPendingClaim,
    UsersDepositsService.storePendingClaim,
    RedisUsersDepositsStorage.storePendingClaim.
  simpl.
  destruct (RedisUsersDepositsStorage.hasClaim r pawWallet blockchainWallet);
    simpl; [reflexivity |].
  destruct (RedisUsersDepositsStorage.hasPendingClaim r pawWallet) eqn:Hpending;
    simpl; [reflexivity |].
  rewrite Hpending. destruct (redis_exec env); reflexivity.
Qed.

(** The pending claims of an address, once its claim was stored, as the
    clock moves on. *)
Lemma hasPendingClaim_after_claim (r : Redis) (pawWallet blockchainWallet : string)
    (elapsed : Z) :
  RedisUsersDepositsStorage.hasPendingClaim r pawWallet = false ->
  0 <= elapsed ->
  Cmd.keys_of (JS.toLowerCase pawWallet)
    (Cmd.live (redis_time r + elapsed)
       (Cmd.set_expire (JS.toLowerCase pawWallet, JS.toLowerCase blockchainWallet)
          (redis_time r) (5 * 60) (claims_pending r)))
  = if elapsed <=? 5 * 60 * 1000
    then [(JS.toLowerCase pawWallet, JS.toLowerCase blockchainWallet)] else [].
Proof.
  intros Hpending Helapsed.
  unfold RedisUsersDepositsStorage.hasPendingClaim in Hpending.
  destruct (Cmd.keys_of (JS.toLowerCase pawWallet)
              (Cmd.live (redis_time r) (claims_pending r))) eqn:Hnone;
    [| discriminate].
  apply (keys_of_live_set_expire _ _ _ _ _ _ Hnone Helapsed).
Qed.


End Claim.



(** ** Hot and cold wallets *)

Lemma cold_wallet_share_formula (minimum ratio hotWalletBalance deposit : Z) :
  minimum < hotWalletBalance -> 0 <= deposit ->
  cold_wallet_share minimum ratio hotWalletBalance deposit
    = Z.min (hotWalletBalance - minimum) deposit / ether * 10 ^ 16 * (100 - ratio).
Proof.
  intros Habove Hdeposit. unfold cold_wallet_share, Paw.whole_units.
  assert (Hmin : (if hotWalletBalance - minimum >? deposit then deposit
                  else hotWalletBalance - minimum)
                 = Z.min (hotWalletBalance - minimum) deposit).
  { destruct (Z.gtb_spec (hotWalletBalance - minimum) deposit); lia. }
  rewrite Hmin.
  assert (Hnonneg : 0 <= Z.min (hotWalletBalance - minimum) deposit) by lia.
  rewrite (Z.quot_div_nonneg _ ether Hnonneg) by (unfold ether; lia).
  replace (Z.min (hotWalletBalance - minimum) deposit / ether * ether)
    with (Z.min (hotWalletBalance - minimum) deposit / ether * 10 ^ 16 * 100)
    by (unfold ether; lia).
  rewrite Z.quot_mul by lia. reflexivity.
Qed.

Section HotCold.
Context {E : Ethers}.
Variable cfg : Config.
Variable env : Env.

Lemma sendPaw_run (pawAddress : string) (amount : Z) (w : World) :
  fst (Paw.sendPaw env pawAddress amount w)
    = mkWorld (redis w) (queue w) (node_calls w ++ [Send pawAddress amount])%list
  /\ snd (Paw.sendPaw env pawAddress amount w)
     = match sendPawWithdrawalFromSeed env pawAddress amount with
       | Some hash => Return hash
       | None => Throw (Err "sendPawWithdrawalFromSeed")
       end.
Proof.
  unfold Paw.sendPaw, bind, call_node, ret, throw. simpl.
  destruct (sendPawWithdrawalFromSeed env pawAddress amount); split; reflexivity.
Qed.

Lemma eventuallySendToColdWallet_run (minimum deposit : Z) (w : World) :
  parseEther (PawUsersDepositsHotWalletMinimum cfg) = Some minimum ->
  let hotWalletBalance := getAccountTotalBalance env (PawUsersDepositsHotWallet cfg) in
  let share :=
    cold_wallet_share minimum (PawUsersDepositsHotWalletToColdWalletRatio cfg)
      hotWalletBalance deposit in
  Paw.eventuallySendToColdWallet cfg env deposit w =
    if hotWalletBalance - minimum <=? 0 then (w, Return tt)
    else if share =? 0 then (w, Return tt)
    else (Paw.sendPaw env (PawUsersDepositsColdWallet cfg) share >> ret tt) w.
Proof.
  intros Hmin. unfold Paw.eventuallySendToColdWallet. rewrite Hmin.
  unfold Paw.getTotalBalance, Paw.usersDepositsHotWallet, Paw.usersDepositsColdWallet,
    cold_wallet_share. simpl.
  destruct (_ <=? 0); [reflexivity |].
  destruct (_ =? 0); reflexivity.
Qed.

Lemma split_table_rows (hot deposit expected : Z) :
  In (hot, deposit, expected) split_table ->
  (hot + deposit - 10 * ether <=? 0) = false
  /\ cold_wallet_share (10 * ether) 20 (hot + deposit) deposit = expected
  /\ (expected =? 0) = false
  /\ number_differs_from_rounded deposit = false.
Proof.
  intros Hrow. simpl in Hrow.
  destruct Hrow as [Hrow | [Hrow | [Hrow | [Hrow | [Hrow | []]]]]];
    inversion Hrow; subst hot deposit expected; vm_compute; auto.
Qed.

Lemma eventuallySendToColdWallet_row (hot deposit expected : Z) (w : World) :
  parseEther (PawUsersDepositsHotWalletMinimum cfg) = Some (10 * ether) ->
  PawUsersDepositsHotWalletToColdWalletRatio cfg = 20 ->
  In (hot, deposit, expected) split_table ->
  getAccountTotalBalance env (PawUsersDepositsHotWallet cfg) = hot + deposit ->
  fst (Paw.eventuallySendToColdWallet cfg env deposit w)
    = mkWorld (redis w) (queue w)
        (node_calls w ++ [Send (PawUsersDepositsColdWallet cfg) expected])%list.
Proof.
  intros Hmin Hratio Hrow Htotal.
  rewrite (eventuallySendToColdWallet_run (10 * ether) deposit w Hmin).
  cbv zeta. rewrite Hratio, Htotal.
  destruct (split_table_rows hot deposit expected Hrow) as [Habove [Hshare [Hnz _]]].
  rewrite Habove, Hshare, Hnz.
  unfold bind. pose proof (sendPaw_run (PawUsersDepositsColdWallet cfg) expected w)
    as [Hw Hout].
  destruct (Paw.sendPaw env (PawUsersDepositsColdWallet cfg) expected w)
    as [w' out]. simpl in Hw, Hout. subst w'. destruct out; reflexivity.
Qed.


End HotCold.


(** ** Deposits *)

Lemma nonempty_filter_In {A : Type} (f : A -> bool) (l : list A) (x : A) :
  In x l -> f x = true -> nonempty (List.filter f l) = true.
Proof.
  intros Hin Hfx.
  assert (Hx : In x (List.filter f l)) by (apply filter_In; split; assumption).
  destruct (List.filter f l); [contradiction | reflexivity].
Qed.

Lemma promoted_isClaimed (r : Redis) (sender : string) :
  RedisUsersDepositsStorage.hasPendingClaim r sender = true ->
  RedisUsersDepositsStorage.isClaimed (promoted r sender) sender = true.
Proof.
  intros Hpending. unfold promoted. rewrite Hpending.
  unfold RedisUsersDepositsStorage.hasPendingClaim in Hpending.
  unfold RedisUsersDepositsStorage.confirmClaim, RedisUsersDepositsStorage.isClaimed.
  destruct (Cmd.keys_of (JS.toLowerCase sender)
              (Cmd.live (redis_time r) (claims_pending r)))
    as [| key keys] eqn:Hkeys; [discriminate |].
  simpl. apply (nonempty_filter_In _ _ key); [apply set_key_In |].
  assert (Hkey : In key (Cmd.keys_of (JS.toLowerCase sender)
              (Cmd.live (redis_time r) (claims_pending r))))
    by (rewrite Hkeys; left; reflexivity).
  unfold Cmd.keys_of in Hkey. apply filter_In in Hkey as [_ Hkey]. exact Hkey.
Qed.

Section Deposit.
Context {E : Ethers}.
Variable cfg : Config.
Variable env : Env.

(** [processUserDeposit], branch by branch: the pending claim is
    confirmed, the transaction is received, and then the amount is either
    sent back or stored and handed to the hot/cold split. *)
Lemma processUserDeposit_run (sender : string) (amount timestamp : Z) (hash : string)
    (w : World) :
  let received :=
    mkWorld (promoted (redis w) sender) (queue w)
            (node_calls w ++ [Receive hash])%list in
  Paw.processUserDeposit cfg env sender amount timestamp hash w =
    if (negb (RedisUsersDepositsStorage.isClaimed (promoted (redis w) sender) sender)
        || number_differs_from_rounded amount)%bool
    then (Paw.sendPaw env sender amount >> ret false) received
    else
      (update (fun r =>
         UsersDepositsService.storeUserDeposit env r sender amount timestamp hash) >>
       Paw.eventuallySendToColdWallet cfg env amount >> ret true) received.
Proof.
  destruct w as [r q calls].
  unfold Paw.processUserDeposit, promoted, bind, query, attempt_update, update, ret,
    Paw.receiveTransaction, call_node, try_catch, throw,
    UsersDepositsService.hasPendingClaim, UsersDepositsService.isClaimed,
    UsersDepositsService.confirmClaim, RedisUsersDepositsStorage.confirmClaim.
  cbn [JS.await redis queue node_calls fst snd].
  fold (number_differs_from_rounded amount).
  unfold RedisUsersDepositsStorage.hasPendingClaim.
  destruct (Cmd.keys_of (JS.toLowerCase sender)
              (Cmd.live (redis_time r) (claims_pending r)))
    as [| key keys] eqn:Hkeys;
    cbn [nonempty fst snd redis queue node_calls]; rewrite ?Hkeys;
    cbn [nonempty fst snd redis queue node_calls].
  all: destruct (RedisUsersDepositsStorage.isClaimed _ sender); cbn [negb orb];
    [destruct (number_differs_from_rounded amount) |]; try reflexivity.
  all: destruct (Paw.sendPaw env sender amount _) as [w' [hash' | e]]; reflexivity.
Qed.

(** The parts of the deposit rule the code follows: an unclaimed sender
    is refunded in full and nothing is stored; a claimed sender whose
    amount passes the code's own rounding test has the deposit stored and
    the hot/cold split run on it; the receive comes first in every case. *)
Lemma processUserDeposit_cases (sender : string) (amount timestamp : Z) (hash : string)
    (w : World) :
  let run := Paw.processUserDeposit cfg env sender amount timestamp hash w in
  let claimed := RedisUsersDepositsStorage.isClaimed (promoted (redis w) sender) sender in
  let received :=
    mkWorld (promoted (redis w) sender) (queue w)
            (node_calls w ++ [Receive hash])%list in
  (claimed = false ->
     fst run = mkWorld (promoted (redis w) sender) (queue w)
                 (node_calls w ++ [Receive hash; Send sender amount])%list)
  /\ (claimed = true -> number_differs_from_rounded amount = true ->
        fst run = mkWorld (promoted (redis w) sender) (queue w)
                    (node_calls w ++ [Receive hash; Send sender amount])%list)
  /\ (claimed = true -> number_differs_from_rounded amount = false ->
        run = (Paw.eventuallySendToColdWallet cfg env amount >> ret true)
                (mkWorld
                   (UsersDepositsService.storeUserDeposit env
                      (promoted (redis w) sender) sender amount timestamp hash)
                   (queue w) (node_calls w ++ [Receive hash])%list)).
Proof.
  intros run claimed received. subst run.
  rewrite processUserDeposit_run. fold claimed.
  assert (Hrefund :
            fst ((Paw.sendPaw env sender amount >> ret false)
                   (mkWorld (promoted (redis w) sender) (queue w)
                      (node_calls w ++ [Receive hash])%list))
            = mkWorld (promoted (redis w) sender) (queue w)
                (node_calls w ++ [Receive hash; Send sender amount])%list).
  { unfold bind.
    pose proof (sendPaw_run env sender amount
                  (mkWorld (promoted (redis w) sender) (queue w)
                     (node_calls w ++ [Receive hash])%list)) as [Hw Hout].
    destruct (Paw.sendPaw env sender amount _) as [w' out]. simpl in Hw. subst w'.
    simpl. rewrite <- app_assoc. destruct out; reflexivity. }
  split; [| split].
  - intros Hclaimed. rewrite Hclaimed. simpl. exact Hrefund.
  - intros Hclaimed Hdiff. rewrite Hclaimed, Hdiff. simpl. exact Hrefund.
  - intros Hclaimed Hsame. rewrite Hclaimed, Hsame. simpl. reflexivity.
Qed.

(** A deposit of a row of the table by a claimed sender: the node sees
    the receive and then the send of the expected amount to the cold
    wallet, and nothing else. *)
Lemma processUserDeposit_split_table (sender : string) (timestamp : Z) (hash : string)
    (w : World) (hot deposit expected : Z) :
  parseEther (PawUsersDepositsHotWalletMinimum cfg) = Some (10 * ether) ->
  PawUsersDepositsHotWalletToColdWalletRatio cfg = 20 ->
  In (hot, deposit, expected) split_table ->
  getAccountTotalBalance env (PawUsersDepositsHotWallet cfg) = hot + deposit ->
  RedisUsersDepositsStorage.isClaimed (promoted (redis w) sender) sender = true ->
  node_calls (fst (Paw.processUserDeposit cfg env sender deposit timestamp hash w))
    = (node_calls w ++ [Receive hash; Send (PawUsersDepositsColdWallet cfg) expected])%list.
Proof.
  intros Hmin Hratio Hrow Htotal Hclaimed.
  destruct (split_table_rows hot deposit expected Hrow) as [_ [_ [_ Hsame]]].
  destruct (processUserDeposit_cases sender deposit timestamp hash w)
    as [_ [_ Hstored]].
  rewrite (Hstored Hclaimed Hsame). unfold bind.
  pose proof (eventuallySendToColdWallet_row cfg env hot deposit expected
                (mkWorld
                   (UsersDepositsService.storeUserDeposit env
                      (promoted (redis w) sender) sender deposit timestamp hash)
                   (queue w) (node_calls w ++ [Receive hash])%list)
                Hmin Hratio Hrow Htotal) as Hsweep.
  destruct (Paw.eventuallySendToColdWallet cfg env deposit _) as [w' out].
  simpl in Hsweep. subst w'. destruct out; simpl; rewrite <- app_assoc; reflexivity.
Qed.

End Deposit.

(** C3, at the failing input.  A claimed sender deposits
    1.000000000000000001 coins: more than two decimals, yet [parseFloat]
    reads the numeral as 1, the rounding test sees no difference, the
    amount is not sent back and the deposit is stored and credited. *)
Theorem processUserDeposit_keeps_sub_cent_amount :
  let amount := 10 ^ 18 + 1 in
  let run :=
    Paw.processUserDeposit (E := Double.ethers) Double.config (Double.env (5 * ether))
      "paw_Sender" amount 1700000000000 "0xD1" (Double.world claimed_store) in
  amount mod 10 ^ 16 <> 0
  /\ Paw.parseFloat_formatEther amount = JS.of_Z 1
  /\ number_differs_from_rounded amount = false
  /\ snd run = Return true
  /\ node_calls (fst run) = [Receive "0xD1"]
  /\ RedisUsersDepositsStorage.containsUserDepositTransaction (redis (fst run))
       "paw_Sender" "0xD1" = true
  /\ paw_balance (redis (fst run)) !! "paw_sender" = Some amount.
Proof.
  vm_compute. repeat split; try reflexivity. discriminate.
Qed.

(** The same sender depositing 1.466 coins is refunded, as the test-suite
    expects. *)
Example processUserDeposit_refunds_three_decimals :
  let run :=
    Paw.processUserDeposit (E := Double.ethers) Double.config (Double.env (5 * ether))
      "paw_Sender" (1466 * 10 ^ 15) 1700000000000 "0xD2" (Double.world claimed_store) in
  snd run = Return false
  /\ node_calls (fst run) = [Receive "0xD2"; Send "paw_Sender" (1466 * 10 ^ 15)]
  /\ RedisUsersDepositsStorage.containsUserDepositTransaction (redis (fst run))
       "paw_Sender" "0xD2" = false.
Proof. vm_compute. repeat split; reflexivity. Qed.

(** ** The sweep of pending receivables *)

Section Sweep.
Context {E : Ethers}.
Variable cfg : Config.
Variable env : Env.

Lemma enqueue_all_node_calls (jobs : list Job) :
  forall w : World,
    node_calls (enqueue_all jobs w) = node_calls w
    /\ redis (enqueue_all jobs w) = redis w.
Proof.
  unfold enqueue_all.
  induction jobs as [| job jobs IH]; intros w; cbn [fold_left];
    [split; reflexivity |].
  destruct (IH (fst (RedisProcessingQueue.add job w))) as [Hcalls Hredis].
  rewrite Hcalls, Hredis. split; reflexivity.
Qed.

Lemma processPendingTransactions_loop_step
    (hash : string) (transaction : PendingTransaction)
    (rest : list (string * PendingTransaction)) (w : World) :
  Paw.processPendingTransactions_loop cfg env ((hash, transaction) :: rest) w =
    match classify cfg transaction with
    | ReceiveOnly =>
        (mkWorld (redis w) (queue w) (node_calls w ++ [Receive hash])%list, Return tt)
    | Skipped => Paw.processPendingTransactions_loop cfg env rest w
    | Enqueued pawAmount =>
        Paw.processPendingTransactions_loop cfg env rest
          (fst (RedisProcessingQueue.add
                  (deposit_job env hash (pending_source transaction) pawAmount) w))
    end.
Proof.
  unfold classify. cbn [Paw.processPendingTransactions_loop].
  unfold Paw.usersDepositsHotWallet, Paw.usersDepositsColdWallet.
  destruct (String.length (pending_amount transaction) <? 9)%nat; [reflexivity |].
  destruct (bigNumberFrom (Paw.strip_raw (pending_amount transaction)));
    [| reflexivity].
  destruct (String.eqb (pending_source transaction) (PawUsersDepositsHotWallet cfg)
            || String.eqb (pending_source transaction)
                 (PawUsersDepositsColdWallet cfg))%bool; [reflexivity |].
  reflexivity.
Qed.

(** C4, amended.  The sweep takes the receivables in the order of the
    list.  As long as none is receive-only, each one whose amount parses
    is enqueued as a deposit job (sender, amount without its last nine
    digits, the current time, hash), one whose amount does not parse is
    skipped, and no call is made to the node; the first receivable that
    is receive-only (its raw amount has fewer than nine digits, or it
    parses and was sent by the hot or the cold wallet) is received and
    not enqueued. *)
Theorem processPendingTransactions_classification
    (transactions : list (string * PendingTransaction)) (w : World) :
  Forall (fun entry => classify cfg (snd entry) <> ReceiveOnly) transactions ->
  Paw.processPendingTransactions_loop cfg env transactions w
    = (enqueue_all (deposit_jobs cfg env transactions) w, Return tt)
  /\ node_calls (enqueue_all (deposit_jobs cfg env transactions) w) = node_calls w
  /\ forall last : string * PendingTransaction,
       classify cfg (snd last) = ReceiveOnly ->
       Paw.processPendingTransactions_loop cfg env (transactions ++ [last])%list w
       = (mkWorld (redis w) (queue (enqueue_all (deposit_jobs cfg env transactions) w))
            (node_calls w ++ [Receive (fst last)])%list, Return tt).
Proof.
  intros Hordinary.
  split; [| split; [apply enqueue_all_node_calls |]]; revert w;
    induction Hordinary as [| [hash transaction] rest Hclass Hrest IH]; intros w.
  - reflexivity.
  - simpl in Hclass.
    rewrite processPendingTransactions_loop_step. unfold deposit_jobs. simpl.
    destruct (classify cfg transaction) as [| | pawAmount]; [contradiction | |];
      apply IH.
  - intros [hash transaction] Hlast. simpl app.
    rewrite processPendingTransactions_loop_step. simpl in Hlast.
    rewrite Hlast. reflexivity.
  - simpl in Hclass. intros last Hlast. simpl app.
    rewrite processPendingTransactions_loop_step. unfold deposit_jobs. simpl.
    destruct (classify cfg transaction) as [| | pawAmount]; [contradiction | |].
    + apply IH. exact Hlast.
    + rewrite (IH _ last Hlast). reflexivity.
Qed.

End Sweep.

(** A receivable that the hot and cold wallets did not send, and that is
    not enqueued: its raw amount has eight digits, so it is received and
    nothing is credited. *)
Lemma processPendingTransactions_dust_counterexample :
  let run :=
    fst (Paw.processPendingTransactions (E := Double.ethers) Double.config
           (sweep_env [dust_from_user]) "paw_hot" (Double.world empty_redis)) in
  pending_source (snd dust_from_user) <> PawUsersDepositsHotWallet Double.config
  /\ pending_source (snd dust_from_user) <> PawUsersDepositsColdWallet Double.config
  /\ node_calls run = [Receive "HASH3"]
  /\ queue run = [].
Proof. vm_compute. repeat split; try reflexivity; discriminate. Qed.

Lemma processPendingTransactions_classification_witness :
  Paw.processPendingTransactions_loop (E := Double.ethers) Double.config
    (sweep_env []) [from_user; from_cold_wallet] (Double.world empty_redis)
  = (mkWorld empty_redis [user_deposit_job] [Receive "HASH1"], Return tt).
Proof.
  apply (proj2 (proj2 (processPendingTransactions_classification
                         (E := Double.ethers) Double.config (sweep_env [])
                         [from_user] (Double.world empty_redis)
                         ltac:(repeat constructor; vm_compute; discriminate)))
           from_cold_wallet).
  reflexivity.
Defined.

(** What follows a receive-only receivable in the list is left for a later
    sweep: the [return] that ends its iteration ends the method.  Here the
    user's deposit listed after the transfer from the cold wallet is
    neither received nor enqueued, although on its own, or on the
    websocket path, it is enqueued. *)
Example processPendingTransactions_stops_at_self_pay :
  let run pending :=
    fst (Paw.processPendingTransactions (E := Double.ethers) Double.config
           (sweep_env pending) "paw_hot" (Double.world empty_redis)) in
  (node_calls (run [from_cold_wallet; from_user]) = [Receive "HASH1"]
   /\ queue (run [from_cold_wallet; from_user]) = [])
  /\ queue (run [from_user]) = [user_deposit_job]
  /\ queue (fst (Paw.wsMessageReceived (E := Double.ethers) Double.config
                   (sweep_env [])
                   (mkNotification "paw_user" "paw_hot"
                      "2000000000000000000000000000" "HASH2")
                   (Double.world empty_redis)))
     = [user_deposit_job].
Proof. vm_compute. repeat split; reflexivity. Qed.

(** ** Withdrawals *)

(** The two claim checks of [processWithdrawPAW], followed by whatever
    comes next: on every store and for every pair of addresses they let
    the rest run, since the conditions negate promises. *)
Lemma claim_checks_of_processWithdrawPAW_pass {A : Type}
    (pawWallet blockchainWallet : string) (rest : M A) (w : World) :
  (let* isClaimed := query (fun r => UsersDepositsService.isClaimed r pawWallet) in
   if negb (JS.truthy_promise isClaimed) then
     throw (Err ("Can't withdraw from unclaimed wallet " +:+ pawWallet))
   else
     let* hasClaim :=
       query (fun r => UsersDepositsService.hasClaim r pawWallet blockchainWallet) in
     if negb (JS.truthy_promise hasClaim) then
       throw (Err "Can't withdraw from another Blockchain wallet")
     else rest) w
  = rest w.
Proof. reflexivity. Qed.

(** C1, at the failing inputs.  [0xA] signs a withdrawal from
    [paw_Victim], which is claimed by [0xV]; and [0xA] signs a withdrawal
    from [paw_Bob], which nobody claimed and which holds 7 coins from a
    swap.  Run as the registered withdrawal job, neither claim check of
    [processWithdrawPAW] throws: the coins are sent, the withdrawal is
    recorded and the balance goes down.  (The balance the job reports is
    the one read while the debit is under way.) *)
Theorem processWithdrawPAW_pays_without_claim :
  let run w store :=
    Service.withdrawalJob (E := Double.ethers) Double.config (Double.env (300 * ether))
      w (Double.world store) in
  let other_evm := signed_withdrawal "paw_Victim" "100" "0xA" 0 in
  let unclaimed := signed_withdrawal "paw_Bob" "7" "0xA" 0 in
  (RedisUsersDepositsStorage.isClaimed victim_store "paw_Victim" = true
   /\ RedisUsersDepositsStorage.hasClaim victim_store "paw_Victim" "0xA" = false
   /\ snd (run other_evm victim_store)
      = Return (mkWithdrawalResult "paw_Victim" "100" "100" "SENDBLOCK")
   /\ node_calls (fst (run other_evm victim_store))
      = [Send "paw_Victim" (100 * ether)]
   /\ RedisUsersDepositsStorage.containsUserWithdrawalRequest
        (redis (fst (run other_evm victim_store))) "paw_Victim" 1700000000000 = true
   /\ paw_balance (redis (fst (run other_evm victim_store))) !! "paw_victim" = Some 0)
  /\ (RedisUsersDepositsStorage.isClaimed (redis swapped_once) "paw_Bob" = false
      /\ snd (run unclaimed (redis swapped_once))
         = Return (mkWithdrawalResult "paw_Bob" "7" "7" "SENDBLOCK")
      /\ node_calls (fst (run unclaimed (redis swapped_once)))
         = [Send "paw_Bob" (7 * ether)]
      /\ RedisUsersDepositsStorage.containsUserWithdrawalRequest
           (redis (fst (run unclaimed (redis swapped_once)))) "paw_Bob" 1700000000000
         = true
      /\ paw_balance (redis (fst (run unclaimed (redis swapped_once)))) !! "paw_bob"
         = Some 0).
Proof. vm_compute. repeat split; reflexivity. Qed.

Lemma add_fresh (job : Job) (w : World) :
  (forall j : Job, In j (queue w) -> jobId j <> jobId job) ->
  queue (fst (RedisProcessingQueue.add job w)) = (queue w ++ [job])%list.
Proof.
  intros Hfresh. unfold RedisProcessingQueue.add. simpl.
  destruct (existsb (fun j => String.eqb (jobId j) (jobId job)) (queue w)) eqn:Hex;
    [| reflexivity].
  apply existsb_exists in Hex as [j [Hin Heq]]. apply String.eqb_eq in Heq.
  exfalso. exact (Hfresh j Hin Heq).
Qed.

(** The signature check of [processWithdrawPAW]: skipped without a
    signature, and let through with one that [checkSignature] accepts. *)
Lemma signature_check_run {E : Ethers} (signature : option string)
    (blockchainWallet message : string) (w : World) :
  (if JS.truthy_opt signature then
     let* valid :=
       lift (Service.checkSignature blockchainWallet (default "" signature)
               message) in
     ret (negb valid)
   else ret false) w
  = match (if JS.truthy_opt signature
           then Service.checkSignature blockchainWallet (default "" signature)
                  message
           else Return true) with
    | Throw e => (w, Throw e)
    | Return valid => (w, Return (negb valid))
    end.
Proof.
  destruct (JS.truthy_opt signature); [| reflexivity].
  unfold bind, lift, ret.
  destruct (Service.checkSignature _ _ _); reflexivity.
Qed.

Lemma signature_accepted {E : Ethers} (signature : option string)
    (blockchainWallet message : string) (w : World) :
  (JS.truthy_opt signature = true ->
   Service.checkSignature blockchainWallet (default "" signature) message
     = Return true) ->
  (if JS.truthy_opt signature then
     let* valid :=
       lift (Service.checkSignature blockchainWallet (default "" signature)
               message) in
     ret (negb valid)
   else ret false) w
  = (w, Return false).
Proof.
  intros Hsig. destruct (JS.truthy_opt signature); [| reflexivity].
  unfold bind, lift, ret. rewrite (Hsig eq_refl). reflexivity.
Qed.

Section PendingWithdrawal.
Context {E : Ethers}.
Variable cfg : Config.
Variable env : Env.

Lemma addPawUserPendingWithdrawal_run (withdrawal : PawUserWithdrawal.t) (w : World) :
  RedisProcessingQueue.addPawUserPendingWithdrawal withdrawal w
    = (fst (RedisProcessingQueue.add (pending_withdrawal_job withdrawal) w),
       Return (next_attempt withdrawal)).
Proof. reflexivity. Qed.

(** [processWithdrawPAW] when every check passes and the hot wallet holds
    less than the amount. *)
Lemma processWithdrawPAW_insufficient_hot_balance
    (withdrawal : PawUserWithdrawal.t) (signature : option string) (w : World)
    (amount balance : Z) :
  RedisUsersDepositsStorage.containsUserWithdrawalRequest (redis w)
    (PawUserWithdrawal.pawWallet withdrawal)
    (PawUserWithdrawal.timestamp withdrawal) = false ->
  (JS.truthy_opt signature = true ->
   Service.checkSignature (PawUserWithdrawal.blockchainWallet withdrawal)
     (default "" signature)
     (Service.withdraw_message (PawUserWithdrawal.amount withdrawal)
        (PawUserWithdrawal.pawWallet withdrawal)) = Return true) ->
  parseEther (PawUserWithdrawal.amount withdrawal) = Some amount ->
  0 <= amount ->
  UsersDepositsService.getUserAvailableBalance env (redis w)
    (PawUserWithdrawal.pawWallet withdrawal) = Return balance ->
  amount <= balance ->
  getAccountBalance env (PawUsersDepositsHotWallet cfg) < amount ->
  Service.processWithdrawPAW cfg env withdrawal signature w
    = (fst (RedisProcessingQueue.add (pending_withdrawal_job withdrawal) w),
       Return ("", next_attempt withdrawal)).
Proof.
  intros Hnew Hsig Hparse Hnonneg Hbalance Henough Hhot.
  destruct w as [r q calls]. simpl in Hnew, Hbalance.
  unfold Service.processWithdrawPAW.
  unfold bind at 1. unfold query at 1.
  unfold UsersDepositsService.containsUserWithdrawalRequest.
  cbn [JS.await redis]. rewrite Hnew.
  unfold bind at 1. rewrite (signature_accepted _ _ _ _ Hsig).
  unfold bind at 1. unfold query at 1. cbn [JS.truthy_promise negb].
  unfold bind at 1. unfold query at 1. cbn [JS.truthy_promise negb].
  rewrite Hparse.
  destruct (Z.ltb_spec amount 0); [lia |].
  unfold bind at 1. unfold attempt at 1. cbn [redis]. rewrite Hbalance.
  destruct (Z.geb_spec balance amount); [| lia]. cbn [negb].
  unfold Service.eventuallySendPaw. rewrite Hparse. unfold Paw.getBalance.
  destruct (Z.ltb_spec (getAccountBalance env (PawUsersDepositsHotWallet cfg)) amount);
    [| lia].
  unfold bind, ret. rewrite addPawUserPendingWithdrawal_run. reflexivity.
Qed.

(** The job of a withdrawal, from what [processWithdrawPAW] did. *)
Lemma withdrawalProcessor_run (signature : option string)
    (job_data : PawUserWithdrawal.t) (w : World) :
  Service.withdrawalProcessor cfg env signature job_data w =
    match Service.processWithdrawPAW cfg env job_data signature w with
    | (w', Throw e) => (w', Throw e)
    | (w', Return (hash, withdrawal)) =>
        let pawWallet := PawUserWithdrawal.pawWallet withdrawal in
        if JS.truthy_string hash then
          match UsersDepositsService.getUserAvailableBalance env
                  (if String.eqb pawWallet (JS.toLowerCase pawWallet)
                   then redis w' else redis w) pawWallet with
          | Return balance =>
              (w', Return (mkWithdrawalResult pawWallet
                             (PawUserWithdrawal.amount withdrawal)
                             (formatEther balance) hash))
          | Throw e => (w', Throw e)
          end
        else if PawUserWithdrawal.attempt withdrawal =? 1 then
          match UsersDepositsService.getUserAvailableBalance env (redis w')
                  pawWallet with
          | Return balance =>
              (w', Return (mkWithdrawalResult pawWallet
                             (PawUserWithdrawal.amount withdrawal)
                             (formatEther balance) ""))
          | Throw e => (w', Throw e)
          end
        else (w', Throw (Err "Old pending withdrawal request replaced by a new one"))
    end.
Proof.
  unfold Service.withdrawalProcessor. unfold bind at 1. unfold query at 1.
  unfold bind at 1.
  destruct (Service.processWithdrawPAW cfg env job_data signature w)
    as [w' [[hash withdrawal] | e]]; [| reflexivity].
  cbv zeta. destruct (JS.truthy_string hash).
  - unfold bind, attempt, ret.
    destruct (UsersDepositsService.getUserAvailableBalance env _ _); reflexivity.
  - destruct (PawUserWithdrawal.attempt withdrawal =? 1); [| reflexivity].
    unfold bind, attempt, ret.
    destruct (UsersDepositsService.getUserAvailableBalance env _ _); reflexivity.
Qed.

(** C5, amended.  When every check passes and the hot wallet holds less
    than the amount: nothing is sent, the store is untouched, and the job
    scheduled carries the withdrawal with one more attempt, a delay of
    that many minutes, and removal on failure.  The worker of the original
    job then throws "replaced", except on the first scheduling (the
    counter reads 1), where it completes with an empty transaction. *)
Theorem withdrawalProcessor_insufficient_hot_balance
    (withdrawal : PawUserWithdrawal.t) (signature : option string) (w : World)
    (amount balance : Z) :
  RedisUsersDepositsStorage.containsUserWithdrawalRequest (redis w)
    (PawUserWithdrawal.pawWallet withdrawal)
    (PawUserWithdrawal.timestamp withdrawal) = false ->
  (JS.truthy_opt signature = true ->
   Service.checkSignature (PawUserWithdrawal.blockchainWallet withdrawal)
     (default "" signature)
     (Service.withdraw_message (PawUserWithdrawal.amount withdrawal)
        (PawUserWithdrawal.pawWallet withdrawal)) = Return true) ->
  parseEther (PawUserWithdrawal.amount withdrawal) = Some amount ->
  0 <= amount ->
  UsersDepositsService.getUserAvailableBalance env (redis w)
    (PawUserWithdrawal.pawWallet withdrawal) = Return balance ->
  amount <= balance ->
  getAccountBalance env (PawUsersDepositsHotWallet cfg) < amount ->
  let job :=
    mkJob "paw-withdrawal" (OpWithdrawal (next_attempt withdrawal))
          ("pending-paw-withdrawal-" +:+ PawUserWithdrawal.pawWallet withdrawal
             +:+ "-" +:+ pretty (PawUserWithdrawal.timestamp withdrawal)
             +:+ "-attempt-" +:+ pretty (PawUserWithdrawal.attempt withdrawal + 1))
          ((PawUserWithdrawal.attempt withdrawal + 1) * 60000)
          (PawUserWithdrawal.timestamp withdrawal)
          true in
  let w' := fst (Service.withdrawalProcessor cfg env signature withdrawal w) in
  redis w' = redis w
  /\ node_calls w' = node_calls w
  /\ w' = fst (RedisProcessingQueue.add job w)
  /\ ((forall j : Job, In j (queue w) -> jobId j <> jobId job) ->
      queue w' = (queue w ++ [job])%list)
  /\ Service.processWithdrawPAW cfg env withdrawal signature w
     = (w', Return ("", next_attempt withdrawal))
  /\ snd (Service.withdrawalProcessor cfg env signature withdrawal w)
     = if PawUserWithdrawal.attempt withdrawal + 1 =? 1
       then Return (mkWithdrawalResult
                      (PawUserWithdrawal.pawWallet withdrawal)
                      (PawUserWithdrawal.amount withdrawal)
                      (formatEther balance) "")
       else Throw (Err "Old pending withdrawal request replaced by a new one").
Proof.
  intros Hnew Hsig Hparse Hnonneg Hbalance Henough Hhot job w'.
  pose proof (processWithdrawPAW_insufficient_hot_balance withdrawal signature w
                amount balance Hnew Hsig Hparse Hnonneg Hbalance Henough Hhot) as Hrun.
  change (pending_withdrawal_job withdrawal) with job in Hrun.
  assert (Hproc :
            Service.withdrawalProcessor cfg env signature withdrawal w
            = (fst (RedisProcessingQueue.add job w),
               if PawUserWithdrawal.attempt withdrawal + 1 =? 1
               then Return (mkWithdrawalResult
                              (PawUserWithdrawal.pawWallet withdrawal)
                              (PawUserWithdrawal.amount withdrawal)
                              (formatEther balance) "")
               else Throw (Err "Old pending withdrawal request replaced by a new one"))).
  { rewrite withdrawalProcessor_run, Hrun.
    cbn [JS.truthy_string next_attempt PawUserWithdrawal.attempt
         PawUserWithdrawal.pawWallet PawUserWithdrawal.amount].
    destruct (PawUserWithdrawal.attempt withdrawal + 1 =? 1); [| reflexivity].
    unfold RedisProcessingQueue.add. cbn [fst redis].
    rewrite Hbalance. reflexivity. }
  subst w'. rewrite Hproc. cbn [fst snd].
  split; [reflexivity |]. split; [reflexivity |]. split; [reflexivity |].
  split; [apply add_fresh |]. split; [exact Hrun | reflexivity].
Qed.

End PendingWithdrawal.

(** The first time a withdrawal meets an empty hot wallet (attempt 0),
    the replacement is scheduled and the worker of the original job
    returns: it does not throw. *)
Lemma withdrawalJob_first_attempt_counterexample :
  let run :=
    Service.withdrawalJob (E := Double.ethers) Double.config (Double.env (30 * ether))
      (signed_withdrawal "paw_Victim" "100" "0xV" 0) (Double.world victim_store) in
  snd run = Return (mkWithdrawalResult "paw_Victim" "100" "100" "")
  /\ snd run <> Throw (Err "Old pending withdrawal request replaced by a new one")
  /\ queue (fst run)
     = [pending_withdrawal_job (signed_withdrawal "paw_Victim" "100" "0xV" 0)]
  /\ node_calls (fst run) = [].
Proof. vm_compute. repeat split; try reflexivity. discriminate. Qed.

(** The second scheduling (attempt 1) on the double: the worker throws. *)
Lemma withdrawalProcessor_insufficient_hot_balance_witness :
  let withdrawal := signed_withdrawal "paw_Victim" "100" "0xV" 1 in
  snd (Service.withdrawalProcessor (E := Double.ethers) Double.config
         (Double.env (30 * ether)) None withdrawal (Double.world victim_store))
  = Throw (Err "Old pending withdrawal request replaced by a new one").
Proof.
  pose proof (withdrawalProcessor_insufficient_hot_balance (E := Double.ethers)
                Double.config (Double.env (30 * ether))
                (signed_withdrawal "paw_Victim" "100" "0xV" 1) None
                (Double.world victim_store) (100 * ether) (100 * ether)) as H.
  apply H;
    first [ reflexivity | intros Hs; discriminate Hs | vm_compute; discriminate ].
Defined.

(** ** Lower-case addresses *)

Lemma toLowerCase_idempotent (s : string) :
  JS.toLowerCase (JS.toLowerCase s) = JS.toLowerCase s.
Proof.
  induction s as [| c s IH]; [reflexivity |]. simpl. rewrite IH. f_equal.
  unfold JS.lower_ascii.
  destruct (Nat.leb 65 (nat_of_ascii c) && Nat.leb (nat_of_ascii c) 90)%bool
    eqn:Hupper; [| rewrite Hupper; reflexivity].
  apply andb_true_iff in Hupper as [Hlo Hhi].
  apply Nat.leb_le in Hlo, Hhi.
  rewrite nat_ascii_embedding by lia.
  destruct (Nat.leb_spec 65 (nat_of_ascii c + 32)); [| lia].
  destruct (Nat.leb_spec (nat_of_ascii c + 32) 90); [lia |]. reflexivity.
Qed.

(** ** The scan of the blockchain *)

Lemma enqueue_all_app (jobs1 jobs2 : list Job) (w : World) :
  enqueue_all (jobs1 ++ jobs2) w = enqueue_all jobs2 (enqueue_all jobs1 w).
Proof. unfold enqueue_all. apply fold_left_app. Qed.

Lemma enqueue_all_frame (jobs : list Job) :
  forall w : World,
    enqueue_all jobs w
    = mkWorld (redis w) (queue (enqueue_all jobs (mkWorld empty_redis (queue w) [])))
        (node_calls w).
Proof.
  unfold enqueue_all.
  induction jobs as [| job jobs IH]; intros [r q calls]; cbn [fold_left].
  - reflexivity.
  - rewrite IH. symmetry. rewrite IH. reflexivity.
Qed.

Lemma events_of_logs_app {E : Ethers} (chain : Chain) (logs1 logs2 : list SwapToPawLog)
    (events : list SwapWPAWToPaw.t) :
  Blockchain.events_of_logs chain (logs1 ++ logs2) = Some events ->
  exists events1 events2,
    Blockchain.events_of_logs chain logs1 = Some events1
    /\ Blockchain.events_of_logs chain logs2 = Some events2
    /\ events = (events1 ++ events2)%list.
Proof.
  revert events. induction logs1 as [| log logs1 IH]; intros events Hev.
  - exists [], events. auto.
  - simpl in Hev |- *. destruct (Blockchain.event_of_log chain log) as [event |];
      [| discriminate].
    destruct (Blockchain.events_of_logs chain (logs1 ++ logs2)) as [rest |] eqn:Hrest;
      [| discriminate].
    destruct (IH rest eq_refl) as [events1 [events2 [H1 [H2 Happ]]]].
    exists (event :: events1), events2. rewrite H1. simpl in Hev |- *.
    inversion Hev. subst. auto.
Qed.

Section Scan.
Context {E : Ethers}.
Variable cfg : Config.
Variable chain : Chain.

Local Abbreviation get := (RedisUsersDepositsStorage.getLastBlockchainBlockProcessed cfg).
Local Abbreviation set := (RedisUsersDepositsStorage.setLastBlockchainBlockProcessed cfg).

Lemma handleSwapToPawEvents_well_formed (swap : SwapWPAWToPaw.t) (w : World) :
  well_formed swap = true ->
  Blockchain.handleSwapToPawEvents service_listeners swap w
    = (fst (RedisProcessingQueue.add (swap_job swap) w), Return tt).
Proof.
  unfold well_formed, Blockchain.handleSwapToPawEvents. intros Hwf.
  apply andb_true_iff in Hwf as [Hwf Hamount].
  apply andb_true_iff in Hwf as [Hevm Hpaw].
  rewrite Hevm, Hpaw, Hamount. reflexivity.
Qed.

Lemma handle_all_well_formed (events : list SwapWPAWToPaw.t) :
  forall w : World,
    forallb well_formed events = true ->
    Blockchain.handle_all service_listeners events w
      = (enqueue_all (map swap_job events) w, Return None).
Proof.
  induction events as [| event events IH]; intros w Hwf.
  - reflexivity.
  - simpl in Hwf. apply andb_true_iff in Hwf as [Hevent Hrest].
    cbn [Blockchain.handle_all]. unfold bind at 1. unfold try_catch, bind at 1.
    rewrite (handleSwapToPawEvents_well_formed event w Hevent).
    cbn [ret]. unfold bind. rewrite (IH _ Hrest). reflexivity.
Qed.

Lemma processBlocksSlice_well_formed (logs : list SwapToPawLog)
    (events : list SwapWPAWToPaw.t) (blockFrom blockTo : Z) (w : World) :
  queryFilter chain blockFrom blockTo = Some logs ->
  Blockchain.events_of_logs chain logs = Some events ->
  forallb well_formed events = true ->
  Blockchain.processBlocksSlice cfg chain service_listeners blockFrom blockTo w
    = (scanned cfg w (map swap_job events) blockTo, Return tt).
Proof.
  intros Hquery Hevents Hwf. unfold Blockchain.processBlocksSlice.
  rewrite Hquery, Hevents. unfold bind. rewrite (handle_all_well_formed events w Hwf).
  unfold update, scanned, UsersDepositsService.setLastBlockchainBlockProcessed.
  rewrite (enqueue_all_frame _ w). reflexivity.
Qed.

Lemma set_set (r : Redis) (block block' : Z) :
  block <= block' -> set (set r block) block' = set r block'.
Proof.
  intros Hle. unfold RedisUsersDepositsStorage.setLastBlockchainBlockProcessed,
    RedisUsersDepositsStorage.setLastBlockchainBlockProcessed_write.
  destruct (Z.gtb_spec block (get r)) as [Hgt | Hngt].
  - unfold RedisUsersDepositsStorage.getLastBlockchainBlockProcessed at 1.
    cbn [blocks_latest with_blocks_latest].
    destruct (Z.gtb_spec block' block) as [Hgt' | Hngt'];
      destruct (Z.gtb_spec block' (get r)); try lia; try reflexivity.
    assert (block' = block) by lia. subst. reflexivity.
  - reflexivity.
Qed.

Lemma scanned_scanned (w : World) (jobs1 jobs2 : list Job) (block block' : Z) :
  block <= block' ->
  scanned cfg (scanned cfg w jobs1 block) jobs2 block'
    = scanned cfg w (jobs1 ++ jobs2) block'.
Proof.
  intros Hle. unfold scanned. cbn [redis queue node_calls].
  rewrite (set_set _ _ _ Hle). f_equal.
  rewrite enqueue_all_app.
  rewrite (enqueue_all_frame jobs2 (enqueue_all jobs1 w)).
  rewrite (enqueue_all_frame jobs2 (mkWorld _ _ _)). reflexivity.
Qed.

Lemma processBlocks_loop_honest (block_logs : Z -> list SwapToPawLog) (blockTo : Z)
    (slices : nat) :
  (forall a b, queryFilter chain a b = Some (logs_between block_logs a b)) ->
  forall (blockSliceFrom : Z) (w : World) (events : list SwapWPAWToPaw.t),
    blockSliceFrom <= blockTo ->
    Z.of_nat slices = (blockTo - blockSliceFrom) / 1000 + 1 ->
    Blockchain.events_of_logs chain (logs_between block_logs blockSliceFrom blockTo)
      = Some events ->
    forallb well_formed events = true ->
    Blockchain.processBlocks_loop cfg chain service_listeners slices blockSliceFrom
      (Z.min (blockSliceFrom + 1000 - 1) blockTo) blockTo w
    = (scanned cfg w (map swap_job events) blockTo, Return tt).
Proof.
  intros Hhonest.
  induction slices as [| slices IH]; intros blockSliceFrom w events Hle Hn Hevents Hwf.
  - exfalso. assert (0 <= (blockTo - blockSliceFrom) / 1000) by
      (apply Z.div_pos; lia). lia.
  - cbn [Blockchain.processBlocks_loop]. unfold Blockchain.BLOCK_SLICE.
    destruct (Z.le_gt_cases blockTo (blockSliceFrom + 999)) as [Hlast | Hmore].
    + replace (Z.min (blockSliceFrom + 1000 - 1) blockTo) with blockTo by lia.
      unfold bind at 1.
      rewrite (processBlocksSlice_well_formed _ events blockSliceFrom blockTo w
                 (Hhonest _ _) Hevents Hwf).
      assert (Hdiv : (blockTo - blockSliceFrom) / 1000 = 0)
        by (apply Z.div_small; lia).
      destruct slices as [| slices]; [reflexivity | lia].
    + replace (Z.min (blockSliceFrom + 1000 - 1) blockTo) with (blockSliceFrom + 999)
        by lia.
      assert (Hsplit : logs_between block_logs blockSliceFrom blockTo
                = (logs_between block_logs blockSliceFrom (blockSliceFrom + 999)
                   ++ logs_between block_logs (blockSliceFrom + 1000) blockTo)%list).
      { unfold logs_between. rewrite <- flat_map_app. f_equal.
        replace (blockTo - blockSliceFrom + 1)
          with ((blockSliceFrom + 999 - blockSliceFrom + 1)
                + (blockTo - (blockSliceFrom + 1000) + 1)) by lia.
        rewrite seqZ_app by lia. f_equal. f_equal; lia. }
      rewrite Hsplit in Hevents.
      apply events_of_logs_app in Hevents
        as [events1 [events2 [Hev1 [Hev2 ->]]]].
      rewrite forallb_app in Hwf. apply andb_true_iff in Hwf as [Hwf1 Hwf2].
      unfold bind at 1.
      rewrite (processBlocksSlice_well_formed _ events1 blockSliceFrom
                 (blockSliceFrom + 999) w (Hhonest _ _) Hev1 Hwf1).
      replace (blockSliceFrom + (blockSliceFrom + 999 - blockSliceFrom + 1))
        with (blockSliceFrom + 1000) by lia.
      replace (blockSliceFrom + 999
               + Z.min 1000 (blockTo - (blockSliceFrom + 1000) + 1))
        with (Z.min (blockSliceFrom + 1000 + 1000 - 1) blockTo) by lia.
      rewrite (IH (blockSliceFrom + 1000) _ events2); [| lia | | exact Hev2 | exact Hwf2].
      * rewrite scanned_scanned by lia. rewrite map_app. reflexivity.
      * replace (blockTo - blockSliceFrom)
          with (blockTo - (blockSliceFrom + 1000) + 1 * 1000) in Hn by lia.
        rewrite Z.div_add in Hn by lia. lia.
Qed.

Lemma handle_all_run (events : list SwapWPAWToPaw.t) :
  forall w : World,
    exists rejected : option Exn,
      Blockchain.handle_all service_listeners events w
        = (enqueue_all (map swap_job (List.filter well_formed events)) w,
           Return rejected)
      /\ (forallb well_formed events = false -> rejected <> None).
Proof.
  induction events as [| event events IH]; intros w.
  - exists None. split; [reflexivity | discriminate].
  - cbn [Blockchain.handle_all List.filter forallb].
    destruct (well_formed event) eqn:Hevent.
    + destruct (IH (fst (RedisProcessingQueue.add (swap_job event) w)))
        as [rejected [Hrun Hbad]].
      exists rejected. split; [| exact Hbad].
      unfold bind at 1. unfold try_catch, bind at 1.
      rewrite (handleSwapToPawEvents_well_formed event w Hevent). cbn [ret map].
      unfold bind. rewrite Hrun. reflexivity.
    + assert (Hthrow : exists err,
                Blockchain.handleSwapToPawEvents service_listeners event w
                = (w, Throw err)).
      { unfold well_formed in Hevent. unfold Blockchain.handleSwapToPawEvents.
        destruct (JS.truthy_string (SwapWPAWToPaw.blockchainWallet event));
          [| eexists; reflexivity].
        destruct (JS.truthy_string (SwapWPAWToPaw.pawWallet event));
          [| eexists; reflexivity].
        destruct (JS.truthy_string (SwapWPAWToPaw.amount event));
          [discriminate | eexists; reflexivity]. }
      destruct Hthrow as [err Hthrow].
      destruct (IH w) as [rejected [Hrun _]].
      exists (Some err). split; [| discriminate].
      unfold bind at 1. unfold try_catch, bind at 1. rewrite Hthrow. cbn [ret].
      unfold bind. rewrite Hrun. reflexivity.
Qed.

(** X2.  The scan of a range that ends before it starts does nothing: no
    query, no job, no move of the cursor. *)
Theorem processBlocks_empty_range
    (listeners : list (SwapWPAWToPaw.t -> M unit)) (blockFrom blockTo : Z) (w : World) :
  blockTo < blockFrom ->
  Blockchain.processBlocks cfg chain listeners blockFrom blockTo w = (w, Return tt).
Proof.
  intros Hempty. unfold Blockchain.processBlocks, Blockchain.BLOCK_SLICE.
  assert (Hdiv : (blockTo - blockFrom) / 1000 < 0)
    by (apply Z.div_lt_upper_bound; lia).
  replace (Z.to_nat ((blockTo - blockFrom) / 1000 + 1)) with 0%nat by lia.
  reflexivity.
Qed.

(** X1.  A provider that answers every range with the logs of its blocks:
    scanning [blockFrom .. blockTo] in slices of 1000 blocks enqueues the
    swap job of every event of the range, in the order of the blocks,
    and leaves the cursor at the larger of its old value and [blockTo];
    this is what one slice over the whole range does. *)
Theorem processBlocks_slices_cover_range
    (block_logs : Z -> list SwapToPawLog) (blockFrom blockTo : Z) (w : World)
    (events : list SwapWPAWToPaw.t) :
  (forall a b, queryFilter chain a b = Some (logs_between block_logs a b)) ->
  blockFrom <= blockTo ->
  Blockchain.events_of_logs chain (logs_between block_logs blockFrom blockTo)
    = Some events ->
  forallb well_formed events = true ->
  let run := Blockchain.processBlocks cfg chain service_listeners blockFrom blockTo w in
  run = (scanned cfg w (map swap_job events) blockTo, Return tt)
  /\ run = Blockchain.processBlocksSlice cfg chain service_listeners blockFrom blockTo w
  /\ get (redis (fst run)) = Z.max (get (redis w)) blockTo.
Proof.
  intros Hhonest Hle Hevents Hwf run.
  assert (Hrun : run = (scanned cfg w (map swap_job events) blockTo, Return tt)).
  { subst run. unfold Blockchain.processBlocks, Blockchain.BLOCK_SLICE.
    apply (processBlocks_loop_honest block_logs blockTo _ Hhonest blockFrom w events
             Hle); [| exact Hevents | exact Hwf].
    assert (0 <= (blockTo - blockFrom) / 1000) by (apply Z.div_pos; lia). lia. }
  split; [exact Hrun |]. split.
  - rewrite Hrun. symmetry.
    apply (processBlocksSlice_well_formed _ events blockFrom blockTo w
             (Hhonest _ _) Hevents Hwf).
  - rewrite Hrun. unfold scanned. cbn [fst redis]. apply cursor_after_set.
Qed.

(** One slice, whatever the provider answers: when it throws the cursor
    is where it was, when it returns the cursor was advanced to
    [blockTo]; the node is never called. *)
Lemma processBlocksSlice_store (blockFrom blockTo : Z) (w : World) :
  let run := Blockchain.processBlocksSlice cfg chain service_listeners blockFrom blockTo w in
  node_calls (fst run) = node_calls w
  /\ (forall err, snd run = Throw err -> redis (fst run) = redis w)
  /\ (snd run = Return tt -> redis (fst run) = set (redis w) blockTo).
Proof.
  intros run. subst run. unfold Blockchain.processBlocksSlice.
  destruct (queryFilter chain blockFrom blockTo) as [logs |];
    [| split; [reflexivity | split; [intros; reflexivity | discriminate]]].
  destruct (Blockchain.events_of_logs chain logs) as [events |];
    [| split; [reflexivity | split; [intros; reflexivity | discriminate]]].
  unfold bind. destruct (handle_all_run events w) as [rejected [Hrun _]].
  rewrite Hrun.
  destruct (enqueue_all_node_calls (map swap_job (List.filter well_formed events)) w)
    as [Hcalls Hredis].
  destruct rejected as [err |]; cbn [fst snd throw update redis node_calls].
  - split; [exact Hcalls |]. split; [intros _ _; exact Hredis | discriminate].
  - split; [exact Hcalls |]. split; [discriminate |]. intros _.
    rewrite Hredis. reflexivity.
Qed.

(** X3.  An event without one of its three fields fails its slice: the slice
    throws and the cursor stays, while the jobs of the well-formed events
    of the slice are enqueued all the same. *)
Theorem processBlocksSlice_malformed_event (logs : list SwapToPawLog)
    (events : list SwapWPAWToPaw.t) (blockFrom blockTo : Z) (w : World) :
  queryFilter chain blockFrom blockTo = Some logs ->
  Blockchain.events_of_logs chain logs = Some events ->
  forallb well_formed events = false ->
  exists err,
    Blockchain.processBlocksSlice cfg chain service_listeners blockFrom blockTo w
    = (enqueue_all (map swap_job (List.filter well_formed events)) w, Throw err).
Proof.
  intros Hquery Hevents Hbad. unfold Blockchain.processBlocksSlice.
  rewrite Hquery, Hevents. unfold bind.
  destruct (handle_all_run events w) as [rejected [Hrun Hrejected]].
  rewrite Hrun. destruct rejected as [err |]; [| exfalso; exact (Hrejected Hbad eq_refl)].
  exists err. reflexivity.
Qed.

Lemma processBlocks_loop_cursor (blockTo : Z) (slices : nat) :
  forall (blockSliceFrom blockSliceTo : Z) (w : World),
    blockSliceTo <= blockTo ->
    let run := Blockchain.processBlocks_loop cfg chain service_listeners slices
                 blockSliceFrom blockSliceTo blockTo w in
    get (redis w) <= get (redis (fst run)) <= Z.max (get (redis w)) blockTo
    /\ node_calls (fst run) = node_calls w.
Proof.
  induction slices as [| slices IH]; intros blockSliceFrom blockSliceTo w Hle run;
    subst run.
  - cbn [Blockchain.processBlocks_loop ret fst]. split; [lia | reflexivity].
  - cbn [Blockchain.processBlocks_loop]. unfold bind.
    pose proof (processBlocksSlice_store blockSliceFrom blockSliceTo w)
      as [Hcalls [Hthrow Hreturn]].
    destruct (Blockchain.processBlocksSlice cfg chain service_listeners
                blockSliceFrom blockSliceTo w) as [w1 [[] | err]];
      cbn [fst snd] in Hcalls, Hthrow, Hreturn |- *.
    + specialize (Hreturn eq_refl).
      match goal with
      | |- context [Blockchain.processBlocks_loop _ _ _ _ ?f ?t _ w1] =>
          specialize (IH f t w1)
      end.
      cbv zeta in IH. destruct IH as [Hbounds Hcalls'].
      { unfold Blockchain.BLOCK_SLICE. lia. }
      rewrite Hcalls', Hcalls. split; [| reflexivity].
      rewrite Hreturn, cursor_after_set in Hbounds. lia.
    + rewrite (Hthrow err eq_refl). split; [lia | exact Hcalls].
Qed.

(** X4.  Whatever the provider answers, and whether the scan returns or
    throws, the cursor never moves back and never passes [blockTo]; the
    node is never called. *)
Theorem processBlocks_cursor_bounds (blockFrom blockTo : Z) (w : World) :
  let run := Blockchain.processBlocks cfg chain service_listeners blockFrom blockTo w in
  get (redis w) <= get (redis (fst run)) <= Z.max (get (redis w)) blockTo
  /\ node_calls (fst run) = node_calls w.
Proof.
  unfold Blockchain.processBlocks. apply processBlocks_loop_cursor. lia.
Qed.

End Scan.

(** ** Claims and the deposits that confirm them *)

Lemma keys_of_set_key_fresh (paw evm : string) (ks : list (string * string)) :
  Cmd.keys_of paw ks = [] ->
  Cmd.keys_of paw (Cmd.set_key (paw, evm) ks) = [(paw, evm)].
Proof.
  intros Hnone. unfold Cmd.set_key.
  destruct (existsb (Cmd.key_eqb (paw, evm)) ks) eqn:Hex.
  - exfalso. apply existsb_exists in Hex as [[p e] [Hin Heq]].
    unfold Cmd.key_eqb in Heq. simpl in Heq.
    apply andb_true_iff in Heq as [Hp _]. apply String.eqb_eq in Hp. subst p.
    assert (Hk : In (paw, e) (Cmd.keys_of paw ks)).
    { unfold Cmd.keys_of. apply filter_In. split; [exact Hin |].
      simpl. apply String.eqb_refl. }
    rewrite Hnone in Hk. exact Hk.
  - unfold Cmd.keys_of in *. rewrite List.filter_app, Hnone. simpl.
    rewrite String.eqb_refl. reflexivity.
Qed.

Lemma hasClaim_set_key (r : Redis) (pawAddress blockchainAddress : string) :
  RedisUsersDepositsStorage.hasClaim
    (with_claims (Cmd.set_key (JS.toLowerCase pawAddress,
                               JS.toLowerCase blockchainAddress)) r)
    pawAddress blockchainAddress = true.
Proof.
  unfold RedisUsersDepositsStorage.hasClaim, Cmd.keys_exact. simpl.
  apply (nonempty_filter_In _ _ (JS.toLowerCase pawAddress,
                                 JS.toLowerCase blockchainAddress)).
  - apply set_key_In.
  - unfold Cmd.key_eqb. simpl. rewrite !String.eqb_refl. reflexivity.
Qed.

Lemma set_key_incl (k k' : string * string) (ks : list (string * string)) :
  In k' ks -> In k' (Cmd.set_key k ks).
Proof.
  intros Hin. unfold Cmd.set_key. destruct (existsb _ ks); [exact Hin |].
  apply in_or_app. left. exact Hin.
Qed.

Lemma hasClaim_In (r : Redis) (pawAddress blockchainAddress : string) :
  RedisUsersDepositsStorage.hasClaim r pawAddress blockchainAddress = true
  <-> In (JS.toLowerCase pawAddress, JS.toLowerCase blockchainAddress) (claims r).
Proof.
  unfold RedisUsersDepositsStorage.hasClaim, Cmd.keys_exact. split.
  - intros Hhas.
    destruct (List.filter _ (claims r)) as [| [p e] l] eqn:Hf; [discriminate |].
    assert (Hin : In (p, e) (List.filter
                               (Cmd.key_eqb (JS.toLowerCase pawAddress,
                                             JS.toLowerCase blockchainAddress))
                               (claims r))) by (rewrite Hf; left; reflexivity).
    apply filter_In in Hin as [Hin Heq]. unfold Cmd.key_eqb in Heq. simpl in Heq.
    apply andb_true_iff in Heq as [Hp He].
    apply String.eqb_eq in Hp, He. subst. exact Hin.
  - intros Hin. apply (nonempty_filter_In _ _ _ Hin).
    unfold Cmd.key_eqb. simpl. rewrite !String.eqb_refl. reflexivity.
Qed.

Lemma promoted_claims_incl (r : Redis) (sender : string) (k : string * string) :
  In k (claims r) -> In k (claims (promoted r sender)).
Proof.
  intros Hin. unfold promoted, RedisUsersDepositsStorage.hasPendingClaim,
    RedisUsersDepositsStorage.confirmClaim.
  destruct (Cmd.keys_of (JS.toLowerCase sender)
              (Cmd.live (redis_time r) (claims_pending r))); simpl;
    [exact Hin |].
  apply set_key_incl. exact Hin.
Qed.

Section ClaimsAndDeposits.
Context {E : Ethers}.
Variable cfg : Config.
Variable env : Env.

Lemma eventuallySendToColdWallet_store (deposit : Z) (w : World) :
  redis (fst (Paw.eventuallySendToColdWallet cfg env deposit w)) = redis w
  /\ queue (fst (Paw.eventuallySendToColdWallet cfg env deposit w)) = queue w.
Proof.
  unfold Paw.eventuallySendToColdWallet.
  destruct (parseEther (PawUsersDepositsHotWalletMinimum cfg)); [| split; reflexivity].
  cbv zeta. destruct (_ <=? 0); [split; reflexivity |].
  destruct (_ =? 0); [split; reflexivity |].
  unfold bind.
  match goal with
  | |- context [Paw.sendPaw env ?to ?amount w] =>
      pose proof (sendPaw_run env to amount w) as [Hw _];
      destruct (Paw.sendPaw env to amount w) as [w' out]
  end.
  simpl in Hw. subst w'. destruct out; split; reflexivity.
Qed.

(** The store a deposit leaves: the pending claim confirmed, and the
    deposit stored when the sender is claimed and the amount passes the
    rounding test. *)
Lemma processUserDeposit_store (sender : string) (amount timestamp : Z) (hash : string)
    (w : World) :
  let run := Paw.processUserDeposit cfg env sender amount timestamp hash w in
  redis (fst run)
    = (if (negb (RedisUsersDepositsStorage.isClaimed (promoted (redis w) sender) sender)
           || number_differs_from_rounded amount)%bool
       then promoted (redis w) sender
       else UsersDepositsService.storeUserDeposit env (promoted (redis w) sender)
              sender amount timestamp hash)
  /\ queue (fst run) = queue w.
Proof.
  intros run. subst run. rewrite processUserDeposit_run.
  destruct (negb _ || _)%bool.
  - unfold bind.
    match goal with
    | |- context [Paw.sendPaw env sender amount ?w0] =>
        pose proof (sendPaw_run env sender amount w0) as [Hw _];
        destruct (Paw.sendPaw env sender amount w0) as [w' out]
    end.
    simpl in Hw. subst w'. destruct out; split; reflexivity.
  - unfold bind, update. cbn [redis queue node_calls].
    match goal with
    | |- context [Paw.eventuallySendToColdWallet cfg env amount ?w0] =>
        pose proof (eventuallySendToColdWallet_store amount w0) as [Hr Hq];
        destruct (Paw.eventuallySendToColdWallet cfg env amount w0) as [w' out]
    end.
    simpl in Hr, Hq. destruct out; simpl; rewrite Hr, Hq; split; reflexivity.
Qed.

Lemma storeUserDeposit_claims (r : Redis) (sender : string) (amount timestamp : Z)
    (hash : string) :
  claims (UsersDepositsService.storeUserDeposit env r sender amount timestamp hash)
    = claims r
  /\ claims_pending
       (UsersDepositsService.storeUserDeposit env r sender amount timestamp hash)
     = claims_pending r.
Proof.
  unfold UsersDepositsService.storeUserDeposit,
    RedisUsersDepositsStorage.storeUserDeposit.
  destruct (RedisUsersDepositsStorage.containsUserDepositTransaction r sender hash);
    [split; reflexivity |].
  destruct (redlock_lock env _); [| split; reflexivity].
  destruct (redis_exec env); split; reflexivity.
Qed.

Lemma processUserDeposit_claims (sender : string) (amount timestamp : Z) (hash : string)
    (w : World) :
  claims (redis (fst (Paw.processUserDeposit cfg env sender amount timestamp hash w)))
    = claims (promoted (redis w) sender).
Proof.
  destruct (processUserDeposit_store sender amount timestamp hash w) as [Hr _].
  rewrite Hr. destruct (negb _ || _)%bool; [reflexivity |].
  apply storeUserDeposit_claims.
Qed.

(** What an accepted claim leaves behind, read off [claim]. *)
Lemma claim_Ok_inv (pawWallet blockchainWallet signature : string) (w : World) :
  snd (Service.claim env pawWallet blockchainWallet signature w) = Return Ok ->
  KirbyPawWalletsBlacklist.isBlacklisted env pawWallet = None
  /\ Service.checkSignature blockchainWallet signature (Service.claim_message pawWallet)
     = Return true
  /\ RedisUsersDepositsStorage.hasClaim (redis w) pawWallet blockchainWallet = false
  /\ RedisUsersDepositsStorage.hasPendingClaim (redis w) pawWallet = false
  /\ redis_exec env = true
  /\ fst (Service.claim env pawWallet blockchainWallet signature w)
     = mkWorld
         (with_claims_pending
            (Cmd.set_expire (JS.toLowerCase pawWallet, JS.toLowerCase blockchainWallet)
               (redis_time (redis w)) (5 * 60))
            (redis w))
         (queue w) (node_calls w).
Proof.
  rewrite claim_unfold.
  destruct (Service.checkSignature _ _ _) as [[|] | e]; simpl; try discriminate.
  destruct (KirbyPawWalletsBlacklist.isBlacklisted env pawWallet); [discriminate |].
  destruct (RedisUsersDepositsStorage.hasClaim (redis w) pawWallet blockchainWallet);
    [discriminate |].
  destruct (RedisUsersDepositsStorage.hasPendingClaim (redis w) pawWallet);
    [discriminate |].
  destruct (redis_exec env); [| discriminate].
  intros _. repeat split.
Qed.

(** The pending claims of the address, [elapsed] milliseconds after its
    claim was accepted. *)
Lemma pending_after_accepted_claim
    (pawWallet blockchainWallet signature : string) (w : World) (elapsed : Z) :
  snd (Service.claim env pawWallet blockchainWallet signature w) = Return Ok ->
  0 <= elapsed ->
  let w1 := later elapsed (fst (Service.claim env pawWallet blockchainWallet
                                  signature w)) in
  Cmd.keys_of (JS.toLowerCase pawWallet)
    (Cmd.live (redis_time (redis w1)) (claims_pending (redis w1)))
  = (if elapsed <=? 5 * 60 * 1000
     then [(JS.toLowerCase pawWallet, JS.toLowerCase blockchainWallet)] else [])
  /\ claims (redis w1) = claims (redis w).
Proof.
  intros Hok Helapsed w1.
  destruct (claim_Ok_inv _ _ _ _ Hok) as [_ [_ [_ [Hpending [_ Hw1]]]]].
  subst w1. rewrite Hw1. unfold later.
  cbn [redis elapse redis_time claims_pending claims with_claims_pending].
  split; [| reflexivity].
  apply (hasPendingClaim_after_claim _ _ _ _ Hpending Helapsed).
Qed.

(** A deposit from an address with neither a pending nor a confirmed
    claim is received and sent back. *)
Lemma processUserDeposit_refund
    (sender : string) (amount timestamp : Z) (hash : string) (w : World) :
  RedisUsersDepositsStorage.hasPendingClaim (redis w) sender = false ->
  RedisUsersDepositsStorage.isClaimed (redis w) sender = false ->
  Paw.processUserDeposit cfg env sender amount timestamp hash w
    = (mkWorld (redis w) (queue w)
         (node_calls w ++ [Receive hash; Send sender amount])%list,
       match sendPawWithdrawalFromSeed env sender amount with
       | Some _ => Return false
       | None => Throw (Err "sendPawWithdrawalFromSeed")
       end).
Proof.
  intros Hpending Hclaimed. rewrite processUserDeposit_run.
  unfold promoted. rewrite Hpending, Hclaimed. cbn [negb orb].
  unfold bind.
  match goal with
  | |- context [Paw.sendPaw env sender amount ?w0] =>
      pose proof (sendPaw_run env sender amount w0) as [Hw Hout];
      destruct (Paw.sendPaw env sender amount w0) as [w' out]
  end.
  simpl in Hw, Hout. subst w' out. rewrite <- app_assoc.
  destruct (sendPawWithdrawalFromSeed env sender amount); reflexivity.
Qed.

(** X6.  A second claim of a PAW address, made [elapsed] milliseconds
    after the first was accepted and with nothing written in between,
    whoever signs it: a wallet that holds a confirmed claim is answered
    [AlreadyDone]; any other wallet is answered [InvalidOwner] for 300
    seconds, and nothing is stored; after that the pending claim has
    lapsed, and the claim of the other wallet is accepted and stored in
    its turn. *)
Theorem claim_refused_while_pending
    (pawWallet blockchainWallet signature other signature' : string) (w : World)
    (elapsed : Z) :
  snd (Service.claim env pawWallet blockchainWallet signature w) = Return Ok ->
  Service.checkSignature other signature' (Service.claim_message pawWallet)
    = Return true ->
  0 <= elapsed ->
  let w1 := later elapsed (fst (Service.claim env pawWallet blockchainWallet
                                  signature w)) in
  Service.claim env pawWallet other signature' w1
    = if RedisUsersDepositsStorage.hasClaim (redis w) pawWallet other
      then (w1, Return AlreadyDone)
      else if elapsed <=? 5 * 60 * 1000
      then (w1, Return InvalidOwner)
      else (mkWorld
              (with_claims_pending
                 (Cmd.set_expire (JS.toLowerCase pawWallet, JS.toLowerCase other)
                    (redis_time (redis w1)) (5 * 60))
                 (redis w1))
              (queue w1) (node_calls w1), Return Ok).
Proof.
  intros Hok Hsig' Helapsed w1.
  destruct (claim_Ok_inv _ _ _ _ Hok) as [Hblack [_ [_ [_ [Hexec _]]]]].
  destruct (pending_after_accepted_claim _ _ _ w elapsed Hok Helapsed)
    as [Hkeys Hclaims].
  fold w1 in Hkeys, Hclaims.
  rewrite claim_unfold, Hsig', Hblack. cbn [negb].
  unfold RedisUsersDepositsStorage.hasClaim, RedisUsersDepositsStorage.hasPendingClaim.
  rewrite Hclaims, Hkeys.
  destruct (nonempty (Cmd.keys_exact _ _ (claims (redis w)))); [reflexivity |].
  destruct (elapsed <=? 5 * 60 * 1000); cbn [nonempty]; [reflexivity |].
  rewrite Hexec. reflexivity.
Qed.

Lemma deposit_confirms_accepted_claim
    (pawWallet blockchainWallet signature : string) (w : World)
    (amount timestamp : Z) (hash : string) (elapsed : Z) :
  snd (Service.claim env pawWallet blockchainWallet signature w) = Return Ok ->
  0 <= elapsed <= 5 * 60 * 1000 ->
  In (JS.toLowerCase pawWallet, JS.toLowerCase blockchainWallet)
     (claims (redis (fst (Paw.processUserDeposit cfg env pawWallet amount timestamp hash
                            (later elapsed
                               (fst (Service.claim env pawWallet blockchainWallet
                                       signature w))))))).
Proof.
  intros Hok [Helapsed Hlive].
  destruct (pending_after_accepted_claim _ _ _ w elapsed Hok Helapsed) as [Hkeys _].
  rewrite processUserDeposit_claims.
  unfold promoted, RedisUsersDepositsStorage.hasPendingClaim,
    RedisUsersDepositsStorage.confirmClaim.
  cbv zeta in Hkeys. rewrite Hkeys.
  assert (Hnow : (elapsed <=? 5 * 60 * 1000) = true) by (apply Z.leb_le; exact Hlive).
  rewrite Hnow. cbn [nonempty fst claims with_claims]. apply set_key_In.
Qed.

(** X7.  A deposit from a PAW address that arrives within 300 seconds of
    the moment its claim was accepted confirms the claim, whatever the
    amount and whether the deposit is kept or sent back; claiming again
    then answers [AlreadyDone] and changes nothing.  A deposit that
    arrives later finds the pending claim lapsed: it confirms nothing,
    and if the address has no confirmed claim it is sent back. *)
Theorem claim_confirmed_by_deposit
    (pawWallet blockchainWallet signature : string) (w : World)
    (amount timestamp : Z) (hash : string) (elapsed : Z) :
  snd (Service.claim env pawWallet blockchainWallet signature w) = Return Ok ->
  0 <= elapsed ->
  let w1 := later elapsed (fst (Service.claim env pawWallet blockchainWallet
                                  signature w)) in
  let w2 := fst (Paw.processUserDeposit cfg env pawWallet amount timestamp hash w1) in
  (elapsed <= 5 * 60 * 1000 ->
     RedisUsersDepositsStorage.hasClaim (redis w2) pawWallet blockchainWallet = true
     /\ RedisUsersDepositsStorage.isClaimed (redis w2) pawWallet = true
     /\ Service.claim env pawWallet blockchainWallet signature w2
        = (w2, Return AlreadyDone))
  /\ (5 * 60 * 1000 < elapsed ->
        claims (redis w2) = claims (redis w)
        /\ RedisUsersDepositsStorage.hasClaim (redis w2) pawWallet blockchainWallet
           = false
        /\ (RedisUsersDepositsStorage.isClaimed (redis w) pawWallet = false ->
            Paw.processUserDeposit cfg env pawWallet amount timestamp hash w1
            = (mkWorld (redis w1) (queue w1)
                 (node_calls w1 ++ [Receive hash; Send pawWallet amount])%list,
               match sendPawWithdrawalFromSeed env pawWallet amount with
               | Some _ => Return false
               | None => Throw (Err "sendPawWithdrawalFromSeed")
               end))).
Proof.
  intros Hok Helapsed w1 w2. split.
  - intros Hlive.
    pose proof (deposit_confirms_accepted_claim _ _ _ w amount timestamp hash elapsed
                  Hok (conj Helapsed Hlive)) as Hin.
    fold w1 in Hin. fold w2 in Hin.
    assert (Hhas : RedisUsersDepositsStorage.hasClaim (redis w2) pawWallet
                     blockchainWallet = true) by (apply hasClaim_In; exact Hin).
    split; [exact Hhas |]. split.
    + unfold RedisUsersDepositsStorage.isClaimed, Cmd.keys_of.
      apply (nonempty_filter_In _ _ _ Hin). simpl. apply String.eqb_refl.
    + destruct (claim_Ok_inv _ _ _ _ Hok) as [Hblack [Hsig _]].
      rewrite claim_unfold, Hsig, Hblack, Hhas. reflexivity.
  - intros Hlapsed.
    destruct (claim_Ok_inv _ _ _ _ Hok) as [_ [_ [Hnot _]]].
    destruct (pending_after_accepted_claim _ _ _ w elapsed Hok Helapsed)
      as [Hkeys Hclaims].
    fold w1 in Hkeys, Hclaims.
    assert (Hnow : (elapsed <=? 5 * 60 * 1000) = false)
      by (apply Z.leb_gt; exact Hlapsed).
    rewrite Hnow in Hkeys.
    assert (Hpending : RedisUsersDepositsStorage.hasPendingClaim (redis w1) pawWallet
                       = false).
    { unfold RedisUsersDepositsStorage.hasPendingClaim. rewrite Hkeys. reflexivity. }
    assert (Hsame : claims (redis w2) = claims (redis w)).
    { subst w2. rewrite processUserDeposit_claims. unfold promoted.
      rewrite Hpending. exact Hclaims. }
    split; [exact Hsame |]. split.
    + unfold RedisUsersDepositsStorage.hasClaim. rewrite Hsame. exact Hnot.
    + intros Hunclaimed. apply processUserDeposit_refund; [exact Hpending |].
      unfold RedisUsersDepositsStorage.isClaimed. rewrite Hclaims. exact Hunclaimed.
Qed.

(** X8.  [claim] looks at the pending claims of the PAW address that have
    not lapsed and at the confirmed claim of the pair only.  When no
    pending claim is listed for an address a wallet has already claimed
    (none was made, or the last one has lapsed), the claim of another
    wallet is accepted, and a deposit from the address within 300
    seconds confirms it: both wallets then hold a confirmed claim. *)
Theorem claim_of_claimed_address_by_other_wallet
    (pawWallet owner other signature : string) (w : World)
    (amount timestamp : Z) (hash : string) (elapsed : Z) :
  RedisUsersDepositsStorage.hasClaim (redis w) pawWallet owner = true ->
  RedisUsersDepositsStorage.hasClaim (redis w) pawWallet other = false ->
  RedisUsersDepositsStorage.hasPendingClaim (redis w) pawWallet = false ->
  Service.checkSignature other signature (Service.claim_message pawWallet)
    = Return true ->
  KirbyPawWalletsBlacklist.isBlacklisted env pawWallet = None ->
  redis_exec env = true ->
  0 <= elapsed <= 5 * 60 * 1000 ->
  let w1 := later elapsed (fst (Service.claim env pawWallet other signature w)) in
  let w2 := fst (Paw.processUserDeposit cfg env pawWallet amount timestamp hash w1) in
  snd (Service.claim env pawWallet other signature w) = Return Ok
  /\ RedisUsersDepositsStorage.hasClaim (redis w2) pawWallet owner = true
  /\ RedisUsersDepositsStorage.hasClaim (redis w2) pawWallet other = true.
Proof.
  intros Howner Hother Hpending Hsig Hblack Hexec Helapsed w1 w2.
  assert (Hok : snd (Service.claim env pawWallet other signature w) = Return Ok).
  { rewrite claim_unfold, Hsig, Hblack, Hother, Hpending, Hexec. reflexivity. }
  split; [exact Hok |]. split.
  - apply hasClaim_In. subst w2. rewrite processUserDeposit_claims.
    apply promoted_claims_incl.
    destruct (pending_after_accepted_claim _ _ _ w elapsed Hok (proj1 Helapsed))
      as [_ Hclaims].
    fold w1 in Hclaims. rewrite Hclaims.
    apply hasClaim_In. exact Howner.
  - apply hasClaim_In.
    exact (deposit_confirms_accepted_claim _ _ _ w amount timestamp hash elapsed
             Hok Helapsed).
Qed.

(** X9.  A deposit from a PAW address with neither a pending nor a confirmed
    claim is received and sent back in full: nothing is stored or
    enqueued, and the job answers [false], or throws what the node threw
    on the refund. *)
Theorem processUserDeposit_unclaimed_is_refunded
    (sender : string) (amount timestamp : Z) (hash : string) (w : World) :
  RedisUsersDepositsStorage.hasPendingClaim (redis w) sender = false ->
  RedisUsersDepositsStorage.isClaimed (redis w) sender = false ->
  Paw.processUserDeposit cfg env sender amount timestamp hash w
    = (mkWorld (redis w) (queue w)
         (node_calls w ++ [Receive hash; Send sender amount])%list,
       match sendPawWithdrawalFromSeed env sender amount with
       | Some _ => Return false
       | None => Throw (Err "sendPawWithdrawalFromSeed")
       end).
Proof.
  intros Hpending Hclaimed.
  apply processUserDeposit_refund; assumption.
Qed.

(** X10.  A deposit that was credited is credited once: processing a job with
    the same sender and hash again, whatever amount and time it carries,
    leaves every balance and the deposit sets as they are. *)
Theorem processUserDeposit_replay_credits_once
    (sender : string) (amount timestamp amount' timestamp' : Z) (hash : string)
    (w : World) :
  RedisUsersDepositsStorage.isClaimed (promoted (redis w) sender) sender = true ->
  number_differs_from_rounded amount = false ->
  RedisUsersDepositsStorage.containsUserDepositTransaction (redis w) sender hash
    = false ->
  redlock_lock env ("locks:paw-balance:" +:+ JS.toLowerCase sender) = true ->
  redis_exec env = true ->
  let w1 := fst (Paw.processUserDeposit cfg env sender amount timestamp hash w) in
  let w2 := fst (Paw.processUserDeposit cfg env sender amount' timestamp' hash w1) in
  paw_balance (redis w1) !! JS.toLowerCase sender
    = Some (RedisUsersDepositsStorage.stored_balance (redis w) (JS.toLowerCase sender)
            + amount)
  /\ paw_balance (redis w2) = paw_balance (redis w1)
  /\ deposits (redis w2) = deposits (redis w1).
Proof.
  intros Hclaimed Hsame Hnew Hlock Hexec w1 w2.
  destruct (processUserDeposit_store sender amount timestamp hash w) as [Hr1 _].
  fold w1 in Hr1. cbv zeta in Hr1. rewrite Hclaimed, Hsame in Hr1. cbn [negb orb] in Hr1.
  destruct (processUserDeposit_store sender amount' timestamp' hash w1) as [Hr2 _].
  fold w2 in Hr2. cbv zeta in Hr2.
  assert (Hbal : forall r, paw_balance (promoted r sender) = paw_balance r
                           /\ deposits (promoted r sender) = deposits r).
  { intros r. unfold promoted, RedisUsersDepositsStorage.confirmClaim.
    destruct (RedisUsersDepositsStorage.hasPendingClaim r sender);
      [| split; reflexivity].
    destruct (Cmd.keys_of _ _); split; reflexivity. }
  assert (Hnew' : RedisUsersDepositsStorage.containsUserDepositTransaction
                    (promoted (redis w) sender) sender hash = false).
  { unfold RedisUsersDepositsStorage.containsUserDepositTransaction in *.
    rewrite (proj2 (Hbal (redis w))). exact Hnew. }
  assert (Hrec : RedisUsersDepositsStorage.containsUserDepositTransaction
                   (promoted (redis w1) sender) sender hash = true).
  { unfold RedisUsersDepositsStorage.containsUserDepositTransaction.
    rewrite (proj2 (Hbal (redis w1))), Hr1.
    apply (storeUserDeposit_recorded env _ sender amount timestamp hash Hlock Hexec). }
  split; [| split].
  - rewrite Hr1. unfold UsersDepositsService.storeUserDeposit,
      RedisUsersDepositsStorage.storeUserDeposit.
    rewrite Hnew', Hlock, Hexec. cbn [paw_balance with_audit with_deposits
                                       with_paw_balance].
    rewrite lookup_insert_eq. unfold RedisUsersDepositsStorage.stored_balance.
    rewrite (proj1 (Hbal (redis w))). reflexivity.
  - rewrite Hr2. destruct (negb _ || _)%bool; [apply Hbal |].
    unfold UsersDepositsService.storeUserDeposit. rewrite Hrec. apply Hbal.
  - rewrite Hr2. destruct (negb _ || _)%bool; [apply Hbal |].
    unfold UsersDepositsService.storeUserDeposit. rewrite Hrec. apply Hbal.
Qed.

End ClaimsAndDeposits.

(** ** The hot wallet keeps its minimum *)

Section ColdWalletBounds.
Context {E : Ethers}.
Variable cfg : Config.
Variable env : Env.

(** X12.  With a ratio between 0 and 100, and as long as the part of the
    deposit above the minimum is within the whole coins a JS number
    holds exactly (below 2^53 coins): the transfer to the cold wallet
    touches neither the store nor the queue, makes at most one call to
    the node, and what it sends is positive, no more than the deposit,
    and leaves the hot wallet with its configured minimum at least. *)
Theorem eventuallySendToColdWallet_keeps_minimum (minimum deposit : Z) (w : World) :
  parseEther (PawUsersDepositsHotWalletMinimum cfg) = Some minimum ->
  0 <= PawUsersDepositsHotWalletToColdWalletRatio cfg <= 100 ->
  0 <= deposit ->
  let hotWalletBalance := getAccountTotalBalance env (PawUsersDepositsHotWallet cfg) in
  Z.min (hotWalletBalance - minimum) deposit < 2 ^ 53 * ether ->
  let w' := fst (Paw.eventuallySendToColdWallet cfg env deposit w) in
  redis w' = redis w
  /\ queue w' = queue w
  /\ (node_calls w' = node_calls w
      \/ exists amount : Z,
           node_calls w'
             = (node_calls w ++ [Send (PawUsersDepositsColdWallet cfg) amount])%list
           /\ 0 < amount <= deposit
           /\ minimum <= hotWalletBalance - amount).
Proof.
  intros Hmin Hratio Hdeposit hotWalletBalance Hsafe w'. subst w'.
  rewrite (eventuallySendToColdWallet_run cfg env minimum deposit w Hmin).
  cbv zeta. fold hotWalletBalance.
  destruct (Z.leb_spec (hotWalletBalance - minimum) 0) as [Hlow | Habove];
    [repeat split; left; reflexivity |].
  rewrite cold_wallet_share_formula by lia.
  set (x := Z.min (hotWalletBalance - minimum) deposit).
  set (ratio := PawUsersDepositsHotWalletToColdWalletRatio cfg) in *.
  destruct (Z.eqb_spec (x / ether * 10 ^ 16 * (100 - ratio)) 0) as [Hzero | Hsend];
    [repeat split; left; reflexivity |].
  unfold bind.
  pose proof (sendPaw_run env (PawUsersDepositsColdWallet cfg)
                (x / ether * 10 ^ 16 * (100 - ratio)) w) as [Hw _].
  destruct (Paw.sendPaw env (PawUsersDepositsColdWallet cfg) _ w) as [w1 out].
  cbn [fst] in Hw. subst w1.
  assert (Hq : 0 <= x / ether) by (apply Z.div_pos; unfold ether; lia).
  assert (Hfloor : x / ether * ether <= x)
    by (rewrite Z.mul_comm; apply Z.mul_div_le; unfold ether; lia).
  assert (Hshare : x / ether * 10 ^ 16 * (100 - ratio) <= x / ether * ether).
  { replace (x / ether * ether) with (x / ether * 10 ^ 16 * 100)
      by (unfold ether; lia).
    apply Z.mul_le_mono_nonneg_l; lia. }
  assert (Hpos : 0 <= x / ether * 10 ^ 16 * (100 - ratio))
    by (apply Z.mul_nonneg_nonneg; lia).
  assert (Hres : fst (match out with
                      | Return _ =>
                          ret tt (mkWorld (redis w) (queue w)
                                    (node_calls w
                                     ++ [Send (PawUsersDepositsColdWallet cfg)
                                           (x / ether * 10 ^ 16 * (100 - ratio))])%list)
                      | Throw e =>
                          (mkWorld (redis w) (queue w)
                             (node_calls w
                              ++ [Send (PawUsersDepositsColdWallet cfg)
                                    (x / ether * 10 ^ 16 * (100 - ratio))])%list,
                           Throw e)
                      end)
                 = mkWorld (redis w) (queue w)
                     (node_calls w
                      ++ [Send (PawUsersDepositsColdWallet cfg)
                            (x / ether * 10 ^ 16 * (100 - ratio))])%list)
    by (destruct out; reflexivity).
  rewrite Hres. cbn [redis queue node_calls].
  split; [reflexivity |]. split; [reflexivity |]. right.
  exists (x / ether * 10 ^ 16 * (100 - ratio)).
  split; [reflexivity |]. subst x. lia.
Qed.

End ColdWalletBounds.

(** ** Withdrawals *)



Section Withdrawals.
Context {E : Ethers}.
Variable cfg : Config.
Variable env : Env.

(** [processWithdrawPAW], branch by branch. *)
Lemma processWithdrawPAW_unfold (withdrawal : PawUserWithdrawal.t)
    (signature : option string) (w : World) :
  let pawWallet := PawUserWithdrawal.pawWallet withdrawal in
  let timestamp := PawUserWithdrawal.timestamp withdrawal in
  let sent amount :=
    mkWorld (redis w) (queue w) (node_calls w ++ [Send pawWallet amount])%list in
  Service.processWithdrawPAW cfg env withdrawal signature w =
    if RedisUsersDepositsStorage.containsUserWithdrawalRequest (redis w) pawWallet
         timestamp
    then (w, Throw (Err "Can't withdraw PAW as the transaction was already processed"))
    else
    match (if JS.truthy_opt signature
           then Service.checkSignature
                  (PawUserWithdrawal.blockchainWallet withdrawal)
                  (default "" signature)
                  (Service.withdraw_message (PawUserWithdrawal.amount withdrawal)
                     pawWallet)
           else Return true) with
    | Throw e => (w, Throw e)
    | Return valid =>
    if negb valid
    then (w, Throw InvalidSignatureError)
    else
      match parseEther (PawUserWithdrawal.amount withdrawal) with
      | None => (w, Throw (Err "invalid decimal value"))
      | Some amount =>
          if amount <? 0 then (w, Throw (Err "Can't withdraw negative amounts of PAW"))
          else
            match UsersDepositsService.getUserAvailableBalance env (redis w)
                    pawWallet with
            | Throw e => (w, Throw e)
            | Return availableBalance =>
                if negb (availableBalance >=? amount)
                then (w, Throw InsufficientBalanceError)
                else if getAccountBalance env (PawUsersDepositsHotWallet cfg) <? amount
                then (fst (RedisProcessingQueue.add (pending_withdrawal_job withdrawal) w),
                      Return ("", next_attempt withdrawal))
                else
                  match sendPawWithdrawalFromSeed env pawWallet amount with
                  | None => (sent amount, Throw (Err "sendPawWithdrawalFromSeed"))
                  | Some hash =>
                      if JS.truthy_string hash
                      then (mkWorld
                              (UsersDepositsService.storeUserWithdrawal env (redis w)
                                 pawWallet amount timestamp hash)
                              (queue w) (node_calls w ++ [Send pawWallet amount])%list,
                            Return (hash, withdrawal))
                      else (sent amount, Return ("", withdrawal))
                  end
            end
      end
    end.
Proof.
  cbv zeta. destruct w as [r q calls]. unfold Service.processWithdrawPAW.
  unfold bind at 1. unfold query at 1.
  unfold UsersDepositsService.containsUserWithdrawalRequest. cbn [JS.await redis].
  destruct (RedisUsersDepositsStorage.containsUserWithdrawalRequest r _ _);
    [reflexivity |].
  unfold bind at 1. rewrite signature_check_run.
  destruct (if JS.truthy_opt signature then _ else _) as [[|] | esig]; cbn [negb];
    [| reflexivity | reflexivity].
  unfold bind at 1. unfold query at 1. cbn [JS.truthy_promise negb].
  unfold bind at 1. unfold query at 1. cbn [JS.truthy_promise negb].
  destruct (parseEther (PawUserWithdrawal.amount withdrawal)) as [amount |] eqn:Hparse;
    [| reflexivity].
  destruct (amount <? 0); [reflexivity |].
  unfold bind at 1. unfold attempt at 1. cbn [redis].
  destruct (UsersDepositsService.getUserAvailableBalance env r
              (PawUserWithdrawal.pawWallet withdrawal)) as [balance | e];
    [| reflexivity].
  destruct (negb (balance >=? amount)); [reflexivity |].
  unfold Service.eventuallySendPaw. rewrite Hparse. unfold Paw.getBalance.
  destruct (getAccountBalance env (PawUsersDepositsHotWallet cfg) <? amount).
  - unfold bind, ret. rewrite addPawUserPendingWithdrawal_run. reflexivity.
  - unfold Paw.sendPaw, bind, call_node, ret, throw, update.
    cbn [redis queue node_calls].
    destruct (sendPawWithdrawalFromSeed env (PawUserWithdrawal.pawWallet withdrawal)
                amount) as [hash |]; [| reflexivity].
    cbn [orb negb JS.truthy_opt default from_option redis queue node_calls].
    destruct (JS.truthy_string hash); reflexivity.
Qed.

(** X13.  No exception of [processWithdrawPAW] leaves a trace in the store or
    in the queue: whenever it throws, for whatever reason, no balance was
    debited, no withdrawal recorded and no job scheduled. *)
Theorem processWithdrawPAW_throw_keeps_store (withdrawal : PawUserWithdrawal.t)
    (signature : option string) (w : World) (err : Exn) :
  snd (Service.processWithdrawPAW cfg env withdrawal signature w) = Throw err ->
  redis (fst (Service.processWithdrawPAW cfg env withdrawal signature w)) = redis w
  /\ queue (fst (Service.processWithdrawPAW cfg env withdrawal signature w)) = queue w.
Proof.
  rewrite processWithdrawPAW_unfold. cbv zeta.
  destruct (RedisUsersDepositsStorage.containsUserWithdrawalRequest _ _ _);
    [intros _; split; reflexivity |].
  destruct (if JS.truthy_opt signature then _ else _) as [[|] | esig]; cbn [negb];
    [| intros _; split; reflexivity | intros _; split; reflexivity].
  destruct (parseEther _) as [amount |]; [| intros _; split; reflexivity].
  destruct (amount <? 0); [intros _; split; reflexivity |].
  destruct (UsersDepositsService.getUserAvailableBalance env _ _) as [balance | e];
    [| intros _; split; reflexivity].
  destruct (negb _); [intros _; split; reflexivity |].
  destruct (_ <? amount); [discriminate |].
  destruct (sendPawWithdrawalFromSeed env _ amount) as [hash |];
    [| intros _; split; reflexivity].
  destruct (JS.truthy_string hash); discriminate.
Qed.

(** X14.  The store changes only when the node accepted the send: if
    [processWithdrawPAW] leaves a store other than the one it found, the
    node was asked to send the parsed amount to the PAW address of the
    withdrawal, it answered with the hash that is returned, and the user
    held at least that amount. *)
Theorem processWithdrawPAW_debits_only_what_was_sent (withdrawal : PawUserWithdrawal.t)
    (signature : option string) (w : World) :
  redis (fst (Service.processWithdrawPAW cfg env withdrawal signature w)) <> redis w ->
  exists (amount balance : Z) (hash : string),
    parseEther (PawUserWithdrawal.amount withdrawal) = Some amount
    /\ 0 <= amount <= balance
    /\ UsersDepositsService.getUserAvailableBalance env (redis w)
         (PawUserWithdrawal.pawWallet withdrawal) = Return balance
    /\ sendPawWithdrawalFromSeed env (PawUserWithdrawal.pawWallet withdrawal) amount
       = Some hash
    /\ Service.processWithdrawPAW cfg env withdrawal signature w
       = (mkWorld
            (UsersDepositsService.storeUserWithdrawal env (redis w)
               (PawUserWithdrawal.pawWallet withdrawal) amount
               (PawUserWithdrawal.timestamp withdrawal) hash)
            (queue w)
            (node_calls w
             ++ [Send (PawUserWithdrawal.pawWallet withdrawal) amount])%list,
          Return (hash, withdrawal)).
Proof.
  rewrite processWithdrawPAW_unfold. cbv zeta.
  destruct (RedisUsersDepositsStorage.containsUserWithdrawalRequest _ _ _);
    [intros Hne; exfalso; apply Hne; reflexivity |].
  destruct (if JS.truthy_opt signature then _ else _) as [[|] | esig]; cbn [negb];
    [| intros Hne; exfalso; apply Hne; reflexivity
     | intros Hne; exfalso; apply Hne; reflexivity].
  destruct (parseEther _) as [amount |];
    [| intros Hne; exfalso; apply Hne; reflexivity].
  destruct (Z.ltb_spec amount 0); [intros Hne; exfalso; apply Hne; reflexivity |].
  destruct (UsersDepositsService.getUserAvailableBalance env _ _) as [balance | e];
    [| intros Hne; exfalso; apply Hne; reflexivity].
  destruct (Z.geb_spec balance amount); cbn [negb];
    [| intros Hne; exfalso; apply Hne; reflexivity].
  destruct (_ <? amount); [intros Hne; exfalso; apply Hne; reflexivity |].
  destruct (sendPawWithdrawalFromSeed env _ amount) as [hash |] eqn:Hsend;
    [| intros Hne; exfalso; apply Hne; reflexivity].
  destruct (JS.truthy_string hash);
    [| intros Hne; exfalso; apply Hne; reflexivity].
  intros _. exists amount, balance, hash.
  repeat split; try reflexivity; try lia. exact Hsend.
Qed.

(** The run of a withdrawal that passes every check and that the hot
    wallet can pay. *)
Lemma processWithdrawPAW_paid (withdrawal : PawUserWithdrawal.t)
    (signature : option string) (w : World) (amount balance : Z) (hash : string) :
  let pawWallet := PawUserWithdrawal.pawWallet withdrawal in
  let timestamp := PawUserWithdrawal.timestamp withdrawal in
  RedisUsersDepositsStorage.containsUserWithdrawalRequest (redis w) pawWallet timestamp
    = false ->
  (JS.truthy_opt signature = true ->
   Service.checkSignature (PawUserWithdrawal.blockchainWallet withdrawal)
     (default "" signature)
     (Service.withdraw_message (PawUserWithdrawal.amount withdrawal) pawWallet) = Return true) ->
  parseEther (PawUserWithdrawal.amount withdrawal) = Some amount ->
  0 <= amount ->
  UsersDepositsService.getUserAvailableBalance env (redis w) pawWallet = Return balance ->
  amount <= balance ->
  amount <= getAccountBalance env (PawUsersDepositsHotWallet cfg) ->
  sendPawWithdrawalFromSeed env pawWallet amount = Some hash ->
  JS.truthy_string hash = true ->
  redlock_lock env ("locks:paw-balance:" +:+ JS.toLowerCase pawWallet) = true ->
  redis_exec env = true ->
  Service.processWithdrawPAW cfg env withdrawal signature w
    = (mkWorld
         (with_audit (Cmd.hset hash
             [("type", AStr "withdrawal"); ("hash", AStr hash);
              ("amount", ANum amount); ("timestamp", ANum timestamp)])
            (with_withdrawals (Cmd.zadd (JS.toLowerCase pawWallet) timestamp hash)
               (with_paw_balance
                  (insert (JS.toLowerCase pawWallet) (balance - amount)) (redis w))))
         (queue w) (node_calls w ++ [Send pawWallet amount])%list,
       Return (hash, withdrawal)).
Proof.
  intros pawWallet timestamp Hnew Hsig Hparse Hnonneg Hbalance Henough Hhot Hsend
    Hhash Hlock Hexec.
  assert (Hstored : RedisUsersDepositsStorage.stored_balance (redis w)
                      (JS.toLowerCase pawWallet) = balance).
  { unfold UsersDepositsService.getUserAvailableBalance,
      RedisUsersDepositsStorage.getUserAvailableBalance in Hbalance.
    unfold RedisUsersDepositsStorage.stored_balance.
    destruct (redlock_lock env _); [| discriminate].
    destruct (paw_balance (redis w) !! JS.toLowerCase pawWallet);
      inversion Hbalance; reflexivity. }
  rewrite processWithdrawPAW_unfold. cbv zeta.
  fold pawWallet. fold timestamp. rewrite Hnew.
  assert (Hsig' : (if JS.truthy_opt signature
                   then Service.checkSignature
                          (PawUserWithdrawal.blockchainWallet withdrawal)
                          (default "" signature)
                          (Service.withdraw_message
                             (PawUserWithdrawal.amount withdrawal) pawWallet)
                   else Return true)
                  = Return true).
  { destruct (JS.truthy_opt signature); [exact (Hsig eq_refl) | reflexivity]. }
  rewrite Hsig', Hparse. cbn [negb].
  destruct (Z.ltb_spec amount 0); [lia |].
  rewrite Hbalance.
  destruct (Z.geb_spec balance amount); [| lia]. cbn [negb].
  destruct (Z.ltb_spec (getAccountBalance env (PawUsersDepositsHotWallet cfg)) amount);
    [lia |].
  rewrite Hsend, Hhash.
  unfold UsersDepositsService.storeUserWithdrawal,
    RedisUsersDepositsStorage.storeUserWithdrawal.
  rewrite Hnew, Hlock, Hexec, Hstored. reflexivity.
Qed.


(** X25.  The worker of a withdrawal that was paid reports it: the PAW
    address, the amount as it was asked, the hash of the send, and a
    balance.  For an address written in lower case that is the balance
    that is left, the balance before less the amount.  For any other
    address it is the balance as it was before the debit: the read does
    not wait for the debit, which is committed all the same. *)
Theorem withdrawalProcessor_reports_balance (withdrawal : PawUserWithdrawal.t)
    (signature : option string) (w : World) (amount balance : Z) (hash : string) :
  let pawWallet := PawUserWithdrawal.pawWallet withdrawal in
  let timestamp := PawUserWithdrawal.timestamp withdrawal in
  RedisUsersDepositsStorage.containsUserWithdrawalRequest (redis w) pawWallet timestamp
    = false ->
  (JS.truthy_opt signature = true ->
   Service.checkSignature (PawUserWithdrawal.blockchainWallet withdrawal)
     (default "" signature)
     (Service.withdraw_message (PawUserWithdrawal.amount withdrawal) pawWallet)
   = Return true) ->
  parseEther (PawUserWithdrawal.amount withdrawal) = Some amount ->
  0 <= amount ->
  UsersDepositsService.getUserAvailableBalance env (redis w) pawWallet = Return balance ->
  amount <= balance ->
  amount <= getAccountBalance env (PawUsersDepositsHotWallet cfg) ->
  sendPawWithdrawalFromSeed env pawWallet amount = Some hash ->
  JS.truthy_string hash = true ->
  redlock_lock env ("locks:paw-balance:" +:+ JS.toLowerCase pawWallet) = true ->
  redis_exec env = true ->
  let run := Service.withdrawalProcessor cfg env signature withdrawal w in
  snd run
    = Return (mkWithdrawalResult pawWallet (PawUserWithdrawal.amount withdrawal)
                (formatEther
                   (if String.eqb pawWallet (JS.toLowerCase pawWallet)
                    then balance - amount else balance))
                hash)
  /\ paw_balance (redis (fst run)) !! JS.toLowerCase pawWallet
     = Some (balance - amount).
Proof.
  intros pawWallet timestamp Hnew Hsig Hparse Hnonneg Hbalance Henough Hhot Hsend
    Hhash Hlock Hexec run. subst run.
  rewrite withdrawalProcessor_run.
  rewrite (processWithdrawPAW_paid withdrawal signature w amount balance hash
             Hnew Hsig Hparse Hnonneg Hbalance Henough Hhot Hsend Hhash Hlock Hexec).
  rewrite Hhash. cbv zeta. cbn [redis]. fold pawWallet. fold timestamp.
  destruct (String.eqb pawWallet (JS.toLowerCase pawWallet)).
  - unfold UsersDepositsService.getUserAvailableBalance,
      RedisUsersDepositsStorage.getUserAvailableBalance in Hbalance |- *.
    destruct (redlock_lock env ("locks:paw-balance:" +:+ pawWallet)); [| discriminate].
    cbn [paw_balance with_audit with_withdrawals with_paw_balance].
    rewrite lookup_insert_eq. cbn [fst snd redis paw_balance].
    split; [reflexivity | apply lookup_insert_eq].
  - rewrite Hbalance. cbn [fst snd redis paw_balance with_audit with_withdrawals
                           with_paw_balance].
    split; [reflexivity | apply lookup_insert_eq].
Qed.


End Withdrawals.

(** ** The queue *)

Section Queue.
Context {E : Ethers}.
Variable cfg : Config.
Variable env : Env.

Local Abbreviation pending_sum jobs :=
  (option_map (fun pending => fold_left Z.add pending 0)
     (PendingWithdrawals.amounts
        (List.filter PendingWithdrawals.is_pending_withdrawal jobs))).

Lemma fold_left_add (l : list Z) :
  forall acc : Z, fold_left Z.add l acc = acc + fold_left Z.add l 0.
Proof.
  induction l as [| x l IH]; intros acc; simpl; [lia |].
  rewrite (IH (acc + x)), (IH (0 + x)). lia.
Qed.

Lemma pending_sum_app (jobs1 jobs2 : list Job) :
  pending_sum (jobs1 ++ jobs2)%list
    = match pending_sum jobs1, pending_sum jobs2 with
      | Some total1, Some total2 => Some (total1 + total2)
      | _, _ => None
      end.
Proof.
  induction jobs1 as [| job jobs1 IH]; simpl.
  - destruct (PendingWithdrawals.amounts _); reflexivity.
  - destruct (PendingWithdrawals.is_pending_withdrawal job); [| exact IH].
    simpl. destruct (parseEther _) as [amount |]; [| reflexivity].
    destruct (PendingWithdrawals.amounts
                (List.filter PendingWithdrawals.is_pending_withdrawal
                   (jobs1 ++ jobs2))) as [rest |];
      destruct (PendingWithdrawals.amounts
                  (List.filter PendingWithdrawals.is_pending_withdrawal jobs1))
        as [rest1 |];
      destruct (PendingWithdrawals.amounts
                  (List.filter PendingWithdrawals.is_pending_withdrawal jobs2))
        as [rest2 |]; simpl in IH |- *; try discriminate; try reflexivity.
    inversion IH as [Hsum]. f_equal.
    rewrite (fold_left_add rest (0 + amount)), (fold_left_add rest1 (0 + amount)).
    lia.
Qed.

Lemma getPendingWithdrawalsAmount_run (w : World) :
  PendingWithdrawals.getPendingWithdrawalsAmount w
    = (w, match pending_sum (PendingWithdrawals.getWaiting w),
                pending_sum (PendingWithdrawals.getDelayed w) with
          | Some waiting, Some delayed => Return (waiting + delayed)
          | _, _ => Throw (Err "invalid decimal value")
          end).
Proof.
  unfold PendingWithdrawals.getPendingWithdrawalsAmount.
  pose proof (pending_sum_app (PendingWithdrawals.getWaiting w)
                (PendingWithdrawals.getDelayed w)) as Happ.
  destruct (PendingWithdrawals.amounts
              (List.filter PendingWithdrawals.is_pending_withdrawal
                 (PendingWithdrawals.getWaiting w ++ PendingWithdrawals.getDelayed w)))
    as [pending |]; simpl in Happ.
  - destruct (pending_sum (PendingWithdrawals.getWaiting w)) as [waiting |];
      [| discriminate].
    destruct (pending_sum (PendingWithdrawals.getDelayed w)) as [delayed |];
      [| discriminate].
    inversion Happ. reflexivity.
  - destruct (pending_sum (PendingWithdrawals.getWaiting w)) as [waiting |];
      [| reflexivity].
    destruct (pending_sum (PendingWithdrawals.getDelayed w)) as [delayed |];
      [discriminate | reflexivity].
Qed.

(** The sum after one more job entered the queue. *)
Lemma getPendingWithdrawalsAmount_add (job : Job) (w : World) (total : Z) :
  (forall j : Job, In j (queue w) -> jobId j <> jobId job) ->
  snd (PendingWithdrawals.getPendingWithdrawalsAmount w) = Return total ->
  snd (PendingWithdrawals.getPendingWithdrawalsAmount
         (fst (RedisProcessingQueue.add job w)))
    = if PendingWithdrawals.is_pending_withdrawal job
      then match parseEther (PendingWithdrawals.data_amount (jobData job)) with
           | Some amount => Return (total + amount)
           | None => Throw (Err "invalid decimal value")
           end
      else Return total.
Proof.
  intros Hfresh. rewrite !getPendingWithdrawalsAmount_run. cbn [snd].
  unfold PendingWithdrawals.getWaiting, PendingWithdrawals.getDelayed.
  rewrite (add_fresh job w Hfresh).
  rewrite (List.filter_app (fun job0 => jobDelay job0 <=? 0)),
    (List.filter_app (fun job0 => negb (jobDelay job0 <=? 0))), !pending_sum_app.
  destruct (pending_sum (List.filter (fun job0 => jobDelay job0 <=? 0) (queue w)))
    as [waiting |]; [| discriminate].
  destruct (pending_sum (List.filter (fun job0 => negb (jobDelay job0 <=? 0)) (queue w)))
    as [delayed |]; [| discriminate].
  intros Htotal. inversion Htotal as [Hsum]. clear Htotal.
  simpl List.filter.
  destruct (jobDelay job <=? 0); cbn [negb List.filter];
    destruct (PendingWithdrawals.is_pending_withdrawal job); simpl;
    try (f_equal; lia);
    destruct (parseEther _); simpl; try reflexivity; f_equal; lia.
Qed.

(** X17.  A withdrawal that waits for the hot wallet counts in the pending
    amount, by exactly its amount, once its replacement job (not yet in
    the queue) is scheduled. *)
Theorem getPendingWithdrawalsAmount_counts_replacement
    (withdrawal : PawUserWithdrawal.t) (w : World) (total amount : Z) :
  snd (PendingWithdrawals.getPendingWithdrawalsAmount w) = Return total ->
  parseEther (PawUserWithdrawal.amount withdrawal) = Some amount ->
  existsb (fun j => String.eqb (jobId j) (jobId (pending_withdrawal_job withdrawal)))
    (queue w) = false ->
  snd (PendingWithdrawals.getPendingWithdrawalsAmount
         (fst (RedisProcessingQueue.addPawUserPendingWithdrawal withdrawal w)))
    = Return (total + amount).
Proof.
  intros Htotal Hparse Hex.
  assert (Hfresh : forall j : Job, In j (queue w) ->
                     jobId j <> jobId (pending_withdrawal_job withdrawal)).
  { intros j Hin Heq.
    assert (Hex' : existsb (fun j => String.eqb (jobId j)
                                       (jobId (pending_withdrawal_job withdrawal)))
                     (queue w) = true).
    { apply existsb_exists. exists j. split; [exact Hin |].
      apply String.eqb_eq. exact Heq. }
    rewrite Hex in Hex'. discriminate. }
  rewrite addPawUserPendingWithdrawal_run. cbn [fst].
  rewrite (getPendingWithdrawalsAmount_add _ w total Hfresh Htotal).
  cbn [PendingWithdrawals.is_pending_withdrawal pending_withdrawal_job jobId jobData
       PendingWithdrawals.data_amount next_attempt PawUserWithdrawal.amount].
  rewrite Hparse. reflexivity.
Qed.

(** X18.  Deposits, withdrawal requests and swaps that enter the queue leave
    the pending amount as it is: only the replacements scheduled for a
    withdrawal the hot wallet could not pay count. *)
Theorem getPendingWithdrawalsAmount_ignores_other_jobs (w : World) (total : Z) :
  snd (PendingWithdrawals.getPendingWithdrawalsAmount w) = Return total ->
  (forall deposit : PawUserDeposit.t,
      snd (PendingWithdrawals.getPendingWithdrawalsAmount
             (fst (RedisProcessingQueue.addPawUserDeposit deposit w))) = Return total)
  /\ (forall withdrawal : PawUserWithdrawal.t,
        snd (PendingWithdrawals.getPendingWithdrawalsAmount
               (fst (RedisProcessingQueue.addPawUserWithdrawal withdrawal w)))
          = Return total)
  /\ (forall swap : SwapWPAWToPaw.t,
        snd (PendingWithdrawals.getPendingWithdrawalsAmount
               (fst (RedisProcessingQueue.addSwapToPaw swap w))) = Return total).
Proof.
  intros Htotal.
  assert (Hother : forall job : Job,
            PendingWithdrawals.is_pending_withdrawal job = false ->
            snd (PendingWithdrawals.getPendingWithdrawalsAmount
                   (fst (RedisProcessingQueue.add job w))) = Return total).
  { intros job Hkind.
    destruct (existsb (fun j => String.eqb (jobId j) (jobId job)) (queue w)) eqn:Hex.
    - unfold RedisProcessingQueue.add. cbn [fst]. rewrite Hex.
      destruct w as [r q calls]. exact Htotal.
    - rewrite (getPendingWithdrawalsAmount_add job w total); [| | exact Htotal].
      + rewrite Hkind. reflexivity.
      + intros j Hin Heq.
        assert (Hex' : existsb (fun j => String.eqb (jobId j) (jobId job)) (queue w)
                       = true).
        { apply existsb_exists. exists j. split; [exact Hin |].
          apply String.eqb_eq. exact Heq. }
        rewrite Hex in Hex'. discriminate. }
  split; [| split]; intros; apply Hother; reflexivity.
Qed.

End Queue.

(** ** Swaps from PAW to wPAW *)

Section SwapsToWPAW.
Context {E : Ethers}.
Variable env : Env.
Variable chain : Chain.

Local Abbreviation run := (SwapToWPAW.processSwapToWPAW env chain).

Lemma storeUserSwapToWPaw_throw_keeps_ledger (l : Ledger)
    (pawAddress blockchainAddress : string) (amount timestamp : Z) (receipt : string)
    (uuid : Z) (err : Exn) :
  snd (SwapToWPAW.storeUserSwapToWPaw env l pawAddress blockchainAddress amount
         timestamp receipt uuid) = Throw err ->
  fst (SwapToWPAW.storeUserSwapToWPaw env l pawAddress blockchainAddress amount
         timestamp receipt uuid) = l.
Proof.
  unfold SwapToWPAW.storeUserSwapToWPaw.
  destruct (negb _); [reflexivity |].
  destruct (redlock_lock env _); [| reflexivity].
  destruct (RedisUsersDepositsStorage.getUserAvailableBalance env _ _);
    [| discriminate].
  destruct (redis_exec env); discriminate.
Qed.

(** X19.  A receipt is returned only for a swap that passed every check: the
    signature of the swap message by the wallet, a confirmed claim of
    the PAW address by that wallet, an amount that parses, is not
    negative and does not exceed the balance; exactly one receipt was
    signed, for that wallet and that amount. *)
Theorem processSwapToWPAW_receipt_needs_every_check (swap : SwapPawToWPAW.t) (l : Ledger)
    (receipt : string) (uuid wpawBalance : Z) :
  snd (run swap l) = SwapReturn (receipt, uuid, wpawBalance) ->
  exists amount balance : Z,
    Service.checkSignature (SwapPawToWPAW.blockchainWallet swap)
      (SwapPawToWPAW.signature swap)
      (SwapToWPAW.swap_message (SwapPawToWPAW.amount swap) (SwapPawToWPAW.from swap))
      = Return true
    /\ RedisUsersDepositsStorage.hasClaim (ledger_redis l) (SwapPawToWPAW.from swap)
         (SwapPawToWPAW.blockchainWallet swap) = true
    /\ parseEther (SwapPawToWPAW.amount swap) = Some amount
    /\ UsersDepositsService.getUserAvailableBalance env (ledger_redis l)
         (SwapPawToWPAW.from swap) = Return balance
    /\ 0 <= amount <= balance
    /\ signMintReceipt chain (SwapPawToWPAW.blockchainWallet swap) amount (Date_now env)
       = Some receipt
    /\ mint_receipts (fst (run swap l))
       = (mint_receipts l ++ [(SwapPawToWPAW.blockchainWallet swap, amount)])%list.
Proof.
  unfold SwapToWPAW.processSwapToWPAW, UsersDepositsService.hasClaim. cbn [JS.await].
  destruct (Service.checkSignature _ _ _) as [[|] | esig]; cbn [negb];
    [| discriminate | discriminate].
  destruct (RedisUsersDepositsStorage.hasClaim _ _ _); cbn [negb]; [| discriminate].
  destruct (parseEther _) as [amount |]; [| discriminate].
  destruct (Z.ltb_spec amount 0); [discriminate |].
  destruct (UsersDepositsService.getUserAvailableBalance env _ _) as [balance | e];
    [| discriminate].
  destruct (Z.geb_spec balance amount); cbn [negb]; [| discriminate].
  unfold Blockchain.createMintReceipt.
  destruct (signMintReceipt chain _ amount (Date_now env)) as [signed |] eqn:Hsigned;
    [| discriminate].
  destruct (balanceOf chain _) as [wpaw |]; [| discriminate].
  intros Hout. exists amount, balance.
  assert (Hreceipts :
            mint_receipts
              (fst (SwapToWPAW.storeUserSwapToWPaw env
                      (mkLedger (ledger_redis l) (swaps_paw_to_wpaw l)
                         (mint_receipts l
                          ++ [(SwapPawToWPAW.blockchainWallet swap, amount)])%list)
                      (SwapPawToWPAW.from swap) (SwapPawToWPAW.blockchainWallet swap)
                      amount (SwapPawToWPAW.timestamp swap) signed (Date_now env)))
            = (mint_receipts l ++ [(SwapPawToWPAW.blockchainWallet swap, amount)])%list).
  { unfold SwapToWPAW.storeUserSwapToWPaw.
    destruct (negb _); [reflexivity |].
    destruct (redlock_lock env _); [| reflexivity].
    destruct (RedisUsersDepositsStorage.getUserAvailableBalance env _ _);
      [| reflexivity].
    destruct (redis_exec env); reflexivity. }
  destruct (SwapToWPAW.storeUserSwapToWPaw env _ _ _ amount _ signed _)
    as [l' [[] | e]]; cbn [fst snd] in Hout, Hreceipts |- *; [| discriminate].
  inversion Hout. subst.
  repeat split; try reflexivity; try lia; assumption.
Qed.

(** X20.  Whenever the swap throws, for whatever reason, no balance was
    debited and no swap recorded. *)
Theorem processSwapToWPAW_throw_keeps_store (swap : SwapPawToWPAW.t) (l : Ledger)
    (err : SwapExn) :
  snd (run swap l) = SwapThrow err ->
  ledger_redis (fst (run swap l)) = ledger_redis l
  /\ swaps_paw_to_wpaw (fst (run swap l)) = swaps_paw_to_wpaw l.
Proof.
  unfold SwapToWPAW.processSwapToWPAW.
  destruct (Service.checkSignature _ _ _) as [[|] | esig]; cbn [negb];
    [| split; reflexivity | split; reflexivity].
  destruct (negb (JS.await _)); [split; reflexivity |].
  destruct (parseEther _) as [amount |]; [| split; reflexivity].
  destruct (amount <? 0); [split; reflexivity |].
  destruct (UsersDepositsService.getUserAvailableBalance env _ _) as [balance | e];
    [| split; reflexivity].
  destruct (negb _); [split; reflexivity |].
  destruct (Blockchain.createMintReceipt env chain _ amount)
    as [[[receipt uuid] wpawBalance] |]; [| split; reflexivity].
  pose proof (fun e =>
                storeUserSwapToWPaw_throw_keeps_ledger
                  (mkLedger (ledger_redis l) (swaps_paw_to_wpaw l)
                     (mint_receipts l
                      ++ [(SwapPawToWPAW.blockchainWallet swap, amount)])%list)
                  (SwapPawToWPAW.from swap) (SwapPawToWPAW.blockchainWallet swap)
                  amount (SwapPawToWPAW.timestamp swap) receipt uuid e) as Hkeep.
  destruct (SwapToWPAW.storeUserSwapToWPaw env _ _ _ amount _ receipt uuid)
    as [l' [[] | e]]; cbn [fst snd] in Hkeep |- *; [discriminate |].
  intros _. rewrite (Hkeep e eq_refl). split; reflexivity.
Qed.

(** X21.  A swap that passes every check, with the locks and Redis available:
    the balance of the PAW address goes down by exactly the amount and
    stays non-negative, and the swap is recorded under its receipt at
    its timestamp. *)
Theorem processSwapToWPAW_debits (swap : SwapPawToWPAW.t) (l : Ledger)
    (amount balance : Z) (receipt : string) (wpawBalance : Z) :
  let from := SwapPawToWPAW.from swap in
  let blockchainWallet := SwapPawToWPAW.blockchainWallet swap in
  Service.checkSignature blockchainWallet (SwapPawToWPAW.signature swap)
    (SwapToWPAW.swap_message (SwapPawToWPAW.amount swap) from) = Return true ->
  RedisUsersDepositsStorage.hasClaim (ledger_redis l) from blockchainWallet = true ->
  parseEther (SwapPawToWPAW.amount swap) = Some amount ->
  0 <= amount ->
  UsersDepositsService.getUserAvailableBalance env (ledger_redis l) from
    = Return balance ->
  amount <= balance ->
  signMintReceipt chain blockchainWallet amount (Date_now env) = Some receipt ->
  balanceOf chain blockchainWallet = Some wpawBalance ->
  JS.truthy_string from = true ->
  redlock_lock env ("locks:swaps:paw-to-wpaw:" +:+ JS.toLowerCase from) = true ->
  redlock_lock env ("locks:paw-balance:" +:+ JS.toLowerCase from) = true ->
  redis_exec env = true ->
  snd (run swap l) = SwapReturn (receipt, Date_now env, wpawBalance)
  /\ paw_balance (ledger_redis (fst (run swap l))) !! JS.toLowerCase from
     = Some (balance - amount)
  /\ 0 <= balance - amount
  /\ Cmd.zrank (JS.toLowerCase from) receipt (swaps_paw_to_wpaw (fst (run swap l)))
     = Some (SwapPawToWPAW.timestamp swap)
  /\ mint_receipts (fst (run swap l))
     = (mint_receipts l ++ [(blockchainWallet, amount)])%list.
Proof.
  intros from blockchainWallet Hsig Hclaim Hparse Hnonneg Hbalance Henough Hsigned
    Hwpaw Hfrom Hlock Hlock' Hexec.
  pose proof (toLowerCase_idempotent from) as Hlower.
  assert (Havailable : RedisUsersDepositsStorage.getUserAvailableBalance env
                         (ledger_redis l) (JS.toLowerCase from) = Return balance).
  { unfold UsersDepositsService.getUserAvailableBalance,
      RedisUsersDepositsStorage.getUserAvailableBalance in Hbalance |- *.
    rewrite Hlock', Hlower. destruct (redlock_lock env _); [| discriminate].
    exact Hbalance. }
  assert (Hrun : run swap l
            = (mkLedger
                 (with_audit (Cmd.hset receipt
                     [("type", AStr "swap-to-wpaw");
                      ("blockchainAddress", AStr (JS.toLowerCase blockchainWallet));
                      ("receipt", AStr receipt);
                      ("uuid", ANum (Date_now env));
                      ("amount", ANum amount);
                      ("timestamp", ANum (SwapPawToWPAW.timestamp swap))])
                   (with_paw_balance (insert (JS.toLowerCase from) (balance - amount))
                      (ledger_redis l)))
                 (Cmd.zadd (JS.toLowerCase from) (SwapPawToWPAW.timestamp swap) receipt
                    (swaps_paw_to_wpaw l))
                 (mint_receipts l ++ [(blockchainWallet, amount)])%list,
               SwapReturn (receipt, Date_now env, wpawBalance))).
  { unfold SwapToWPAW.processSwapToWPAW, UsersDepositsService.hasClaim.
    cbn [JS.await]. fold from. fold blockchainWallet.
    rewrite Hsig, Hclaim, Hparse. cbn [negb].
    destruct (Z.ltb_spec amount 0); [lia |].
    rewrite Hbalance. destruct (Z.geb_spec balance amount); [| lia]. cbn [negb].
    unfold Blockchain.createMintReceipt. rewrite Hsigned, Hwpaw.
    unfold SwapToWPAW.storeUserSwapToWPaw. rewrite Hfrom. cbn [negb ledger_redis].
    rewrite Hlock, Havailable, Hexec. reflexivity. }
  rewrite Hrun. cbn [fst snd ledger_redis swaps_paw_to_wpaw mint_receipts].
  split; [reflexivity |]. split; [| split; [lia | split; [| reflexivity]]].
  - cbn [paw_balance with_audit with_paw_balance]. apply lookup_insert_eq.
  - unfold Cmd.zrank, Cmd.zadd. rewrite lookup_insert_eq. simpl.
    apply lookup_insert_eq.
Qed.

(** X22.  What fails under the lock of the store is logged and swallowed:
    when the batch does not commit, the swap still returns the receipt
    it signed, and neither the balance nor the swap sets have changed. *)
Theorem processSwapToWPAW_receipt_when_batch_fails (swap : SwapPawToWPAW.t) (l : Ledger)
    (amount balance : Z) (receipt : string) (wpawBalance : Z) :
  let from := SwapPawToWPAW.from swap in
  let blockchainWallet := SwapPawToWPAW.blockchainWallet swap in
  Service.checkSignature blockchainWallet (SwapPawToWPAW.signature swap)
    (SwapToWPAW.swap_message (SwapPawToWPAW.amount swap) from) = Return true ->
  RedisUsersDepositsStorage.hasClaim (ledger_redis l) from blockchainWallet = true ->
  parseEther (SwapPawToWPAW.amount swap) = Some amount ->
  0 <= amount ->
  UsersDepositsService.getUserAvailableBalance env (ledger_redis l) from
    = Return balance ->
  amount <= balance ->
  signMintReceipt chain blockchainWallet amount (Date_now env) = Some receipt ->
  balanceOf chain blockchainWallet = Some wpawBalance ->
  JS.truthy_string from = true ->
  redlock_lock env ("locks:swaps:paw-to-wpaw:" +:+ JS.toLowerCase from) = true ->
  redis_exec env = false ->
  run swap l
    = (mkLedger (ledger_redis l) (swaps_paw_to_wpaw l)
         (mint_receipts l ++ [(blockchainWallet, amount)])%list,
       SwapReturn (receipt, Date_now env, wpawBalance)).
Proof.
  intros from blockchainWallet Hsig Hclaim Hparse Hnonneg Hbalance Henough Hsigned
    Hwpaw Hfrom Hlock Hexec.
  unfold SwapToWPAW.processSwapToWPAW, UsersDepositsService.hasClaim.
  cbn [JS.await]. fold from. fold blockchainWallet.
  rewrite Hsig, Hclaim, Hparse. cbn [negb].
  destruct (Z.ltb_spec amount 0); [lia |].
  rewrite Hbalance. destruct (Z.geb_spec balance amount); [| lia]. cbn [negb].
  unfold Blockchain.createMintReceipt. rewrite Hsigned, Hwpaw.
  unfold SwapToWPAW.storeUserSwapToWPaw. rewrite Hfrom. cbn [negb ledger_redis].
  rewrite Hlock, Hexec.
  destruct (RedisUsersDepositsStorage.getUserAvailableBalance env _ _); reflexivity.
Qed.

End SwapsToWPAW.

(** ** The history *)

Lemma precedes_total : Total HistoryQueries.precedes.
Proof.
  intros [h1 s1] [h2 s2]. unfold HistoryQueries.precedes. simpl.
  destruct (Z.ltb_spec s2 s1); [left; reflexivity |].
  destruct (Z.ltb_spec s1 s2); [right; reflexivity |].
  assert (s1 = s2) by lia. subst. rewrite Z.eqb_refl. simpl.
  destruct (String.leb_total h1 h2) as [Hle | Hle]; [right | left]; exact Hle.
Qed.

Lemma precedes_score (p q : string * Z) :
  HistoryQueries.precedes p q -> snd q <= snd p.
Proof.
  unfold HistoryQueries.precedes. intros Hpq.
  apply orb_true_iff in Hpq as [Hlt | Heq].
  - apply Z.ltb_lt in Hlt. lia.
  - apply andb_true_iff in Heq as [Heq _]. apply Z.eqb_eq in Heq. lia.
Qed.

Lemma Sorted_weaken {A : Type} (R1 R2 : A -> A -> Prop) (l : list A) :
  (forall x y, R1 x y -> R2 x y) -> Sorted R1 l -> Sorted R2 l.
Proof.
  intros Himpl. induction 1 as [| x l Hsorted IH Hhd]; constructor; [exact IH |].
  destruct Hhd; constructor. apply Himpl. assumption.
Qed.

Lemma zrevrangebyscore_newest_first (key : string) (limit : nat)
    (m : gmap string (gmap string Z)) :
  newest_first (default ∅ (m !! key)) limit
    (HistoryQueries.zrevrangebyscore key limit m).
Proof.
  unfold HistoryQueries.zrevrangebyscore.
  set (z := default ∅ (m !! key)).
  set (sorted := merge_sort HistoryQueries.precedes (map_to_list z)).
  assert (Hperm : sorted ≡ₚ map_to_list z) by apply merge_sort_Permutation.
  pose proof precedes_total as Htotal.
  assert (Hsorted : StronglySorted (fun e1 e2 => snd e2 <= snd e1) sorted).
  { apply Sorted_StronglySorted.
    - intros e1 e2 e3 H12 H23. lia.
    - apply (Sorted_weaken HistoryQueries.precedes); [apply precedes_score |].
      apply (Sorted_merge_sort HistoryQueries.precedes). }
  assert (Hsplit : sorted = (take limit sorted ++ drop limit sorted)%list)
    by (symmetry; apply take_drop).
  assert (Hmember : forall hash score,
            In (hash, score) sorted <-> z !! hash = Some score).
  { intros hash score. rewrite <- elem_of_map_to_list, <- Hperm.
    symmetry. apply list_elem_of_In. }
  repeat split.
  - intros hash score Hin. apply Hmember. rewrite Hsplit.
    apply in_or_app. left. exact Hin.
  - assert (Hnodup : NoDup (sorted.*1)).
    { rewrite Hperm. apply NoDup_fst_map_to_list. }
    rewrite Hsplit, fmap_app in Hnodup. apply NoDup_app in Hnodup as [Hnodup _].
    exact Hnodup.
  - apply StronglySorted_Sorted. rewrite Hsplit in Hsorted.
    apply StronglySorted_app_1_l in Hsorted. exact Hsorted.
  - rewrite length_take. rewrite (Permutation_length Hperm). lia.
  - intros hash score Hz Hout e He.
    apply Hmember in Hz. rewrite Hsplit in Hz. apply in_app_or in Hz as [Hz | Hz];
      [contradiction |].
    rewrite Hsplit in Hsorted.
    apply (StronglySorted_app_1_elem_of _ _ _ e (hash, score) Hsorted);
      apply list_elem_of_In; assumption.
Qed.

Lemma classic_in (e : string * Z) (l : list (string * Z)) : In e l \/ ~ In e l.
Proof.
  destruct (decide (e ∈ l)) as [Hin | Hout]; [left | right];
    rewrite <- list_elem_of_In; assumption.
Qed.

Section History.
Variable explorer : string.

(** X23.  The history of a pair of addresses.  The deposits and the
    withdrawals of the PAW address are each listed newest first, at most
    1000 of them, every one with its audit record and the link to the
    block of the tracker; the swaps are the swaps of the PAW address
    towards wPAW, newest first and at most 1000, followed by the swaps of
    the wallet back to PAW, newest first and at most 1000, and only the
    latter carry a link, to the block explorer. *)
Theorem getHistory_newest_first (l : Ledger) (blockchainWallet pawWallet : string) :
  let history := HistoryQueries.getHistory explorer l blockchainWallet pawWallet in
  let r := ledger_redis l in
  exists deposited withdrawn toWPAW toPAW : list (string * Z),
    newest_first (default ∅ (deposits r !! JS.toLowerCase pawWallet)) 1000 deposited
    /\ newest_first (default ∅ (withdrawals r !! JS.toLowerCase pawWallet)) 1000
         withdrawn
    /\ newest_first (default ∅ (swaps_paw_to_wpaw l !! JS.toLowerCase pawWallet)) 1000
         toWPAW
    /\ newest_first
         (default ∅ (swaps_wpaw_to_paw r !! JS.toLowerCase blockchainWallet)) 1000 toPAW
    /\ HistoryQueries.history_deposits history
       = map (fun e =>
                <[ "link" := AStr ("https://tracker.paw.digital/block/" +:+ fst e) ]>
                  (default ∅ (audit r !! fst e))) deposited
    /\ HistoryQueries.history_withdrawals history
       = map (fun e =>
                <[ "link" := AStr ("https://tracker.paw.digital/block/" +:+ fst e) ]>
                  (default ∅ (audit r !! fst e))) withdrawn
    /\ HistoryQueries.history_swaps history
       = map (fun e => HistoryQueries.swap_entry explorer r (fst e))
           (toWPAW ++ toPAW)%list
    /\ (forall hash,
          default ∅ (audit r !! hash) !! "type" <> Some (AStr "swap-to-paw") ->
          HistoryQueries.swap_entry explorer r hash = default ∅ (audit r !! hash)).
Proof.
  intros history r.
  exists (HistoryQueries.zrevrangebyscore (JS.toLowerCase pawWallet) 1000 (deposits r)),
    (HistoryQueries.zrevrangebyscore (JS.toLowerCase pawWallet) 1000 (withdrawals r)),
    (HistoryQueries.zrevrangebyscore (JS.toLowerCase pawWallet) 1000
       (swaps_paw_to_wpaw l)),
    (HistoryQueries.zrevrangebyscore (JS.toLowerCase blockchainWallet) 1000
       (swaps_wpaw_to_paw r)).
  split; [apply zrevrangebyscore_newest_first |].
  split; [apply zrevrangebyscore_newest_first |].
  split; [apply zrevrangebyscore_newest_first |].
  split; [apply zrevrangebyscore_newest_first |].
  subst history. unfold HistoryQueries.getHistory, HistoryQueries.getDeposits,
    HistoryQueries.getWithdrawals, HistoryQueries.getSwaps, HistoryQueries.LIMIT.
  cbn [HistoryQueries.history_deposits HistoryQueries.history_withdrawals
       HistoryQueries.history_swaps].
  split; [apply map_map |]. split; [apply map_map |]. split.
  - rewrite <- fmap_app. apply map_map.
  - intros hash Htype. unfold HistoryQueries.swap_entry, HistoryQueries.hgetall.
    fold r. destruct (default ∅ (audit r !! hash) !! "type") as [[type | n] |];
      try reflexivity.
    destruct (String.eqb_spec type "swap-to-paw") as [-> | Hne]; [| reflexivity].
    exfalso. apply Htype. reflexivity.
Qed.

(** X24.  A deposit newer than every deposit recorded for its address heads
    the list once it is stored, with the type, hash, amount and
    timestamp of its audit record and the link to its block. *)
Theorem getDeposits_lists_new_deposit_first (env : Env) (r : Redis)
    (pawAddress : string) (amount timestamp : Z) (hash : string) :
  RedisUsersDepositsStorage.containsUserDepositTransaction r pawAddress hash = false ->
  forallb (fun entry => snd entry <? timestamp)
    (map_to_list (default ∅ (deposits r !! JS.toLowerCase pawAddress))) = true ->
  redlock_lock env ("locks:paw-balance:" +:+ JS.toLowerCase pawAddress) = true ->
  redis_exec env = true ->
  let r' := UsersDepositsService.storeUserDeposit env r pawAddress amount timestamp hash in
  exists entry older,
    HistoryQueries.getDeposits r' pawAddress = entry :: older
    /\ entry !! "type" = Some (AStr "deposit")
    /\ entry !! "hash" = Some (AStr hash)
    /\ entry !! "amount" = Some (ANum amount)
    /\ entry !! "timestamp" = Some (ANum timestamp)
    /\ entry !! "link" = Some (AStr ("https://tracker.paw.digital/block/" +:+ hash)).
Proof.
  intros Hnew Hbefore Hlock Hexec r'.
  assert (Holder : forall other score,
            default ∅ (deposits r !! JS.toLowerCase pawAddress) !! other = Some score ->
            score < timestamp).
  { intros other score Hin. rewrite forallb_forall in Hbefore.
    apply elem_of_map_to_list, list_elem_of_In in Hin.
    specialize (Hbefore _ Hin). simpl in Hbefore. apply Z.ltb_lt. exact Hbefore. }
  assert (Hr' : r'
            = with_audit (Cmd.hset hash
                  [("type", AStr "deposit"); ("hash", AStr hash);
                   ("amount", ANum amount); ("timestamp", ANum timestamp)])
                (with_deposits (Cmd.zadd (JS.toLowerCase pawAddress) timestamp hash)
                   (with_paw_balance
                      (insert (JS.toLowerCase pawAddress)
                         (RedisUsersDepositsStorage.stored_balance r
                            (JS.toLowerCase pawAddress) + amount)) r))).
  { subst r'. unfold UsersDepositsService.storeUserDeposit,
      RedisUsersDepositsStorage.storeUserDeposit.
    rewrite Hnew, Hlock, Hexec. reflexivity. }
  set (z := default ∅ (deposits r !! JS.toLowerCase pawAddress)) in *.
  assert (Hz' : default ∅ (deposits r' !! JS.toLowerCase pawAddress)
                = <[ hash := timestamp ]> z).
  { rewrite Hr'. cbn [deposits with_audit with_deposits with_paw_balance].
    unfold Cmd.zadd. rewrite lookup_insert_eq. reflexivity. }
  pose proof (zrevrangebyscore_newest_first (JS.toLowerCase pawAddress) 1000
                (deposits r')) as [Hmember [_ [Hsorted [Hlength Hleft]]]].
  rewrite Hz' in Hmember, Hlength, Hleft.
  unfold HistoryQueries.getDeposits, HistoryQueries.LIMIT.
  destruct (HistoryQueries.zrevrangebyscore (JS.toLowerCase pawAddress) 1000
              (deposits r')) as [| [first score] entries] eqn:Hentries.
  { exfalso. simpl in Hlength.
    assert (Hin : (hash, timestamp) ∈ map_to_list (<[ hash := timestamp ]> z))
      by (apply elem_of_map_to_list, lookup_insert_eq).
    destruct (map_to_list (<[ hash := timestamp ]> z)); [inversion Hin |].
    simpl in Hlength. lia. }
  assert (Hother : forall h s, In (h, s) ((first, score) :: entries) ->
                     h <> hash -> s < timestamp).
  { intros h s Hin Hne. apply Hmember in Hin.
    rewrite lookup_insert_ne in Hin by congruence. exact (Holder h s Hin). }
  assert (Hfirst : first = hash /\ score = timestamp).
  { destruct (String.eqb_spec first hash) as [-> | Hne].
    - split; [reflexivity |].
      pose proof (Hmember hash score (or_introl eq_refl)) as Hscore.
      rewrite lookup_insert_eq in Hscore. congruence.
    - exfalso.
      pose proof (Hother first score (or_introl eq_refl) Hne) as Hlt.
      destruct (classic_in (hash, timestamp) ((first, score) :: entries))
        as [Hin | Hout].
      + apply Sorted_StronglySorted in Hsorted; [| intros e1 e2 e3 H12 H23; lia].
        apply StronglySorted_cons in Hsorted as [Hall _].
        destruct Hin as [Heq | Hin]; [congruence |].
        rewrite Forall_forall in Hall. apply list_elem_of_In in Hin.
        specialize (Hall _ Hin). simpl in Hall. lia.
      + specialize (Hleft hash timestamp (lookup_insert_eq _ _ _) Hout
                      (first, score) (or_introl eq_refl)).
        simpl in Hleft. lia. }
  destruct Hfirst as [-> ->].
  exists (HistoryQueries.tracker_entry r' hash),
    (map (HistoryQueries.tracker_entry r') (entries.*1)).
  split; [reflexivity |].
  unfold HistoryQueries.tracker_entry, HistoryQueries.hgetall.
  rewrite Hr'. cbn [audit with_audit with_deposits with_paw_balance].
  unfold Cmd.hset. rewrite lookup_insert_eq. cbn [default from_option]. unfold id.
  repeat split;
    first [ apply lookup_insert_eq
          | rewrite lookup_insert_ne by discriminate;
            apply lookup_union_Some_l; reflexivity ].
Qed.

End History.

(** ** The two ways a deposit is seen, and the credit of a burn *)

Section TwoPaths.
Context {E : Ethers}.
Variable cfg : Config.
Variable env : Env.

(** X11.  A confirmation towards the hot wallet whose raw amount has at least
    nine digits and parses is treated by the websocket handler exactly
    as the sweep treats the same transaction found pending: received
    when the hot or the cold wallet sent it, enqueued as the same
    deposit job otherwise. *)
Theorem wsMessageReceived_agrees_with_sweep
    (sender rawAmount hash : string) (amount : Z) (w : World) :
  (9 <= String.length rawAmount)%nat ->
  bigNumberFrom (Paw.strip_raw rawAmount) = Some amount ->
  Paw.wsMessageReceived cfg env
    (mkNotification sender (PawUsersDepositsHotWallet cfg) rawAmount hash) w
  = Paw.processPendingTransactions_loop cfg env
      [(hash, mkPendingTransaction rawAmount sender)] w.
Proof.
  intros Hlength Hparse.
  unfold Paw.wsMessageReceived. cbn [Paw.processPendingTransactions_loop].
  cbn [msg_account msg_link_as_account msg_amount msg_hash
       pending_amount pending_source].
  rewrite Hparse.
  destruct (Nat.ltb_spec (String.length rawAmount) 9); [lia |].
  unfold Paw.usersDepositsHotWallet, Paw.usersDepositsColdWallet.
  destruct (String.eqb sender (PawUsersDepositsHotWallet cfg)
            || String.eqb sender (PawUsersDepositsColdWallet cfg))%bool;
    [reflexivity |].
  rewrite String.eqb_refl. cbn [negb].
  unfold bind, try_catch, ret, Paw.queueUserDeposit,
    RedisProcessingQueue.addPawUserDeposit, RedisProcessingQueue.add.
  reflexivity.
Qed.

(** X5.  A burn of wPAW that the scan (or the subscription) turned into an
    event, once its job runs with the lock and Redis available: the
    balance of the PAW address named in the log goes up by the amount of
    the log, and the swap is recorded for the wallet under the
    transaction hash, at the block time in seconds times 1000 times
    1000. *)
Theorem scanned_swap_is_credited (chain : Chain) (log : SwapToPawLog)
    (event : SwapWPAWToPaw.t) (w : World) :
  Blockchain.event_of_log chain log = Some event ->
  parseEther (formatEther (args_amount log)) = Some (args_amount log) ->
  JS.truthy_string (args_pawAddress log) = true ->
  RedisUsersDepositsStorage.swapToPawWasAlreadyDone (redis w) event = false ->
  redlock_lock env ("locks:paw-balance:" +:+ args_pawAddress log) = true ->
  redis_exec env = true ->
  let w' := fst (Service.processSwapToPAW env event w) in
  paw_balance (redis w') !! JS.toLowerCase (args_pawAddress log)
    = Some (RedisUsersDepositsStorage.stored_balance (redis w)
              (JS.toLowerCase (args_pawAddress log)) + args_amount log)
  /\ exists seconds : Z,
       getBlock chain (log_blockNumber log) = Some seconds
       /\ Cmd.zrank (JS.toLowerCase (args_from log)) (log_transactionHash log)
            (swaps_wpaw_to_paw (redis w'))
          = Some (seconds * 1000 * 1000).
Proof.
  unfold Blockchain.event_of_log.
  destruct (getBlock chain (log_blockNumber log)) as [seconds |]; [| discriminate].
  destruct (balanceOf chain (args_from log)) as [wpawBalance |]; [| discriminate].
  intros Hevent. inversion Hevent as [Hdef]. clear Hevent.
  intros Hparse Hpaw Hnew Hlock Hexec.
  split.
  - exact (proj1 (processSwapToPAW_fresh env _ w (args_amount log)
                    Hnew Hpaw Hlock Hparse Hexec)).
  - exists seconds. split; [reflexivity |]. destruct w as [r q calls].
    unfold Service.processSwapToPAW, bind, query, attempt_update, ret,
      UsersDepositsService.containsUserSwapToPaw,
      UsersDepositsService.storeUserSwapToPaw,
      RedisUsersDepositsStorage.storeUserSwapToPaw.
    simpl in Hnew |- *. rewrite Hnew, Hpaw. simpl. rewrite Hlock, Hparse, Hexec, Hnew.
    simpl. unfold Cmd.zrank, Cmd.zadd. rewrite lookup_insert_eq. simpl.
    apply lookup_insert_eq.
Qed.

End TwoPaths.

(** ** The balance is the sum of what was committed *)

Section Conservation.
Variable env : Env.

Lemma commit_balance (pawAddress : string) (r : Redis) (movement : Movement) :
  redlock_lock env ("locks:paw-balance:" +:+ JS.toLowerCase pawAddress) = true ->
  redis_exec env = true ->
  RedisUsersDepositsStorage.stored_balance (commit env pawAddress r movement)
    (JS.toLowerCase pawAddress)
  = RedisUsersDepositsStorage.stored_balance r (JS.toLowerCase pawAddress)
    + signed_amount movement
  /\ forall other : string,
       other <> JS.toLowerCase pawAddress ->
       paw_balance (commit env pawAddress r movement) !! other = paw_balance r !! other.
Proof.
  intros Hlock Hexec.
  destruct movement as [amount timestamp hash | amount timestamp hash];
    unfold commit, RedisUsersDepositsStorage.storeUserDeposit,
      RedisUsersDepositsStorage.storeUserWithdrawal;
    rewrite Hlock, Hexec;
    unfold RedisUsersDepositsStorage.stored_balance at 1;
    cbn [paw_balance with_audit with_deposits with_withdrawals with_paw_balance
         signed_amount];
    rewrite lookup_insert_eq; (split; [lia |]);
    intros other Hother; apply lookup_insert_ne; congruence.
Qed.

(** X27.  With the lock and Redis available, every deposit and withdrawal the
    storage commits for a PAW address moves its balance by exactly its
    amount and moves no other balance: after any sequence of them the
    balance is the balance before, plus the deposits, less the
    withdrawals. *)
Theorem balance_is_sum_of_movements (pawAddress : string) (movements : list Movement)
    (r : Redis) :
  redlock_lock env ("locks:paw-balance:" +:+ JS.toLowerCase pawAddress) = true ->
  redis_exec env = true ->
  let r' := fold_left (commit env pawAddress) movements r in
  RedisUsersDepositsStorage.stored_balance r' (JS.toLowerCase pawAddress)
  = RedisUsersDepositsStorage.stored_balance r (JS.toLowerCase pawAddress)
    + fold_right Z.add 0 (map signed_amount movements)
  /\ RedisUsersDepositsStorage.getUserAvailableBalance env r' (JS.toLowerCase pawAddress)
     = Return (RedisUsersDepositsStorage.stored_balance r (JS.toLowerCase pawAddress)
               + fold_right Z.add 0 (map signed_amount movements))
  /\ forall other : string,
       other <> JS.toLowerCase pawAddress ->
       paw_balance r' !! other = paw_balance r !! other.
Proof.
  intros Hlock Hexec r'. subst r'.
  assert (Hsum : forall r0,
            RedisUsersDepositsStorage.stored_balance
              (fold_left (commit env pawAddress) movements r0)
              (JS.toLowerCase pawAddress)
            = RedisUsersDepositsStorage.stored_balance r0 (JS.toLowerCase pawAddress)
              + fold_right Z.add 0 (map signed_amount movements)
            /\ forall other : string,
                 other <> JS.toLowerCase pawAddress ->
                 paw_balance (fold_left (commit env pawAddress) movements r0) !! other
                 = paw_balance r0 !! other).
  { induction movements as [| movement movements IH]; intros r0; simpl.
    - split; [lia | reflexivity].
    - destruct (IH (commit env pawAddress r0 movement)) as [Hbalance Hframe].
      destruct (commit_balance pawAddress r0 movement Hlock Hexec) as [Hstep Hother].
      split.
      + rewrite Hbalance, Hstep. lia.
      + intros other Hne. rewrite (Hframe other Hne). apply Hother. exact Hne. }
  destruct (Hsum r) as [Hbalance Hframe].
  split; [exact Hbalance |]. split; [| exact Hframe].
  unfold RedisUsersDepositsStorage.getUserAvailableBalance.
  pose proof (toLowerCase_idempotent pawAddress) as Hlower.
  rewrite Hlock, Hlower, <- Hbalance.
  unfold RedisUsersDepositsStorage.stored_balance.
  destruct (paw_balance _ !! JS.toLowerCase pawAddress); reflexivity.
Qed.

End Conservation.

(** ** The properties above on the doubles *)

(** Blocks 0 to 2500 in three slices: the burn of block 1500 is enqueued
    once and the cursor is left at 2500. *)
Lemma processBlocks_slices_cover_range_witness :
  Blockchain.processBlocks (E := Double.ethers) Double.config (chain_of burn_blocks)
    service_listeners 0 2500 (Double.world empty_redis)
  = (scanned Double.config (Double.world empty_redis) [swap_job burn_event] 2500,
     Return tt).
Proof.
  refine (proj1 (processBlocks_slices_cover_range (E := Double.ethers) Double.config
                   (chain_of burn_blocks) burn_blocks 0 2500
                   (Double.world empty_redis) [burn_event] _ _ _ _)).
  - intros a b. reflexivity.
  - discriminate.
  - vm_compute. reflexivity.
  - reflexivity.
Defined.

Lemma processBlocks_empty_range_witness :
  Blockchain.processBlocks (E := Double.ethers) Double.config (chain_of burn_blocks)
    service_listeners 10 5 (Double.world empty_redis)
  = (Double.world empty_redis, Return tt).
Proof.
  apply (processBlocks_empty_range (E := Double.ethers) Double.config
           (chain_of burn_blocks) service_listeners 10 5 (Double.world empty_redis)).
  reflexivity.
Defined.

(** The slice 0 to 10 throws on the burn without a PAW address; the
    other burn of the block is enqueued. *)
Lemma processBlocksSlice_malformed_event_witness :
  exists err,
    Blockchain.processBlocksSlice (E := Double.ethers) Double.config
      (chain_of mixed_blocks) service_listeners 0 10 (Double.world empty_redis)
    = (mkWorld empty_redis [swap_job early_event] [], Throw err).
Proof.
  apply (processBlocksSlice_malformed_event (E := Double.ethers) Double.config
           (chain_of mixed_blocks) [unaddressed_log; early_log]
           [unaddressed_event; early_event] 0 10 (Double.world empty_redis)).
  - vm_compute. reflexivity.
  - vm_compute. reflexivity.
  - reflexivity.
Defined.

Lemma scanned_swap_is_credited_witness :
  paw_balance
    (redis (fst (Service.processSwapToPAW (E := Double.ethers) (Double.env 0)
                   burn_event (Double.world empty_redis)))) !! "paw_bob"
  = Some (0 + 7 * ether).
Proof.
  apply (proj1 (scanned_swap_is_credited (E := Double.ethers) (Double.env 0)
                  (chain_of burn_blocks) burn_log burn_event
                  (Double.world empty_redis)
                  ltac:(vm_compute; reflexivity) ltac:(vm_compute; reflexivity)
                  eq_refl eq_refl eq_refl eq_refl)).
Defined.

(** [0xA] claims [paw_1alice]; the claim of [0xB] a minute later is
    refused, and the one made once five minutes have passed is
    accepted. *)
Lemma claim_refused_while_pending_witness :
  let claimed :=
    fst (Service.claim (E := Double.ethers) (Double.env 0) "paw_1alice" "0xA"
           (Double.sign "0xA" (Service.claim_message "paw_1alice"))
           (Double.world empty_redis)) in
  Service.claim (E := Double.ethers) (Double.env 0) "paw_1alice" "0xB"
    (Double.sign "0xB" (Service.claim_message "paw_1alice")) (later 60000 claimed)
  = (later 60000 claimed, Return InvalidOwner)
  /\ snd (Service.claim (E := Double.ethers) (Double.env 0) "paw_1alice" "0xB"
            (Double.sign "0xB" (Service.claim_message "paw_1alice"))
            (later 300001 claimed))
     = Return Ok.
Proof.
  split.
  - apply (claim_refused_while_pending (E := Double.ethers) (Double.env 0)
             "paw_1alice" "0xA"
             (Double.sign "0xA" (Service.claim_message "paw_1alice")) "0xB"
             (Double.sign "0xB" (Service.claim_message "paw_1alice"))
             (Double.world empty_redis) 60000).
    + vm_compute. reflexivity.
    + vm_compute. reflexivity.
    + lia.
  - rewrite (claim_refused_while_pending (E := Double.ethers) (Double.env 0)
               "paw_1alice" "0xA"
               (Double.sign "0xA" (Service.claim_message "paw_1alice")) "0xB"
               (Double.sign "0xB" (Service.claim_message "paw_1alice"))
               (Double.world empty_redis) 300001).
    + reflexivity.
    + vm_compute. reflexivity.
    + vm_compute. reflexivity.
    + lia.
Defined.

(** [0xA] claims [paw_1alice] and a deposit arrives a minute later: the
    claim is confirmed. *)
Lemma claim_confirmed_by_deposit_witness :
  let signature := Double.sign "0xA" (Service.claim_message "paw_1alice") in
  let claimed :=
    fst (Service.claim (E := Double.ethers) (Double.env 0) "paw_1alice" "0xA"
           signature (Double.world empty_redis)) in
  let deposited :=
    fst (Paw.processUserDeposit (E := Double.ethers) Double.config (Double.env 0)
           "paw_1alice" (5 * ether) 1700000000000 "0xD1" (later 60000 claimed)) in
  RedisUsersDepositsStorage.hasClaim (redis deposited) "paw_1alice" "0xA" = true
  /\ RedisUsersDepositsStorage.isClaimed (redis deposited) "paw_1alice" = true
  /\ Service.claim (E := Double.ethers) (Double.env 0) "paw_1alice" "0xA" signature
       deposited
     = (deposited, Return AlreadyDone).
Proof.
  apply (proj1 (claim_confirmed_by_deposit (E := Double.ethers) Double.config
                  (Double.env 0) "paw_1alice" "0xA"
                  (Double.sign "0xA" (Service.claim_message "paw_1alice"))
                  (Double.world empty_redis) (5 * ether) 1700000000000 "0xD1" 60000
                  ltac:(vm_compute; reflexivity) ltac:(lia))).
  lia.
Defined.

(** The same deposit once five minutes have passed since the claim:
    nothing is confirmed and the coins are sent back. *)
Example claim_lapsed_before_deposit :
  let signature := Double.sign "0xA" (Service.claim_message "paw_1alice") in
  let claimed :=
    fst (Service.claim (E := Double.ethers) (Double.env 0) "paw_1alice" "0xA"
           signature (Double.world empty_redis)) in
  let run :=
    Paw.processUserDeposit (E := Double.ethers) Double.config (Double.env 0)
      "paw_1alice" (5 * ether) 1700000000000 "0xD1" (later 300001 claimed) in
  RedisUsersDepositsStorage.isClaimed (redis (fst run)) "paw_1alice" = false
  /\ node_calls (fst run) = [Receive "0xD1"; Send "paw_1alice" (5 * ether)]
  /\ snd run = Return false.
Proof. vm_compute. repeat split. Qed.

(** [0xA] claimed [paw_1alice], a deposit confirmed the claim, and the
    pending claim has lapsed: [0xB] claims the address, a deposit
    arrives half a minute later, and both hold a claim. *)
Lemma claim_of_claimed_address_by_other_wallet_witness :
  let signature := Double.sign "0xB" (Service.claim_message "paw_1alice") in
  let claimed :=
    fst (Service.claim (E := Double.ethers) (Double.env 0) "paw_1alice" "0xB"
           signature alice_confirmed) in
  let deposited :=
    fst (Paw.processUserDeposit (E := Double.ethers) Double.config (Double.env 0)
           "paw_1alice" (5 * ether) 1700000000000 "0xD2" (later 30000 claimed)) in
  snd (Service.claim (E := Double.ethers) (Double.env 0) "paw_1alice" "0xB"
         signature alice_confirmed) = Return Ok
  /\ RedisUsersDepositsStorage.hasClaim (redis deposited) "paw_1alice" "0xA" = true
  /\ RedisUsersDepositsStorage.hasClaim (redis deposited) "paw_1alice" "0xB" = true.
Proof.
  apply (claim_of_claimed_address_by_other_wallet (E := Double.ethers) Double.config
           (Double.env 0) "paw_1alice" "0xA" "0xB"
           (Double.sign "0xB" (Service.claim_message "paw_1alice"))
           alice_confirmed (5 * ether) 1700000000000 "0xD2" 30000);
    first [ lia | vm_compute; reflexivity ].
Defined.

Lemma processUserDeposit_unclaimed_is_refunded_witness :
  Paw.processUserDeposit (E := Double.ethers) Double.config (Double.env 0)
    "paw_Stranger" (3 * ether) 1700000000000 "0xD9" (Double.world empty_redis)
  = (mkWorld empty_redis [] [Receive "0xD9"; Send "paw_Stranger" (3 * ether)],
     Return false).
Proof.
  apply (processUserDeposit_unclaimed_is_refunded (E := Double.ethers) Double.config
           (Double.env 0) "paw_Stranger" (3 * ether) 1700000000000 "0xD9"
           (Double.world empty_redis));
    reflexivity.
Defined.

(** A deposit of 5 coins by the claimed [paw_Sender], and the same job
    once more with 6 coins: the balance stays at 5 coins. *)
Lemma processUserDeposit_replay_credits_once_witness :
  let once :=
    fst (Paw.processUserDeposit (E := Double.ethers) Double.config (Double.env 0)
           "paw_Sender" (5 * ether) 1700000000000 "0xD1"
           (Double.world claimed_store)) in
  let twice :=
    fst (Paw.processUserDeposit (E := Double.ethers) Double.config (Double.env 0)
           "paw_Sender" (6 * ether) 1700000000001 "0xD1" once) in
  paw_balance (redis once) !! "paw_sender" = Some (0 + 5 * ether)
  /\ paw_balance (redis twice) = paw_balance (redis once)
  /\ deposits (redis twice) = deposits (redis once).
Proof.
  apply (processUserDeposit_replay_credits_once (E := Double.ethers) Double.config
           (Double.env 0) "paw_Sender" (5 * ether) 1700000000000 (6 * ether)
           1700000000001 "0xD1" (Double.world claimed_store));
    vm_compute; reflexivity.
Defined.

Lemma wsMessageReceived_agrees_with_sweep_witness :
  Paw.wsMessageReceived (E := Double.ethers) Double.config (sweep_env [])
    (mkNotification "paw_user" "paw_hot" "2000000000000000000000000000" "HASH2")
    (Double.world empty_redis)
  = Paw.processPendingTransactions_loop (E := Double.ethers) Double.config
      (sweep_env []) [from_user] (Double.world empty_redis).
Proof.
  apply (wsMessageReceived_agrees_with_sweep (E := Double.ethers) Double.config
           (sweep_env []) "paw_user" "2000000000000000000000000000" "HASH2"
           (2 * ether) (Double.world empty_redis)).
  - vm_compute. repeat constructor.
  - vm_compute. reflexivity.
Defined.

(** 30 coins in the hot wallet, a minimum of 10, a deposit of 10: the 8
    coins sent leave 22. *)
Lemma eventuallySendToColdWallet_keeps_minimum_witness :
  let w' :=
    fst (Paw.eventuallySendToColdWallet (E := Double.ethers) Double.config
           (Double.env (30 * ether)) (10 * ether) (Double.world empty_redis)) in
  redis w' = empty_redis
  /\ queue w' = []
  /\ (node_calls w' = []
      \/ exists amount : Z,
           node_calls w' = [Send "paw_cold" amount]
           /\ 0 < amount <= 10 * ether
           /\ 10 * ether <= 30 * ether - amount).
Proof.
  apply (eventuallySendToColdWallet_keeps_minimum (E := Double.ethers) Double.config
           (Double.env (30 * ether)) (10 * ether) (10 * ether)
           (Double.world empty_redis)).
  - reflexivity.
  - vm_compute. split; discriminate.
  - vm_compute. discriminate.
  - vm_compute. reflexivity.
Defined.

(** [0xV] asks for 500 coins of the 100 that [paw_Victim] holds. *)
Lemma processWithdrawPAW_throw_keeps_store_witness :
  let run :=
    Service.processWithdrawPAW (E := Double.ethers) Double.config
      (Double.env (300 * ether)) (signed_withdrawal "paw_Victim" "500" "0xV" 0) None
      (Double.world victim_store) in
  redis (fst run) = victim_store /\ queue (fst run) = [].
Proof.
  apply (processWithdrawPAW_throw_keeps_store (E := Double.ethers) Double.config
           (Double.env (300 * ether)) (signed_withdrawal "paw_Victim" "500" "0xV" 0)
           None (Double.world victim_store) InsufficientBalanceError).
  vm_compute. reflexivity.
Defined.

Lemma processWithdrawPAW_debits_only_what_was_sent_witness :
  exists (amount balance : Z) (hash : string),
    parseEther (Ethers := Double.ethers) "40" = Some amount
    /\ 0 <= amount <= balance
    /\ UsersDepositsService.getUserAvailableBalance (Double.env (300 * ether))
         victim_store "paw_Victim" = Return balance
    /\ sendPawWithdrawalFromSeed (Double.env (300 * ether)) "paw_Victim" amount
       = Some hash
    /\ Service.processWithdrawPAW (E := Double.ethers) Double.config
         (Double.env (300 * ether)) (signed_withdrawal "paw_Victim" "40" "0xV" 0) None
         (Double.world victim_store)
       = (mkWorld
            (UsersDepositsService.storeUserWithdrawal (Double.env (300 * ether))
               victim_store "paw_Victim" amount 1700000000000 hash)
            [] [Send "paw_Victim" amount],
          Return (hash, signed_withdrawal "paw_Victim" "40" "0xV" 0)).
Proof.
  apply (processWithdrawPAW_debits_only_what_was_sent (E := Double.ethers)
           Double.config (Double.env (300 * ether))
           (signed_withdrawal "paw_Victim" "40" "0xV" 0) None
           (Double.world victim_store)).
  intros Hsame.
  apply (f_equal (fun r => paw_balance r !! "paw_victim")) in Hsame.
  vm_compute in Hsame. discriminate Hsame.
Defined.


Lemma getPendingWithdrawalsAmount_counts_replacement_witness :
  snd (PendingWithdrawals.getPendingWithdrawalsAmount (E := Double.ethers)
         (fst (RedisProcessingQueue.addPawUserPendingWithdrawal
                 (signed_withdrawal "paw_Victim" "100" "0xV" 0)
                 (Double.world victim_store))))
  = Return (0 + 100 * ether).
Proof.
  apply (getPendingWithdrawalsAmount_counts_replacement (E := Double.ethers)
           (signed_withdrawal "paw_Victim" "100" "0xV" 0) (Double.world victim_store)
           0 (100 * ether));
    vm_compute; reflexivity.
Defined.

(** One withdrawal of 100 coins waits; a deposit job enters the queue
    and the pending amount stays at 100 coins. *)
Lemma getPendingWithdrawalsAmount_ignores_other_jobs_witness :
  let waiting :=
    fst (RedisProcessingQueue.addPawUserPendingWithdrawal
           (signed_withdrawal "paw_Victim" "100" "0xV" 0)
           (Double.world victim_store)) in
  snd (PendingWithdrawals.getPendingWithdrawalsAmount (E := Double.ethers)
         (fst (RedisProcessingQueue.addPawUserDeposit
                 (PawUserDeposit.mk "paw_user" "2" 1700000000000 "HASH2") waiting)))
  = Return (100 * ether).
Proof.
  apply (proj1 (getPendingWithdrawalsAmount_ignores_other_jobs (E := Double.ethers)
                  (fst (RedisProcessingQueue.addPawUserPendingWithdrawal
                          (signed_withdrawal "paw_Victim" "100" "0xV" 0)
                          (Double.world victim_store)))
                  (100 * ether) ltac:(vm_compute; reflexivity))).
Defined.

(** [0xA] swaps 20 of the 50 coins of [paw_Sender]. *)
Lemma processSwapToWPAW_receipt_needs_every_check_witness :
  exists amount balance : Z,
    Service.checkSignature (E := Double.ethers) "0xA"
      (SwapPawToWPAW.signature (signed_swap "paw_Sender" "20" "0xA"))
      (SwapToWPAW.swap_message "20" "paw_Sender") = Return true
    /\ RedisUsersDepositsStorage.hasClaim (ledger_redis funded_ledger) "paw_Sender"
         "0xA" = true
    /\ parseEther (Ethers := Double.ethers) "20" = Some amount
    /\ UsersDepositsService.getUserAvailableBalance (Double.env 0)
         (ledger_redis funded_ledger) "paw_Sender" = Return balance
    /\ 0 <= amount <= balance
    /\ signMintReceipt (chain_of burn_blocks) "0xA" amount 1700000000000
       = Some "0xRECEIPT"
    /\ mint_receipts
         (fst (SwapToWPAW.processSwapToWPAW (E := Double.ethers) (Double.env 0)
                 (chain_of burn_blocks) (signed_swap "paw_Sender" "20" "0xA")
                 funded_ledger))
       = [("0xA", amount)].
Proof.
  apply (processSwapToWPAW_receipt_needs_every_check (E := Double.ethers)
           (Double.env 0) (chain_of burn_blocks) (signed_swap "paw_Sender" "20" "0xA")
           funded_ledger "0xRECEIPT" 1700000000000 0).
  vm_compute. reflexivity.
Defined.

(** [0xB], which holds no claim of [paw_Sender], signs the same swap. *)
Lemma processSwapToWPAW_throw_keeps_store_witness :
  let run :=
    SwapToWPAW.processSwapToWPAW (E := Double.ethers) (Double.env 0)
      (chain_of burn_blocks) (signed_swap "paw_Sender" "20" "0xB") funded_ledger in
  ledger_redis (fst run) = ledger_redis funded_ledger
  /\ swaps_paw_to_wpaw (fst run) = ∅.
Proof.
  apply (processSwapToWPAW_throw_keeps_store (E := Double.ethers) (Double.env 0)
           (chain_of burn_blocks) (signed_swap "paw_Sender" "20" "0xB") funded_ledger
           InvalidOwnerError).
  vm_compute. reflexivity.
Defined.

Lemma processSwapToWPAW_debits_witness :
  let run :=
    SwapToWPAW.processSwapToWPAW (E := Double.ethers) (Double.env 0)
      (chain_of burn_blocks) (signed_swap "paw_Sender" "20" "0xA") funded_ledger in
  snd run = SwapReturn ("0xRECEIPT", 1700000000000, 0)
  /\ paw_balance (ledger_redis (fst run)) !! "paw_sender"
     = Some (50 * ether - 20 * ether)
  /\ 0 <= 50 * ether - 20 * ether
  /\ Cmd.zrank "paw_sender" "0xRECEIPT" (swaps_paw_to_wpaw (fst run))
     = Some 1700000000000
  /\ mint_receipts (fst run) = [("0xA", 20 * ether)].
Proof.
  apply (processSwapToWPAW_debits (E := Double.ethers) (Double.env 0)
           (chain_of burn_blocks) (signed_swap "paw_Sender" "20" "0xA") funded_ledger
           (20 * ether) (50 * ether) "0xRECEIPT" 0);
    first [ reflexivity | vm_compute; reflexivity | vm_compute; discriminate ].
Defined.

Lemma processSwapToWPAW_receipt_when_batch_fails_witness :
  SwapToWPAW.processSwapToWPAW (E := Double.ethers) batch_failing_env
    (chain_of burn_blocks) (signed_swap "paw_Sender" "20" "0xA") funded_ledger
  = (mkLedger (ledger_redis funded_ledger) ∅ [("0xA", 20 * ether)],
     SwapReturn ("0xRECEIPT", 1700000000000, 0)).
Proof.
  apply (processSwapToWPAW_receipt_when_batch_fails (E := Double.ethers)
           batch_failing_env (chain_of burn_blocks)
           (signed_swap "paw_Sender" "20" "0xA") funded_ledger
           (20 * ether) (50 * ether) "0xRECEIPT" 0);
    first [ reflexivity | vm_compute; reflexivity | vm_compute; discriminate ].
Defined.

(** After the deposit of [one_deposit], a later deposit of 2 coins heads
    the history of [paw_Sender]. *)
Lemma getDeposits_lists_new_deposit_first_witness :
  exists entry older,
    HistoryQueries.getDeposits
      (UsersDepositsService.storeUserDeposit (Double.env 0) one_deposit "paw_Sender"
         (2 * ether) 1700000000001 "0xNEW") "paw_Sender"
    = entry :: older
    /\ entry !! "type" = Some (AStr "deposit")
    /\ entry !! "hash" = Some (AStr "0xNEW")
    /\ entry !! "amount" = Some (ANum (2 * ether))
    /\ entry !! "timestamp" = Some (ANum 1700000000001)
    /\ entry !! "link" = Some (AStr "https://tracker.paw.digital/block/0xNEW").
Proof.
  apply (getDeposits_lists_new_deposit_first (Double.env 0) one_deposit "paw_Sender"
           (2 * ether) 1700000000001 "0xNEW");
    vm_compute; reflexivity.
Defined.

(** [0xV] withdraws 40 of the 100 coins of [paw_Victim]: the job reports
    100 coins and the store holds 60.  Asked with the address in lower
    case, the job reports 60. *)
Lemma withdrawalProcessor_reports_balance_witness :
  let run :=
    Service.withdrawalJob (E := Double.ethers) Double.config
      (Double.env (300 * ether)) (signed_withdrawal "paw_Victim" "40" "0xV" 0)
      (Double.world victim_store) in
  snd run = Return (mkWithdrawalResult "paw_Victim" "40" "100" "SENDBLOCK")
  /\ paw_balance (redis (fst run)) !! "paw_victim" = Some (100 * ether - 40 * ether).
Proof.
  apply (withdrawalProcessor_reports_balance (E := Double.ethers) Double.config
           (Double.env (300 * ether)) (signed_withdrawal "paw_Victim" "40" "0xV" 0)
           (Some (PawUserWithdrawal.signature
                    (signed_withdrawal "paw_Victim" "40" "0xV" 0)))
           (Double.world victim_store) (40 * ether) (100 * ether) "SENDBLOCK");
    first [ reflexivity
          | intros _; vm_compute; reflexivity
          | vm_compute; reflexivity
          | vm_compute; discriminate ].
Defined.

Example withdrawalJob_lower_case_address :
  snd (Service.withdrawalJob (E := Double.ethers) Double.config
         (Double.env (300 * ether)) (signed_withdrawal "paw_victim" "40" "0xV" 0)
         (Double.world victim_store))
  = Return (mkWithdrawalResult "paw_victim" "40" "60" "SENDBLOCK").
Proof. vm_compute. reflexivity. Qed.


(** 100 coins, a deposit of 5, a withdrawal of 40 and a deposit of 2: 67
    coins. *)
Lemma balance_is_sum_of_movements_witness :
  RedisUsersDepositsStorage.getUserAvailableBalance (Double.env 0)
    (fold_left (commit (Double.env 0) "paw_Victim")
       [Deposited (5 * ether) 1700000000001 "0xM1";
        Withdrawn (40 * ether) 1700000000002 "0xM2";
        Deposited (2 * ether) 1700000000003 "0xM3"] victim_store)
    "paw_victim"
  = Return (100 * ether + (5 * ether + (- (40 * ether) + (2 * ether + 0)))).
Proof.
  apply (proj1 (proj2 (balance_is_sum_of_movements (Double.env 0) "paw_Victim"
                         [Deposited (5 * ether) 1700000000001 "0xM1";
                          Withdrawn (40 * ether) 1700000000002 "0xM2";
                          Deposited (2 * ether) 1700000000003 "0xM3"] victim_store
                         eq_refl eq_refl))).
Defined.
